(** * triage-sdk-go: span attributes of the annotation context, the LLM call
    spans, the hierarchy spans and the SDK lifecycle.

    The development embeds the Go package [triage]:
    - constants.go, config.go, context.go, processor.go, sdk.go;
    - llm.go in its two revisions: the gen_ai-only one (PromptParams /
      CompletionParams, module [LlmGenAI]) and the dual-schema one (Prompt /
      Completion / Usage, module [LlmDual]);
    - workflow.go (module [Workflow]).

    The package state (sdk.go's variables), the OpenTelemetry globals and the
    spans are threaded through every call as a [State]; a call returns a value
    and the next state, or panics (monad [M]).  One goroutine is modelled: the
    mutex of sdk.go is not.

    The OpenTelemetry runtime is outside the package.  It enters as a store of
    spans with the behaviour the package runs on: a tracer of a live SDK
    provider starts recording spans and runs the registered
    triageSpanProcessor on them; a span exports, for each key, the last value
    set, and keeps at most 128 attributes and 128 events, the limits of a
    provider built as Init builds it; once a span has ended every operation
    on it does nothing; when no SDK provider is live a tracer hands out a
    span that records nothing and carries the span context of the span it
    was started from.  Span kinds, timestamps, trace and span identifiers
    and the limit on the length of a value (none by default) are not
    modelled; the OTEL_SPAN_* environment variables are taken unset. *)

From Stdlib Require Import ZArith Lia Ascii String DecimalString DecimalNat.
From stdpp Require Import base option list strings.

Local Open Scope Z_scope.
Local Open Scope string_scope.
Local Open Scope list_scope.

(** ** Go values *)

(** A Go value handed to encoding/json enters the model as the outcome
    json.Marshal has on it: the encoded text, or [None] when Marshal returns an
    error. *)
Record any := { json_Marshal : option string }.

(** float64, carried through untouched: its IEEE-754 bit pattern. *)
Definition float64 := Z.

(** [s == ""] *)
Definition is_empty (s : string) : bool :=
  match s with
  | EmptyString => true
  | String _ _ => false
  end.

(** strings.HasPrefix *)
Fixpoint has_prefix (p s : string) : bool :=
  match p, s with
  | EmptyString, _ => true
  | String a p', String b s' => Ascii.eqb a b && has_prefix p' s'
  | String _ _, EmptyString => false
  end.

(** The verb %d of fmt.Sprintf on a slice index. *)
Definition itoa (i : nat) : string := NilEmpty.string_of_uint (Nat.to_uint i).

(** ** go.opentelemetry.io/otel/attribute *)

Inductive Value :=
| STRING (s : string)
| INT64 (n : Z)
| FLOAT64 (x : float64)
| STRINGSLICE (l : list string).

Definition KeyValue : Type := string * Value.

Definition attr_String (k v : string) : KeyValue := (k, STRING v).
Definition attr_Int (k : string) (v : Z) : KeyValue := (k, INT64 v).
Definition attr_Float64 (k : string) (v : float64) : KeyValue := (k, FLOAT64 v).
Definition attr_StringSlice (k : string) (v : list string) : KeyValue :=
  (k, STRINGSLICE v).

(** The value a span exports under [k]: attributes are kept in the order they
    were set and a later write of a key replaces an earlier one. *)
Fixpoint attr_get (k : string) (kvs : list KeyValue) : option Value :=
  match kvs with
  | [] => None
  | (k', v) :: rest =>
      match attr_get k rest with
      | Some w => Some w
      | None => if String.eqb k k' then Some v else None
      end
  end.

Definition has_key (k : string) (kvs : list KeyValue) : bool :=
  existsb (fun kv => String.eqb k (fst kv)) kvs.

(** Some key of [kvs] starts with [p]. *)
Definition has_key_prefix (p : string) (kvs : list KeyValue) : bool :=
  existsb (fun kv => has_prefix p (fst kv)) kvs.

(** ** constants.go *)

Definition AttrUserID := "triage.user.id".
Definition AttrUserRole := "triage.user.role".
Definition AttrTenantID := "triage.tenant.id".
Definition AttrTenantName := "triage.tenant.name".
Definition AttrSessionID := "triage.session.id".
Definition AttrSessionTurn := "triage.session.turn_number".
Definition AttrSessionHash := "triage.session.history_hash".
Definition AttrInputRaw := "triage.input.raw".
Definition AttrInputSanitized := "triage.input.sanitized".
Definition AttrTemplateID := "triage.template.id".
Definition AttrTemplateVersion := "triage.template.version".
Definition AttrChunkACLs := "triage.chunk_acls".

Definition AttrSDKName := "triage.sdk.name".
Definition AttrSDKVersion := "triage.sdk.version".
Definition sdkName := "triage-sdk-go".

Definition EnvAPIKey := "TRIAGE_API_KEY".
Definition EnvEndpoint := "TRIAGE_ENDPOINT".
Definition EnvAppName := "TRIAGE_APP_NAME".
Definition EnvEnvironment := "TRIAGE_ENVIRONMENT".
Definition EnvEnabled := "TRIAGE_ENABLED".
Definition EnvTraceContent := "TRIAGE_TRACE_CONTENT".

Definition AttrGenAISystem := "gen_ai.system".
Definition AttrGenAIRequestModel := "gen_ai.request.model".
Definition AttrGenAIResponseModel := "gen_ai.response.model".
Definition AttrGenAIRequestTemperature := "gen_ai.request.temperature".
Definition AttrGenAIRequestTopP := "gen_ai.request.top_p".
Definition AttrGenAIRequestMaxTokens := "gen_ai.request.max_tokens".
Definition AttrGenAIRequestStopSequences := "gen_ai.request.stop_sequences".
Definition AttrGenAIUsageInputTokens := "gen_ai.usage.input_tokens".
Definition AttrGenAIUsageOutputTokens := "gen_ai.usage.output_tokens".
Definition AttrGenAIUsageTotalTokens := "gen_ai.usage.total_tokens".
Definition AttrGenAIUsageReasoningTokens := "gen_ai.usage.reasoning_tokens".
Definition AttrGenAIUsageCacheReadTokens := "gen_ai.usage.cache_read_tokens".
Definition AttrGenAIUsageCacheWriteTokens := "gen_ai.usage.cache_write_tokens".
Definition AttrGenAIResponseFinishReason := "gen_ai.response.finish_reason".

Definition DefaultEndpoint := "https://api.triageai.dev".
Definition defaultOTLPTracesPath := "/v1/traces".

(** ** config.go *)

Record config := {
  apiKey : string;
  endpoint : string;
  appName : string;
  environment : string;
  enabled : bool;
  traceContent : bool
}.

(** An Option is a closure that assigns one field of the config. *)
Inductive Option_ :=
| WithAPIKey (key : string)
| WithEndpoint (ep : string)
| WithAppName (name : string)
| WithEnvironment (env : string)
| WithEnabled (b : bool)
| WithTraceContent (b : bool).

Definition apply_Option (o : Option_) (c : config) : config :=
  match o with
  | WithAPIKey key =>
      {| apiKey := key; endpoint := endpoint c; appName := appName c;
         environment := environment c; enabled := enabled c;
         traceContent := traceContent c |}
  | WithEndpoint ep =>
      {| apiKey := apiKey c; endpoint := ep; appName := appName c;
         environment := environment c; enabled := enabled c;
         traceContent := traceContent c |}
  | WithAppName name =>
      {| apiKey := apiKey c; endpoint := endpoint c; appName := name;
         environment := environment c; enabled := enabled c;
         traceContent := traceContent c |}
  | WithEnvironment env =>
      {| apiKey := apiKey c; endpoint := endpoint c; appName := appName c;
         environment := env; enabled := enabled c;
         traceContent := traceContent c |}
  | WithEnabled b =>
      {| apiKey := apiKey c; endpoint := endpoint c; appName := appName c;
         environment := environment c; enabled := b;
         traceContent := traceContent c |}
  | WithTraceContent b =>
      {| apiKey := apiKey c; endpoint := endpoint c; appName := appName c;
         environment := environment c; enabled := enabled c;
         traceContent := b |}
  end.

(** What the process sees of its operating system: the environment variables
    (os.Getenv gives "" for an unset one) and os.Args. *)
Record OS := {
  os_environ : list (string * string);
  os_Args : list string
}.

Fixpoint Getenv (env : list (string * string)) (key : string) : string :=
  match env with
  | [] => ""
  | (k, v) :: rest => if String.eqb k key then v else Getenv rest key
  end.

(** strings.ToLower, on the ASCII letters. *)
Definition lower_ascii (c : ascii) : ascii :=
  let n := nat_of_ascii c in
  if (Nat.leb 65 n && Nat.leb n 90)%bool then ascii_of_nat (n + 32) else c.

Fixpoint ToLower (s : string) : string :=
  match s with
  | EmptyString => EmptyString
  | String c s' => String (lower_ascii c) (ToLower s')
  end.

Definition envBool (os : OS) (key : string) : bool * bool :=
  let v := Getenv (os_environ os) key in
  if is_empty v then (false, false)
  else
    let l := ToLower v in
    if (String.eqb l "true" || String.eqb l "1" || String.eqb l "yes")%bool
    then (true, true)
    else (false, true).

(** filepath.Base on slash-separated paths. *)
Fixpoint strip_trailing_slashes (rev_path : list ascii) : list ascii :=
  match rev_path with
  | c :: rest => if Ascii.eqb c "/" then strip_trailing_slashes rest else rev_path
  | [] => []
  end.

Fixpoint take_until_slash (rev_path : list ascii) : list ascii :=
  match rev_path with
  | c :: rest => if Ascii.eqb c "/" then [] else c :: take_until_slash rest
  | [] => []
  end.

Definition filepath_Base (path : string) : string :=
  if is_empty path then "."
  else
    let r := strip_trailing_slashes (rev (list_ascii_of_string path)) in
    match r with
    | [] => "/"
    | _ => string_of_list_ascii (rev (take_until_slash r))
    end.

Definition defaultAppName (os : OS) : string :=
  match os_Args os with
  | a0 :: _ => if is_empty a0 then "unknown" else filepath_Base a0
  | [] => "unknown"
  end.

(** resolveConfig: defaults, then environment variables, then the explicit
    options; [inr] carries the error of a missing API key. *)
Definition resolveConfig (os : OS) (opts : list Option_) : config + string :=
  let cfg := {| apiKey := ""; endpoint := DefaultEndpoint;
                appName := defaultAppName os; environment := "development";
                enabled := true; traceContent := true |} in
  let getenv := Getenv (os_environ os) in
  let cfg := if is_empty (getenv EnvAPIKey) then cfg
             else apply_Option (WithAPIKey (getenv EnvAPIKey)) cfg in
  let cfg := if is_empty (getenv EnvEndpoint) then cfg
             else apply_Option (WithEndpoint (getenv EnvEndpoint)) cfg in
  let cfg := if is_empty (getenv EnvAppName) then cfg
             else apply_Option (WithAppName (getenv EnvAppName)) cfg in
  let cfg := if is_empty (getenv EnvEnvironment) then cfg
             else apply_Option (WithEnvironment (getenv EnvEnvironment)) cfg in
  let cfg := match envBool os EnvEnabled with
             | (v, true) => apply_Option (WithEnabled v) cfg
             | (_, false) => cfg
             end in
  let cfg := match envBool os EnvTraceContent with
             | (v, true) => apply_Option (WithTraceContent v) cfg
             | (_, false) => cfg
             end in
  let cfg := fold_left (fun c o => apply_Option o c) opts cfg in
  if is_empty (apiKey cfg)
  then inr ("triage: API key is required. Pass triage.WithAPIKey() to Init() "
            +:+ "or set the " +:+ EnvAPIKey +:+ " environment variable")
  else inl cfg.

(** ** The process state *)

(** What lies outside the package and decides how its calls to the outside
    end: the operating system, and the errors (if any) that
    otlptracehttp.New, resource.Merge and TracerProvider.Shutdown return. *)
Record World := {
  os : OS;
  exporter_New_err : option string;
  resource_Merge_err : option string;
  provider_Shutdown_err : option string
}.

(** A span of the OpenTelemetry SDK, as the in-memory exporter shows it: its
    attributes with one entry for each key, in the order the keys were first
    set. *)
Record Span := {
  span_name : string;
  span_parent : option nat;
  span_attrs : list KeyValue;
  span_errors : list string;          (* RecordError events *)
  span_status : option string;        (* Some d: codes.Error with description d *)
  span_ended : bool
}.

(** A trace.Span interface value that is not nil: a span that records
    nothing, with the span context it carries (that of a span of the store,
    or [None] for the invalid span context of the no-op span), or a span of
    the SDK, by its index in the store. *)
Inductive SpanHandle :=
| nonRecordingSpan (sc : option nat)
| recordingSpan (id : nat).

(** The OpenTelemetry globals: the registered tracer provider (None: the
    default no-op one), how many SDK providers were built, those that were shut
    down, and every span started so far. *)
Record Otel := {
  global_tp : option nat;
  tp_built : nat;
  tp_down : list nat;
  spans : list Span
}.

(** sdk.go's package variables; [globalCfg] is the name the dual-schema
    revision of llm.go reads the active configuration under. *)
Record Sdk := {
  initialized : bool;
  provider : option nat;
  activeConfig : option config;
  globalCfg : option config
}.

Inductive Level := LevelInfo | LevelWarn | LevelError.

Record State := {
  world : World;
  sdk : Sdk;
  otel : Otel;
  slog : list (Level * string)
}.

Definition set_sdk (s : Sdk) (st : State) : State :=
  {| world := world st; sdk := s; otel := otel st; slog := slog st |}.

Definition set_otel (o : Otel) (st : State) : State :=
  {| world := world st; sdk := sdk st; otel := o; slog := slog st |}.

Definition set_spans (l : list Span) (st : State) : State :=
  set_otel {| global_tp := global_tp (otel st); tp_built := tp_built (otel st);
              tp_down := tp_down (otel st); spans := l |} st.

Definition add_log (lvl : Level) (msg : string) (st : State) : State :=
  {| world := world st; sdk := sdk st; otel := otel st;
     slog := slog st ++ [(lvl, msg)] |}.

(** A call either returns a value and the next state, or panics. *)
Inductive Outcome (A : Type) :=
| Done (a : A) (st : State)
| Panic (msg : string).
Arguments Done {A} a st.
Arguments Panic {A} msg.

Definition M (A : Type) : Type := State -> Outcome A.

Definition ret {A} (a : A) : M A := fun st => Done a st.

Definition bind {A B} (m : M A) (k : A -> M B) : M B :=
  fun st => match m st with
            | Done a st' => k a st'
            | Panic msg => Panic msg
            end.

Definition modify (f : State -> State) : M unit := fun st => Done tt (f st).
Definition panic {A} (msg : string) : M A := fun _ => Panic msg.

Notation "x <- m ;; k" := (bind m (fun x => k))
  (at level 100, m at next level, right associativity).
Notation "m ;;; k" := (bind m (fun _ => k))
  (at level 100, right associativity).

(** if cond { body } *)
Definition when (b : bool) (m : M unit) : M unit := if b then m else ret tt.

(** for i, x := range xs { body i x } *)
Fixpoint range_from {A} (i : nat) (xs : list A) (body : nat -> A -> M unit) : M unit :=
  match xs with
  | [] => ret tt
  | x :: rest => body i x ;;; range_from (S i) rest body
  end.

Definition range {A} (xs : list A) (body : nat -> A -> M unit) : M unit :=
  range_from 0 xs body.

(** for i, x := range xs { attrs = append(attrs, body i x...) } *)
Fixpoint collect_from {A} (i : nat) (xs : list A)
    (body : nat -> A -> list KeyValue) : list KeyValue :=
  match xs with
  | [] => []
  | x :: rest => body i x ++ collect_from (S i) rest body
  end.

Definition collect {A} (xs : list A) (body : nat -> A -> list KeyValue)
    : list KeyValue :=
  collect_from 0 xs body.

(** ** Span operations of the OpenTelemetry SDK *)

(** The span limits of a provider built without WithSpanLimits, as Init
    builds it: sdktrace.DefaultAttributeCountLimit and
    sdktrace.DefaultEventCountLimit. *)
Definition AttributeCountLimit : nat := 128.
Definition EventCountLimit : nat := 128.

(** SetAttributes, one attribute at a time (recordingSpan.SetAttributes and
    addOverCapAttrs of the SDK, seen through the de-duplication the SDK does
    before it exports): a key the span has takes the new value in place, also
    when the span is full; a new key is appended while the span holds fewer
    attributes than the limit, and dropped once it is full.  Every key the
    package sets is a non-empty string, so the SDK never drops one as
    invalid. *)
Definition replace_attr (kv : KeyValue) (attrs : list KeyValue) : list KeyValue :=
  map (fun old => if String.eqb (fst kv) (fst old) then kv else old) attrs.

Definition set_attr (attrs : list KeyValue) (kv : KeyValue) : list KeyValue :=
  if has_key (fst kv) attrs then replace_attr kv attrs
  else if Nat.ltb (length attrs) AttributeCountLimit then attrs ++ [kv]
  else attrs.

Definition set_attrs (attrs kvs : list KeyValue) : list KeyValue :=
  fold_left set_attr kvs attrs.

Definition add_attrs (kvs : list KeyValue) (sp : Span) : Span :=
  {| span_name := span_name sp; span_parent := span_parent sp;
     span_attrs := set_attrs (span_attrs sp) kvs; span_errors := span_errors sp;
     span_status := span_status sp; span_ended := span_ended sp |}.

(** RecordError adds an event; a span that holds EventCountLimit events gives
    up the oldest one. *)
Definition add_error (e : string) (sp : Span) : Span :=
  {| span_name := span_name sp; span_parent := span_parent sp;
     span_attrs := span_attrs sp;
     span_errors := (if Nat.ltb (length (span_errors sp)) EventCountLimit
                     then span_errors sp else tl (span_errors sp)) ++ [e];
     span_status := span_status sp; span_ended := span_ended sp |}.

Definition set_status (description : string) (sp : Span) : Span :=
  {| span_name := span_name sp; span_parent := span_parent sp;
     span_attrs := span_attrs sp; span_errors := span_errors sp;
     span_status := Some description; span_ended := span_ended sp |}.

Definition end_span (sp : Span) : Span :=
  {| span_name := span_name sp; span_parent := span_parent sp;
     span_attrs := span_attrs sp; span_errors := span_errors sp;
     span_status := span_status sp; span_ended := true |}.

Definition put_span (id : nat) (sp : Span) (st : State) : State :=
  set_spans (<[id := sp]> (spans (otel st))) st.

(** A span that has ended, or that is not in the store, is left alone. *)
Definition update_span (id : nat) (f : Span -> Span) (st : State) : State :=
  match spans (otel st) !! id with
  | Some sp => if span_ended sp then st else put_span id (f sp) st
  | None => st
  end.

Definition span_IsRecording (h : SpanHandle) : M bool :=
  fun st => match h with
            | nonRecordingSpan _ => Done false st
            | recordingSpan id =>
                match spans (otel st) !! id with
                | Some sp => Done (negb (span_ended sp)) st
                | None => Done false st
                end
            end.

Definition span_SetAttributes (h : SpanHandle) (kvs : list KeyValue) : M unit :=
  match h with
  | nonRecordingSpan _ => ret tt
  | recordingSpan id => modify (update_span id (add_attrs kvs))
  end.

(** RecordError ignores a nil error. *)
Definition span_RecordError (h : SpanHandle) (err : option string) : M unit :=
  match h, err with
  | recordingSpan id, Some e => modify (update_span id (add_error e))
  | _, _ => ret tt
  end.

(** SetStatus(codes.Error, description) *)
Definition span_SetStatus_Error (h : SpanHandle) (description : string) : M unit :=
  match h with
  | nonRecordingSpan _ => ret tt
  | recordingSpan id => modify (update_span id (set_status description))
  end.

Definition span_End (h : SpanHandle) : M unit :=
  match h with
  | nonRecordingSpan _ => ret tt
  | recordingSpan id => modify (update_span id end_span)
  end.

(** The registered provider is an SDK provider that was not shut down. *)
Definition tracing (st : State) : bool :=
  match global_tp (otel st) with
  | Some tp => negb (existsb (Nat.eqb tp) (tp_down (otel st)))
  | None => false
  end.

(** ** context.go *)

(** triageContext holds all triage annotation values attached to a context;
    [sessionTurnNumber] is a *int, nil when no turn number was given. *)
Record triageContext := {
  userID : string;
  userRole : string;
  tenantID : string;
  tenantName : string;
  sessionID : string;
  sessionTurnNumber : option Z;
  sessionHistoryHash : string;
  inputRaw : string;
  inputSanitized : string;
  templateID : string;
  templateVersion : string;
  chunkACLs : string
}.

(** triageContext{} *)
Definition zero_triageContext : triageContext :=
  {| userID := ""; userRole := ""; tenantID := ""; tenantName := "";
     sessionID := ""; sessionTurnNumber := None; sessionHistoryHash := "";
     inputRaw := ""; inputSanitized := ""; templateID := "";
     templateVersion := ""; chunkACLs := "" |}.

Definition set_userID (v : string) (tc : triageContext) : triageContext :=
  {| userID := v; userRole := userRole tc; tenantID := tenantID tc;
     tenantName := tenantName tc; sessionID := sessionID tc;
     sessionTurnNumber := sessionTurnNumber tc;
     sessionHistoryHash := sessionHistoryHash tc; inputRaw := inputRaw tc;
     inputSanitized := inputSanitized tc; templateID := templateID tc;
     templateVersion := templateVersion tc; chunkACLs := chunkACLs tc |}.

Definition set_userRole (v : string) (tc : triageContext) : triageContext :=
  {| userID := userID tc; userRole := v; tenantID := tenantID tc;
     tenantName := tenantName tc; sessionID := sessionID tc;
     sessionTurnNumber := sessionTurnNumber tc;
     sessionHistoryHash := sessionHistoryHash tc; inputRaw := inputRaw tc;
     inputSanitized := inputSanitized tc; templateID := templateID tc;
     templateVersion := templateVersion tc; chunkACLs := chunkACLs tc |}.

Definition set_tenantID (v : string) (tc : triageContext) : triageContext :=
  {| userID := userID tc; userRole := userRole tc; tenantID := v;
     tenantName := tenantName tc; sessionID := sessionID tc;
     sessionTurnNumber := sessionTurnNumber tc;
     sessionHistoryHash := sessionHistoryHash tc; inputRaw := inputRaw tc;
     inputSanitized := inputSanitized tc; templateID := templateID tc;
     templateVersion := templateVersion tc; chunkACLs := chunkACLs tc |}.

Definition set_tenantName (v : string) (tc : triageContext) : triageContext :=
  {| userID := userID tc; userRole := userRole tc; tenantID := tenantID tc;
     tenantName := v; sessionID := sessionID tc;
     sessionTurnNumber := sessionTurnNumber tc;
     sessionHistoryHash := sessionHistoryHash tc; inputRaw := inputRaw tc;
     inputSanitized := inputSanitized tc; templateID := templateID tc;
     templateVersion := templateVersion tc; chunkACLs := chunkACLs tc |}.

Definition set_sessionID (v : string) (tc : triageContext) : triageContext :=
  {| userID := userID tc; userRole := userRole tc; tenantID := tenantID tc;
     tenantName := tenantName tc; sessionID := v;
     sessionTurnNumber := sessionTurnNumber tc;
     sessionHistoryHash := sessionHistoryHash tc; inputRaw := inputRaw tc;
     inputSanitized := inputSanitized tc; templateID := templateID tc;
     templateVersion := templateVersion tc; chunkACLs := chunkACLs tc |}.

Definition set_sessionTurnNumber (v : option Z) (tc : triageContext) : triageContext :=
  {| userID := userID tc; userRole := userRole tc; tenantID := tenantID tc;
     tenantName := tenantName tc; sessionID := sessionID tc;
     sessionTurnNumber := v;
     sessionHistoryHash := sessionHistoryHash tc; inputRaw := inputRaw tc;
     inputSanitized := inputSanitized tc; templateID := templateID tc;
     templateVersion := templateVersion tc; chunkACLs := chunkACLs tc |}.

Definition set_sessionHistoryHash (v : string) (tc : triageContext) : triageContext :=
  {| userID := userID tc; userRole := userRole tc; tenantID := tenantID tc;
     tenantName := tenantName tc; sessionID := sessionID tc;
     sessionTurnNumber := sessionTurnNumber tc;
     sessionHistoryHash := v; inputRaw := inputRaw tc;
     inputSanitized := inputSanitized tc; templateID := templateID tc;
     templateVersion := templateVersion tc; chunkACLs := chunkACLs tc |}.

Definition set_inputRaw (v : string) (tc : triageContext) : triageContext :=
  {| userID := userID tc; userRole := userRole tc; tenantID := tenantID tc;
     tenantName := tenantName tc; sessionID := sessionID tc;
     sessionTurnNumber := sessionTurnNumber tc;
     sessionHistoryHash := sessionHistoryHash tc; inputRaw := v;
     inputSanitized := inputSanitized tc; templateID := templateID tc;
     templateVersion := templateVersion tc; chunkACLs := chunkACLs tc |}.

Definition set_inputSanitized (v : string) (tc : triageContext) : triageContext :=
  {| userID := userID tc; userRole := userRole tc; tenantID := tenantID tc;
     tenantName := tenantName tc; sessionID := sessionID tc;
     sessionTurnNumber := sessionTurnNumber tc;
     sessionHistoryHash := sessionHistoryHash tc; inputRaw := inputRaw tc;
     inputSanitized := v; templateID := templateID tc;
     templateVersion := templateVersion tc; chunkACLs := chunkACLs tc |}.

Definition set_templateID (v : string) (tc : triageContext) : triageContext :=
  {| userID := userID tc; userRole := userRole tc; tenantID := tenantID tc;
     tenantName := tenantName tc; sessionID := sessionID tc;
     sessionTurnNumber := sessionTurnNumber tc;
     sessionHistoryHash := sessionHistoryHash tc; inputRaw := inputRaw tc;
     inputSanitized := inputSanitized tc; templateID := v;
     templateVersion := templateVersion tc; chunkACLs := chunkACLs tc |}.

Definition set_templateVersion (v : string) (tc : triageContext) : triageContext :=
  {| userID := userID tc; userRole := userRole tc; tenantID := tenantID tc;
     tenantName := tenantName tc; sessionID := sessionID tc;
     sessionTurnNumber := sessionTurnNumber tc;
     sessionHistoryHash := sessionHistoryHash tc; inputRaw := inputRaw tc;
     inputSanitized := inputSanitized tc; templateID := templateID tc;
     templateVersion := v; chunkACLs := chunkACLs tc |}.

Definition set_chunkACLs (v : string) (tc : triageContext) : triageContext :=
  {| userID := userID tc; userRole := userRole tc; tenantID := tenantID tc;
     tenantName := tenantName tc; sessionID := sessionID tc;
     sessionTurnNumber := sessionTurnNumber tc;
     sessionHistoryHash := sessionHistoryHash tc; inputRaw := inputRaw tc;
     inputSanitized := inputSanitized tc; templateID := templateID tc;
     templateVersion := templateVersion tc; chunkACLs := v |}.

(** clone copies the struct and gives the copy a turn number of its own. *)
Definition clone (tc : triageContext) : triageContext :=
  let c := tc in
  match sessionTurnNumber tc with
  | Some n => set_sessionTurnNumber (Some n) c
  | None => c
  end.

(** The option closures: each one assigns one field of the triageContext it
    is applied to.  The fields are unexported, so these constructors are the
    only options there are. *)
Inductive UserOption := UserRole (role : string).
Inductive TenantOption := TenantName (name : string).
Inductive SessionOption := TurnNumber (n : Z) | HistoryHash (h : string).
Inductive InputOption := Sanitized (s : string).
Inductive TemplateOption := TemplateVersion (v : string).

Definition call_UserOption (o : UserOption) (tc : triageContext) : triageContext :=
  match o with UserRole role => set_userRole role tc end.

Definition call_TenantOption (o : TenantOption) (tc : triageContext) : triageContext :=
  match o with TenantName name => set_tenantName name tc end.

Definition call_SessionOption (o : SessionOption) (tc : triageContext) : triageContext :=
  match o with
  | TurnNumber n => set_sessionTurnNumber (Some n) tc
  | HistoryHash h => set_sessionHistoryHash h tc
  end.

Definition call_InputOption (o : InputOption) (tc : triageContext) : triageContext :=
  match o with Sanitized s => set_inputSanitized s tc end.

Definition call_TemplateOption (o : TemplateOption) (tc : triageContext) : triageContext :=
  match o with TemplateVersion v => set_templateVersion v tc end.

(** A context.Context, by the values this package stores in and reads from
    it: the triageContext under contextKey{}, the workflow name under
    workflowNameKey{}, and the current span. *)
Record Context := {
  ctx_triage : option triageContext;
  ctx_workflowName : option string;
  ctx_span : SpanHandle
}.

(** context.Background(): trace.SpanFromContext gives the no-op span for
    it. *)
Definition Background : Context :=
  {| ctx_triage := None; ctx_workflowName := None;
     ctx_span := nonRecordingSpan None |}.

Definition getFromContext (ctx : Context) : triageContext :=
  match ctx_triage ctx with
  | Some tc => tc
  | None => zero_triageContext
  end.

Definition setInContext (ctx : Context) (tc : triageContext) : Context :=
  {| ctx_triage := Some tc; ctx_workflowName := ctx_workflowName ctx;
     ctx_span := ctx_span ctx |}.

(** trace.SpanFromContext and trace.ContextWithSpan *)
Definition SpanFromContext (ctx : Context) : SpanHandle := ctx_span ctx.

Definition ContextWithSpan (ctx : Context) (h : SpanHandle) : Context :=
  {| ctx_triage := ctx_triage ctx; ctx_workflowName := ctx_workflowName ctx;
     ctx_span := h |}.

(** if cond { attrs = append(attrs, kv) } *)
Definition append_if (cond : bool) (attrs : list KeyValue) (kv : KeyValue) : list KeyValue :=
  if cond then attrs ++ [kv] else attrs.

Definition getTriageAttrs (ctx : Context) : list KeyValue :=
  let tc := getFromContext ctx in
  let attrs := [] in
  let attrs := append_if (negb (is_empty (userID tc))) attrs
                 (attr_String AttrUserID (userID tc)) in
  let attrs := append_if (negb (is_empty (userRole tc))) attrs
                 (attr_String AttrUserRole (userRole tc)) in
  let attrs := append_if (negb (is_empty (tenantID tc))) attrs
                 (attr_String AttrTenantID (tenantID tc)) in
  let attrs := append_if (negb (is_empty (tenantName tc))) attrs
                 (attr_String AttrTenantName (tenantName tc)) in
  let attrs := append_if (negb (is_empty (sessionID tc))) attrs
                 (attr_String AttrSessionID (sessionID tc)) in
  let attrs := match sessionTurnNumber tc with
               | Some n => attrs ++ [attr_Int AttrSessionTurn n]
               | None => attrs
               end in
  let attrs := append_if (negb (is_empty (sessionHistoryHash tc))) attrs
                 (attr_String AttrSessionHash (sessionHistoryHash tc)) in
  let attrs := append_if (negb (is_empty (inputRaw tc))) attrs
                 (attr_String AttrInputRaw (inputRaw tc)) in
  let attrs := append_if (negb (is_empty (inputSanitized tc))) attrs
                 (attr_String AttrInputSanitized (inputSanitized tc)) in
  let attrs := append_if (negb (is_empty (templateID tc))) attrs
                 (attr_String AttrTemplateID (templateID tc)) in
  let attrs := append_if (negb (is_empty (templateVersion tc))) attrs
                 (attr_String AttrTemplateVersion (templateVersion tc)) in
  let attrs := append_if (negb (is_empty (chunkACLs tc))) attrs
                 (attr_String AttrChunkACLs (chunkACLs tc)) in
  attrs.

Definition WithUser (ctx : Context) (id : string) (opts : list UserOption) : M Context :=
  let tc := clone (getFromContext ctx) in
  let tc := set_userID id tc in
  let tc := fold_left (fun tc o => call_UserOption o tc) opts tc in
  let span := SpanFromContext ctx in
  recording <- span_IsRecording span ;;
  when recording (
    span_SetAttributes span [attr_String AttrUserID (userID tc)] ;;;
    when (negb (is_empty (userRole tc)))
      (span_SetAttributes span [attr_String AttrUserRole (userRole tc)])) ;;;
  ret (setInContext ctx tc).

Definition WithTenant (ctx : Context) (id : string) (opts : list TenantOption) : M Context :=
  let tc := clone (getFromContext ctx) in
  let tc := set_tenantID id tc in
  let tc := fold_left (fun tc o => call_TenantOption o tc) opts tc in
  let span := SpanFromContext ctx in
  recording <- span_IsRecording span ;;
  when recording (
    span_SetAttributes span [attr_String AttrTenantID (tenantID tc)] ;;;
    when (negb (is_empty (tenantName tc)))
      (span_SetAttributes span [attr_String AttrTenantName (tenantName tc)])) ;;;
  ret (setInContext ctx tc).

Definition WithSession (ctx : Context) (id : string) (opts : list SessionOption) : M Context :=
  let tc := clone (getFromContext ctx) in
  let tc := set_sessionID id tc in
  let tc := fold_left (fun tc o => call_SessionOption o tc) opts tc in
  let span := SpanFromContext ctx in
  recording <- span_IsRecording span ;;
  when recording (
    span_SetAttributes span [attr_String AttrSessionID (sessionID tc)] ;;;
    match sessionTurnNumber tc with
    | Some n => span_SetAttributes span [attr_Int AttrSessionTurn n]
    | None => ret tt
    end ;;;
    when (negb (is_empty (sessionHistoryHash tc)))
      (span_SetAttributes span [attr_String AttrSessionHash (sessionHistoryHash tc)])) ;;;
  ret (setInContext ctx tc).

Definition WithInput (ctx : Context) (raw : string) (opts : list InputOption) : M Context :=
  let tc := clone (getFromContext ctx) in
  let tc := set_inputRaw raw tc in
  let tc := fold_left (fun tc o => call_InputOption o tc) opts tc in
  let span := SpanFromContext ctx in
  recording <- span_IsRecording span ;;
  when recording (
    span_SetAttributes span [attr_String AttrInputRaw (inputRaw tc)] ;;;
    when (negb (is_empty (inputSanitized tc)))
      (span_SetAttributes span [attr_String AttrInputSanitized (inputSanitized tc)])) ;;;
  ret (setInContext ctx tc).

Definition WithTemplate (ctx : Context) (id : string) (opts : list TemplateOption) : M Context :=
  let tc := clone (getFromContext ctx) in
  let tc := set_templateID id tc in
  let tc := fold_left (fun tc o => call_TemplateOption o tc) opts tc in
  let span := SpanFromContext ctx in
  recording <- span_IsRecording span ;;
  when recording (
    span_SetAttributes span [attr_String AttrTemplateID (templateID tc)] ;;;
    when (negb (is_empty (templateVersion tc)))
      (span_SetAttributes span [attr_String AttrTemplateVersion (templateVersion tc)])) ;;;
  ret (setInContext ctx tc).

Definition WithChunkACLs (ctx : Context) (acls : any) : M Context :=
  let tc := clone (getFromContext ctx) in
  match json_Marshal acls with
  | None => ret (setInContext ctx tc)
  | Some data =>
      let tc := set_chunkACLs data tc in
      let span := SpanFromContext ctx in
      recording <- span_IsRecording span ;;
      when recording
        (span_SetAttributes span [attr_String AttrChunkACLs (chunkACLs tc)]) ;;;
      ret (setInContext ctx tc)
  end.

(** ** processor.go *)

Definition triageSpanProcessor_OnStart (ctx : Context) (span : SpanHandle) : M unit :=
  let attrs := getTriageAttrs ctx in
  when (Nat.ltb 0 (length attrs)) (span_SetAttributes span attrs).

(** ** Tracer.Start of the registered provider *)

Definition new_span (name : string) (parent : option nat) : Span :=
  {| span_name := name; span_parent := parent; span_attrs := [];
     span_errors := []; span_status := None; span_ended := false |}.

(** trace.SpanContextFromContext: the span context of the context's span. *)
Definition SpanContextFromContext (ctx : Context) : option nat :=
  match SpanFromContext ctx with
  | recordingSpan p => Some p
  | nonRecordingSpan sc => sc
  end.

(** Under a live SDK provider (built with the triageSpanProcessor, as Init
    builds it) Start appends a recording span whose parent is the span
    context of the context Start was given, runs the processor on it with
    that context, and returns the context that carries the new span.
    Otherwise (the default global provider, or an SDK provider that was shut
    down) it returns a span that records nothing and carries that same span
    context, so that a span started later from the returned context still
    has the parent the given context pointed to. *)
Definition tracer_Start (ctx : Context) (name : string) : M (Context * SpanHandle) :=
  fun st =>
    let parent := SpanContextFromContext ctx in
    if tracing st then
      let id := length (spans (otel st)) in
      let sp := new_span name parent in
      (triageSpanProcessor_OnStart ctx (recordingSpan id) ;;;
       ret (ContextWithSpan ctx (recordingSpan id), recordingSpan id))
        (set_spans (spans (otel st) ++ [sp]) st)
    else Done (ContextWithSpan ctx (nonRecordingSpan parent), nonRecordingSpan parent) st.

(** ** sdk.go *)

(** The function Init returns: the no-op closure, or the closure that calls
    Shutdown with a five-second deadline and logs its error. *)
Inductive ShutdownFunc := noop | shutdown.

Definition Shutdown : M (option string) :=
  fun st =>
    match initialized (sdk st), provider (sdk st) with
    | true, Some tp =>
        (* err := provider.Shutdown(ctx) *)
        let err := provider_Shutdown_err (world st) in
        let o := otel st in
        let st := set_otel {| global_tp := global_tp o; tp_built := tp_built o;
                              tp_down := tp :: tp_down o; spans := spans o |} st in
        let st := set_sdk {| initialized := false; provider := None;
                             activeConfig := None;
                             globalCfg := globalCfg (sdk st) |} st in
        Done err st
    | _, _ => Done None st
    end.

Definition Init (opts : list Option_) : M (ShutdownFunc * option string) :=
  fun st =>
    if initialized (sdk st) then
      Done (noop, None)
           (add_log LevelWarn "triage: Init() called more than once — ignoring" st)
    else
      match resolveConfig (os (world st)) opts with
      | inr err => Done (noop, Some err) st
      | inl cfg =>
          if negb (enabled cfg) then
            Done (noop, None)
                 (add_log LevelInfo
                    "triage: SDK disabled via config — skipping initialization" st)
          else
            match exporter_New_err (world st) with
            | Some err =>
                Done (noop, Some ("triage: failed to create OTLP exporter: " +:+ err)) st
            | None =>
                match resource_Merge_err (world st) with
                | Some err =>
                    Done (noop, Some ("triage: failed to create resource: " +:+ err)) st
                | None =>
                    (* tp := sdktrace.NewTracerProvider(...);
                       otel.SetTracerProvider(tp) *)
                    let o := otel st in
                    let tp := tp_built o in
                    let st := set_otel {| global_tp := Some tp; tp_built := S tp;
                                          tp_down := tp_down o; spans := spans o |} st in
                    let st := set_sdk {| initialized := true; provider := Some tp;
                                         activeConfig := Some cfg;
                                         globalCfg := globalCfg (sdk st) |} st in
                    Done (shutdown, None)
                         (add_log LevelInfo "triage: SDK initialized" st)
                end
            end
      end.

(** Calling the function Init returned. *)
Definition call_ShutdownFunc (f : ShutdownFunc) : M unit :=
  match f with
  | noop => ret tt
  | shutdown =>
      err <- Shutdown ;;
      match err with
      | Some _ => modify (add_log LevelError "triage: shutdown error")
      | None => ret tt
      end
  end.

(** ** llm.go, the gen_ai-only revision (PromptParams / CompletionParams) *)

Module LlmGenAI.

Module ToolCall.
Record t := { ID : string; Type_ : string; Name : string; Arguments : string }.
End ToolCall.

Module Message.
Record t := { Role : string; Content : string; ToolCalls : list ToolCall.t }.
End Message.

Module ToolDefinition.
(** [Parameters] is an [any]: None is the nil interface. *)
Record t := { Name : string; Description : string; Parameters : option any }.
End ToolDefinition.

Module Usage.
Record t := {
  InputTokens : Z;
  OutputTokens : Z;
  TotalTokens : Z;
  ReasoningTokens : Z;
  CacheReadTokens : Z;
  CacheWriteTokens : Z
}.
End Usage.

Module PromptParams.
Record t := {
  Vendor : string;
  Model : string;
  Messages : list Message.t;
  Tools : list ToolDefinition.t;
  Temperature : option float64;
  TopP : option float64;
  MaxTokens : option Z;
  Stop : list string
}.
End PromptParams.

Module CompletionParams.
Record t := {
  Model : string;
  Messages : list Message.t;
  Usage : Usage.t;
  FinishReason : string
}.
End CompletionParams.

(** [span] is an interface value: None is nil, as in the zero LLMSpan. *)
Record LLMSpan := { span : option SpanHandle }.

Definition shouldTraceContent : M bool :=
  fun st => Done (match activeConfig (sdk st) with
                  | None => true
                  | Some c => traceContent c
                  end) st.

Definition setMessageAttrs (span : SpanHandle) (prefix : string)
    (messages : list Message.t) : M unit :=
  range messages (fun i msg =>
    let p := prefix +:+ "." +:+ itoa i in
    when (negb (is_empty (Message.Role msg)))
      (span_SetAttributes span [attr_String (p +:+ ".role") (Message.Role msg)]) ;;;
    when (negb (is_empty (Message.Content msg)))
      (span_SetAttributes span [attr_String (p +:+ ".content") (Message.Content msg)]) ;;;
    range (Message.ToolCalls msg) (fun j tc =>
      let tp := p +:+ ".tool_calls." +:+ itoa j in
      when (negb (is_empty (ToolCall.ID tc)))
        (span_SetAttributes span [attr_String (tp +:+ ".id") (ToolCall.ID tc)]) ;;;
      when (negb (is_empty (ToolCall.Type_ tc)))
        (span_SetAttributes span [attr_String (tp +:+ ".type") (ToolCall.Type_ tc)]) ;;;
      when (negb (is_empty (ToolCall.Name tc)))
        (span_SetAttributes span [attr_String (tp +:+ ".name") (ToolCall.Name tc)]) ;;;
      when (negb (is_empty (ToolCall.Arguments tc)))
        (span_SetAttributes span
           [attr_String (tp +:+ ".arguments") (ToolCall.Arguments tc)]))).

Definition setToolDefinitionAttrs (span : SpanHandle)
    (tools : list ToolDefinition.t) : M unit :=
  range tools (fun i tool =>
    let p := "gen_ai.request.tools." +:+ itoa i in
    when (negb (is_empty (ToolDefinition.Name tool)))
      (span_SetAttributes span [attr_String (p +:+ ".name") (ToolDefinition.Name tool)]) ;;;
    when (negb (is_empty (ToolDefinition.Description tool)))
      (span_SetAttributes span
         [attr_String (p +:+ ".description") (ToolDefinition.Description tool)]) ;;;
    match ToolDefinition.Parameters tool with
    | Some params =>
        match json_Marshal params with
        | Some data => span_SetAttributes span [attr_String (p +:+ ".parameters") data]
        | None => ret tt
        end
    | None => ret tt
    end).

(** The name LogPrompt gives the span. *)
Definition spanName (params : PromptParams.t) : string :=
  let spanName := PromptParams.Vendor params +:+ ".chat" in
  if is_empty (PromptParams.Vendor params) then "llm.chat" else spanName.

(** LogPrompt returns a pointer to a fresh LLMSpan: never nil. *)
Definition LogPrompt (ctx : Context) (params : PromptParams.t)
    : M (Context * option LLMSpan) :=
  r <- tracer_Start ctx (spanName params) ;;
  let '(ctx, span) := r in
  when (negb (is_empty (PromptParams.Vendor params)))
    (span_SetAttributes span [attr_String AttrGenAISystem (PromptParams.Vendor params)]) ;;;
  when (negb (is_empty (PromptParams.Model params)))
    (span_SetAttributes span
       [attr_String AttrGenAIRequestModel (PromptParams.Model params)]) ;;;
  match PromptParams.Temperature params with
  | Some x => span_SetAttributes span [attr_Float64 AttrGenAIRequestTemperature x]
  | None => ret tt
  end ;;;
  match PromptParams.TopP params with
  | Some x => span_SetAttributes span [attr_Float64 AttrGenAIRequestTopP x]
  | None => ret tt
  end ;;;
  match PromptParams.MaxTokens params with
  | Some n => span_SetAttributes span [attr_Int AttrGenAIRequestMaxTokens n]
  | None => ret tt
  end ;;;
  when (Nat.ltb 0 (length (PromptParams.Stop params)))
    (span_SetAttributes span
       [attr_StringSlice AttrGenAIRequestStopSequences (PromptParams.Stop params)]) ;;;
  trace <- shouldTraceContent ;;
  when trace (
    setMessageAttrs span "gen_ai.prompt" (PromptParams.Messages params) ;;;
    setToolDefinitionAttrs span (PromptParams.Tools params)) ;;;
  ret (ctx, Some {| span := Some span |}).

(** The receiver is a *LLMSpan: reading [s.span] through a nil pointer
    panics. *)
Definition deref (s : option LLMSpan) : M LLMSpan :=
  match s with
  | Some v => ret v
  | None => panic "runtime error: invalid memory address or nil pointer dereference"
  end.

Definition usage_attr (span : SpanHandle) (key : string) (n : Z) : M unit :=
  when (0 <? n)%Z (span_SetAttributes span [attr_Int key n]).

Definition LogCompletion (s : option LLMSpan) (params : CompletionParams.t) : M unit :=
  v <- deref s ;;
  match span v with
  | None => ret tt
  | Some span =>
      let usage := CompletionParams.Usage params in
      when (negb (is_empty (CompletionParams.Model params)))
        (span_SetAttributes span
           [attr_String AttrGenAIResponseModel (CompletionParams.Model params)]) ;;;
      when (negb (is_empty (CompletionParams.FinishReason params)))
        (span_SetAttributes span
           [attr_String AttrGenAIResponseFinishReason
              (CompletionParams.FinishReason params)]) ;;;
      usage_attr span AttrGenAIUsageInputTokens (Usage.InputTokens usage) ;;;
      usage_attr span AttrGenAIUsageOutputTokens (Usage.OutputTokens usage) ;;;
      usage_attr span AttrGenAIUsageTotalTokens (Usage.TotalTokens usage) ;;;
      usage_attr span AttrGenAIUsageReasoningTokens (Usage.ReasoningTokens usage) ;;;
      usage_attr span AttrGenAIUsageCacheReadTokens (Usage.CacheReadTokens usage) ;;;
      usage_attr span AttrGenAIUsageCacheWriteTokens (Usage.CacheWriteTokens usage) ;;;
      trace <- shouldTraceContent ;;
      when trace
        (setMessageAttrs span "gen_ai.completion" (CompletionParams.Messages params)) ;;;
      (* defer s.span.End() *)
      span_End span
  end.

Definition End_ (s : option LLMSpan) : M unit :=
  v <- deref s ;;
  match span v with
  | Some span => span_End span
  | None => ret tt
  end.

(** [err] is an error interface value: None is nil, on which err.Error()
    panics. *)
Definition SetError (s : option LLMSpan) (err : option string) : M unit :=
  v <- deref s ;;
  match span v with
  | Some span =>
      span_RecordError span err ;;;
      match err with
      | Some msg => span_SetStatus_Error span msg
      | None => panic "runtime error: invalid memory address or nil pointer dereference"
      end
  | None => ret tt
  end.

End LlmGenAI.

(** ** llm.go, the dual-schema revision (Prompt / Completion / Usage) *)

Module LlmDual.

Definition llmTracerName := "triage.llm".

Module ToolCallFunction.
Record t := { Name : string; Arguments : string }.
End ToolCallFunction.

Module ToolCall.
Record t := { ID : string; Type_ : string; Function : ToolCallFunction.t }.
End ToolCall.

Module Message.
Record t := {
  Role : string;
  Content : string;
  ToolCalls : list ToolCall.t;
  ToolCallID : string
}.
End Message.

Module ToolFunction.
Record t := { Name : string; Description : string; Parameters : option any }.
End ToolFunction.

Module ToolDef.
Record t := { Type_ : string; Function : ToolFunction.t }.
End ToolDef.

Module Prompt.
Record t := {
  Vendor : string;
  Model : string;
  Messages : list Message.t;
  Tools : list ToolDef.t;
  MaxTokens : Z;
  Temperature : option float64;
  TopP : option float64;
  FrequencyPenalty : option float64;
  PresencePenalty : option float64;
  Stop : list string
}.
End Prompt.

Module Completion.
Record t := { Model : string; Messages : list Message.t }.
End Completion.

Module Usage.
Record t := { PromptTokens : Z; CompletionTokens : Z; TotalTokens : Z }.
End Usage.

Record LLMSpan := { span : option SpanHandle; ctx : Context }.

Definition LLMSpan_Context (ls : option LLMSpan) : Context :=
  match ls with
  | None => Background
  | Some v => ctx v
  end.

Definition isTraceContentEnabled : M bool :=
  fun st => Done (match globalCfg (sdk st) with
                  | None => true
                  | Some c => traceContent c
                  end) st.

Definition toolCallAttrs (prefix : string) (calls : list ToolCall.t) : list KeyValue :=
  collect calls (fun j tc =>
    let tcPrefix := prefix +:+ ".tool_calls." +:+ itoa j in
    [ attr_String (tcPrefix +:+ ".id") (ToolCall.ID tc);
      attr_String (tcPrefix +:+ ".type") (ToolCall.Type_ tc);
      attr_String (tcPrefix +:+ ".function.name")
        (ToolCallFunction.Name (ToolCall.Function tc));
      attr_String (tcPrefix +:+ ".function.arguments")
        (ToolCallFunction.Arguments (ToolCall.Function tc)) ]).

(** The attributes of the prompt messages. *)
Definition promptMessageAttrs (messages : list Message.t) : list KeyValue :=
  collect messages (fun i msg =>
    let prefix := "gen_ai.prompt." +:+ itoa i in
    [attr_String (prefix +:+ ".role") (Message.Role msg)]
    ++ (if is_empty (Message.Content msg) then []
        else [attr_String (prefix +:+ ".content") (Message.Content msg)])
    ++ toolCallAttrs prefix (Message.ToolCalls msg)
    ++ (if is_empty (Message.ToolCallID msg) then []
        else [attr_String (prefix +:+ ".tool_call_id") (Message.ToolCallID msg)])).

(** The attributes of the tool definitions. *)
Definition toolDefAttrs (tools : list ToolDef.t) : list KeyValue :=
  collect tools (fun i tool =>
    let prefix := "gen_ai.request.tool." +:+ itoa i in
    let f := ToolDef.Function tool in
    [attr_String (prefix +:+ ".type") (ToolDef.Type_ tool)]
    ++ [attr_String (prefix +:+ ".function.name") (ToolFunction.Name f)]
    ++ (if is_empty (ToolFunction.Description f) then []
        else [attr_String (prefix +:+ ".function.description")
                (ToolFunction.Description f)])
    ++ match ToolFunction.Parameters f with
       | Some params =>
           match json_Marshal params with
           | Some paramJSON =>
               [attr_String (prefix +:+ ".function.parameters") paramJSON]
           | None => []
           end
       | None => []
       end).

(** The name LogPrompt gives the span. *)
Definition spanName (prompt : Prompt.t) : string :=
  let spanName := Prompt.Vendor prompt +:+ ".chat" in
  if negb (is_empty (Prompt.Model prompt))
  then Prompt.Vendor prompt +:+ ".chat " +:+ Prompt.Model prompt
  else spanName.

(** The slice [attrs] LogPrompt builds before it sets it on the span;
    [trace] is what isTraceContentEnabled() returned. *)
Definition promptAttrs (trace : bool) (prompt : Prompt.t) : list KeyValue :=
  let attrs := [] in
  let attrs := attrs ++ [ attr_String "gen_ai.system" (Prompt.Vendor prompt);
                          attr_String "gen_ai.request.model" (Prompt.Model prompt) ] in
  let attrs := attrs ++ [ attr_String "llm.vendor" (Prompt.Vendor prompt);
                          attr_String "llm.request.model" (Prompt.Model prompt);
                          attr_String "llm.request.type" "chat" ] in
  let attrs := append_if (0 <? Prompt.MaxTokens prompt)%Z attrs
                 (attr_Int "gen_ai.request.max_tokens" (Prompt.MaxTokens prompt)) in
  let attrs := match Prompt.Temperature prompt with
               | Some x => attrs ++ [attr_Float64 "gen_ai.request.temperature" x]
               | None => attrs
               end in
  let attrs := match Prompt.TopP prompt with
               | Some x => attrs ++ [attr_Float64 "gen_ai.request.top_p" x]
               | None => attrs
               end in
  let attrs := match Prompt.FrequencyPenalty prompt with
               | Some x => attrs ++ [attr_Float64 "gen_ai.request.frequency_penalty" x]
               | None => attrs
               end in
  let attrs := match Prompt.PresencePenalty prompt with
               | Some x => attrs ++ [attr_Float64 "gen_ai.request.presence_penalty" x]
               | None => attrs
               end in
  let attrs := append_if (Nat.ltb 0 (length (Prompt.Stop prompt))) attrs
                 (attr_StringSlice "gen_ai.request.stop_sequences" (Prompt.Stop prompt)) in
  let attrs := if trace then attrs ++ promptMessageAttrs (Prompt.Messages prompt)
               else attrs in
  let attrs := attrs ++ toolDefAttrs (Prompt.Tools prompt) in
  attrs.

(** LogPrompt returns a pointer to a fresh LLMSpan: never nil. *)
Definition LogPrompt (ctx : Context) (prompt : Prompt.t)
    : M (option LLMSpan * Context) :=
  r <- tracer_Start ctx (spanName prompt) ;;
  let '(ctx, span) := r in
  trace <- isTraceContentEnabled ;;
  span_SetAttributes span (promptAttrs trace prompt) ;;;
  ret (Some {| span := Some span; ctx := ctx |}, ctx).

(** The attributes of the completion messages. *)
Definition completionMessageAttrs (messages : list Message.t) : list KeyValue :=
  collect messages (fun i msg =>
    let prefix := "gen_ai.completion." +:+ itoa i in
    [attr_String (prefix +:+ ".role") (Message.Role msg)]
    ++ (if is_empty (Message.Content msg) then []
        else [attr_String (prefix +:+ ".content") (Message.Content msg)])
    ++ toolCallAttrs prefix (Message.ToolCalls msg)).

(** The slice [attrs] LogCompletion builds. *)
Definition completionAttrs (trace : bool) (completion : Completion.t)
    (usage : Usage.t) : list KeyValue :=
  let attrs := [] in
  let attrs := if negb (is_empty (Completion.Model completion))
               then attrs ++ [ attr_String "gen_ai.response.model" (Completion.Model completion);
                               attr_String "llm.response.model" (Completion.Model completion) ]
               else attrs in
  let attrs := attrs ++ [ attr_Int "gen_ai.usage.input_tokens" (Usage.PromptTokens usage);
                          attr_Int "gen_ai.usage.output_tokens"
                            (Usage.CompletionTokens usage) ] in
  let attrs := attrs ++ [ attr_Int "llm.usage.prompt_tokens" (Usage.PromptTokens usage);
                          attr_Int "llm.usage.completion_tokens"
                            (Usage.CompletionTokens usage);
                          attr_Int "llm.usage.total_tokens" (Usage.TotalTokens usage) ] in
  let attrs := if trace then attrs ++ completionMessageAttrs (Completion.Messages completion)
               else attrs in
  attrs.

Definition LogCompletion (ls : option LLMSpan) (completion : Completion.t)
    (usage : Usage.t) : M unit :=
  match ls with
  | None => ret tt
  | Some v =>
      match span v with
      | None => ret tt
      | Some span =>
          trace <- isTraceContentEnabled ;;
          span_SetAttributes span (completionAttrs trace completion usage) ;;;
          span_End span
      end
  end.

End LlmDual.

(** ** workflow.go *)

Module Workflow.

Definition spanKindWorkflow := "workflow".
Definition spanKindTask := "task".
Definition spanKindAgent := "agent".
Definition spanKindTool := "tool".

Definition workflowNameFromContext (ctx : Context) : string :=
  match ctx_workflowName ctx with
  | Some name => name
  | None => ""
  end.

(** context.WithValue(ctx, workflowNameKey{}, name) *)
Definition withWorkflowName (ctx : Context) (name : string) : Context :=
  {| ctx_triage := ctx_triage ctx; ctx_workflowName := Some name;
     ctx_span := ctx_span ctx |}.

(** Workflow, Task, Agent and ToolSpan are the same struct. *)
Record Workflow := { span : option SpanHandle; ctx : Context; name : string }.
Definition Task := Workflow.
Definition Agent := Workflow.
Definition ToolSpan := Workflow.

Definition StartWorkflow (ctx : Context) (name : string)
    : M (option Workflow * Context) :=
  r <- tracer_Start ctx name ;;
  let '(ctx, span) := r in
  span_SetAttributes span
    [ attr_String "traceloop.span.kind" spanKindWorkflow;
      attr_String "traceloop.entity.name" name;
      attr_String "traceloop.workflow.name" name ] ;;;
  let ctx := withWorkflowName ctx name in
  ret (Some {| span := Some span; ctx := ctx; name := name |}, ctx).

Definition StartTask (ctx : Context) (name : string) : M (option Task * Context) :=
  r <- tracer_Start ctx name ;;
  let '(ctx, span) := r in
  let attrs := [ attr_String "traceloop.span.kind" spanKindTask;
                 attr_String "traceloop.entity.name" name ] in
  let wf := workflowNameFromContext ctx in
  let attrs := append_if (negb (is_empty wf)) attrs
                 (attr_String "traceloop.workflow.name" wf) in
  span_SetAttributes span attrs ;;;
  ret (Some {| span := Some span; ctx := ctx; name := name |}, ctx).

Definition StartAgent (ctx : Context) (name : string) : M (option Agent * Context) :=
  r <- tracer_Start ctx name ;;
  let '(ctx, span) := r in
  let attrs := [ attr_String "traceloop.span.kind" spanKindAgent;
                 attr_String "traceloop.entity.name" name;
                 attr_String "llm.agent.name" name ] in
  let wf := workflowNameFromContext ctx in
  let attrs := append_if (negb (is_empty wf)) attrs
                 (attr_String "traceloop.workflow.name" wf) in
  span_SetAttributes span attrs ;;;
  ret (Some {| span := Some span; ctx := ctx; name := name |}, ctx).

Definition StartTool (ctx : Context) (name : string) : M (option ToolSpan * Context) :=
  r <- tracer_Start ctx name ;;
  let '(ctx, span) := r in
  let attrs := [ attr_String "traceloop.span.kind" spanKindTool;
                 attr_String "traceloop.entity.name" name ] in
  let wf := workflowNameFromContext ctx in
  let attrs := append_if (negb (is_empty wf)) attrs
                 (attr_String "traceloop.workflow.name" wf) in
  span_SetAttributes span attrs ;;;
  ret (Some {| span := Some span; ctx := ctx; name := name |}, ctx).

(** End, the same for the four kinds. *)
Definition End_ (w : option Workflow) : M unit :=
  match w with
  | Some v =>
      match span v with
      | Some span => span_End span
      | None => ret tt
      end
  | None => ret tt
  end.

(** Context, the same for the four kinds. *)
Definition Context_ (w : option Workflow) : Context :=
  match w with
  | None => Background
  | Some v => ctx v
  end.

End Workflow.

(** ** Vocabulary of the statements *)

(** The twelve fields of the annotation context, the value a field holds, and
    the attribute key it is projected under. *)
Inductive Field :=
| FuserID | FuserRole | FtenantID | FtenantName | FsessionID
| FsessionTurnNumber | FsessionHistoryHash | FinputRaw | FinputSanitized
| FtemplateID | FtemplateVersion | FchunkACLs.

Inductive Cell :=
| Text (s : string)
| Turn (n : option Z).

Definition field (f : Field) (tc : triageContext) : Cell :=
  match f with
  | FuserID => Text (userID tc)
  | FuserRole => Text (userRole tc)
  | FtenantID => Text (tenantID tc)
  | FtenantName => Text (tenantName tc)
  | FsessionID => Text (sessionID tc)
  | FsessionTurnNumber => Turn (sessionTurnNumber tc)
  | FsessionHistoryHash => Text (sessionHistoryHash tc)
  | FinputRaw => Text (inputRaw tc)
  | FinputSanitized => Text (inputSanitized tc)
  | FtemplateID => Text (templateID tc)
  | FtemplateVersion => Text (templateVersion tc)
  | FchunkACLs => Text (chunkACLs tc)
  end.

Definition key_of (f : Field) : string :=
  match f with
  | FuserID => AttrUserID
  | FuserRole => AttrUserRole
  | FtenantID => AttrTenantID
  | FtenantName => AttrTenantName
  | FsessionID => AttrSessionID
  | FsessionTurnNumber => AttrSessionTurn
  | FsessionHistoryHash => AttrSessionHash
  | FinputRaw => AttrInputRaw
  | FinputSanitized => AttrInputSanitized
  | FtemplateID => AttrTemplateID
  | FtemplateVersion => AttrTemplateVersion
  | FchunkACLs => AttrChunkACLs
  end.

Definition all_fields : list Field :=
  [ FuserID; FuserRole; FtenantID; FtenantName; FsessionID; FsessionTurnNumber;
    FsessionHistoryHash; FinputRaw; FinputSanitized; FtemplateID;
    FtemplateVersion; FchunkACLs ].

(** A field is present when its string is not empty, or, for the turn number,
    when the pointer is not nil. *)
Definition present (c : Cell) : bool :=
  match c with
  | Text s => negb (is_empty s)
  | Turn (Some _) => true
  | Turn None => false
  end.

(** The attribute value a present field is projected to. *)
Definition projected (c : Cell) : option Value :=
  match c with
  | Text s => if is_empty s then None else Some (STRING s)
  | Turn (Some n) => Some (INT64 n)
  | Turn None => None
  end.

(** One call of an annotation helper, with its arguments. *)
Inductive Call :=
| CallWithUser (id : string) (opts : list UserOption)
| CallWithTenant (id : string) (opts : list TenantOption)
| CallWithSession (id : string) (opts : list SessionOption)
| CallWithInput (raw : string) (opts : list InputOption)
| CallWithTemplate (id : string) (opts : list TemplateOption)
| CallWithChunkACLs (acls : any).

Definition call (c : Call) (ctx : Context) : M Context :=
  match c with
  | CallWithUser id opts => WithUser ctx id opts
  | CallWithTenant id opts => WithTenant ctx id opts
  | CallWithSession id opts => WithSession ctx id opts
  | CallWithInput raw opts => WithInput ctx raw opts
  | CallWithTemplate id opts => WithTemplate ctx id opts
  | CallWithChunkACLs acls => WithChunkACLs ctx acls
  end.

(** The calls of [cs] in a row, each on the context the one before returned. *)
Fixpoint calls (cs : list Call) (ctx : Context) : M Context :=
  match cs with
  | [] => ret ctx
  | c :: rest => ctx' <- call c ctx ;; calls rest ctx'
  end.

(** The last element of [l] that [pick] selects something from. *)
Fixpoint last_some {A B} (pick : A -> option B) (l : list A) : option B :=
  match l with
  | [] => None
  | a :: rest =>
      match last_some pick rest with
      | Some b => Some b
      | None => pick a
      end
  end.

(** What a call's arguments say about a field: [Some v] when the call sets the
    field, to [v]; [None] when the field is absent from the update. *)
Definition UserOption_sets (f : Field) (o : UserOption) : option Cell :=
  match o, f with
  | UserRole role, FuserRole => Some (Text role)
  | _, _ => None
  end.

Definition TenantOption_sets (f : Field) (o : TenantOption) : option Cell :=
  match o, f with
  | TenantName name, FtenantName => Some (Text name)
  | _, _ => None
  end.

Definition SessionOption_sets (f : Field) (o : SessionOption) : option Cell :=
  match o, f with
  | TurnNumber n, FsessionTurnNumber => Some (Turn (Some n))
  | HistoryHash h, FsessionHistoryHash => Some (Text h)
  | _, _ => None
  end.

Definition InputOption_sets (f : Field) (o : InputOption) : option Cell :=
  match o, f with
  | Sanitized s, FinputSanitized => Some (Text s)
  | _, _ => None
  end.

Definition TemplateOption_sets (f : Field) (o : TemplateOption) : option Cell :=
  match o, f with
  | TemplateVersion v, FtemplateVersion => Some (Text v)
  | _, _ => None
  end.

Definition required_sets (mine f : Field) (v : string) : option Cell :=
  match mine, f with
  | FuserID, FuserID | FtenantID, FtenantID | FsessionID, FsessionID
  | FinputRaw, FinputRaw | FtemplateID, FtemplateID => Some (Text v)
  | _, _ => None
  end.

Definition or_else {A} (o1 o2 : option A) : option A :=
  match o1 with
  | Some a => Some a
  | None => o2
  end.

Definition sets (c : Call) (f : Field) : option Cell :=
  match c with
  | CallWithUser id opts =>
      or_else (last_some (UserOption_sets f) opts) (required_sets FuserID f id)
  | CallWithTenant id opts =>
      or_else (last_some (TenantOption_sets f) opts) (required_sets FtenantID f id)
  | CallWithSession id opts =>
      or_else (last_some (SessionOption_sets f) opts) (required_sets FsessionID f id)
  | CallWithInput raw opts =>
      or_else (last_some (InputOption_sets f) opts) (required_sets FinputRaw f raw)
  | CallWithTemplate id opts =>
      or_else (last_some (TemplateOption_sets f) opts) (required_sets FtemplateID f id)
  | CallWithChunkACLs acls =>
      match f, json_Marshal acls with
      | FchunkACLs, Some data => Some (Text data)
      | _, _ => None
      end
  end.

(** A fresh process: nothing initialized, no provider registered, no span. *)
Definition fresh (w : World) : State :=
  {| world := w;
     sdk := {| initialized := false; provider := None; activeConfig := None;
               globalCfg := None |};
     otel := {| global_tp := None; tp_built := 0; tp_down := []; spans := [] |};
     slog := [] |}.

(** A world in which nothing outside fails and no variable is set. *)
Definition plain_world : World :=
  {| os := {| os_environ := []; os_Args := ["/usr/local/bin/agent"] |};
     exporter_New_err := None; resource_Merge_err := None;
     provider_Shutdown_err := None |}.

(** The state a call leaves, or the given one when it panicked. *)
Definition state_after {A} (o : Outcome A) (st : State) : State :=
  match o with
  | Done _ st' => st'
  | Panic _ => st
  end.

(** The attributes of span [id], as exported. *)
Definition attrs_of (id : nat) (st : State) : list KeyValue :=
  match spans (otel st) !! id with
  | Some sp => span_attrs sp
  | None => []
  end.

(** Two states of the same process that differ at most in their spans. *)
Definition same_process (st st' : State) : Prop :=
  world st' = world st /\ sdk st' = sdk st /\ slog st' = slog st
  /\ global_tp (otel st') = global_tp (otel st)
  /\ tp_built (otel st') = tp_built (otel st)
  /\ tp_down (otel st') = tp_down (otel st).

(** [m] returns [a] from every state, without a panic, and leaves the process
    as it was but for the spans. *)
Definition returns {A} (m : M A) (a : A) : Prop :=
  forall st, exists st', m st = Done a st' /\ same_process st st'.

(** Run while the package variables are [s] and span [id] is live, [m] does
    one thing: it sets [kvs], in this order, on span [id]; and it returns [a]. *)
Definition appends {A} (s : Sdk) (m : M A) (id : nat) (kvs : list KeyValue) (a : A)
    : Prop :=
  forall st sp,
    sdk st = s ->
    spans (otel st) !! id = Some sp ->
    span_ended sp = false ->
    m st = Done a (put_span id (add_attrs kvs sp) st).

(** The same, for a call that also ends the span after its writes. *)
Definition ends (s : Sdk) (m : M unit) (id : nat) (kvs : list KeyValue) : Prop :=
  forall st sp,
    sdk st = s ->
    spans (otel st) !! id = Some sp ->
    span_ended sp = false ->
    m st = Done tt (put_span id (end_span (add_attrs kvs sp)) st).

(** A handle on which nothing can be recorded any more in [st]: the no-op
    span, or a span that has ended. *)
Definition closed (h : SpanHandle) (st : State) : Prop :=
  match h with
  | nonRecordingSpan _ => True
  | recordingSpan id =>
      match spans (otel st) !! id with
      | Some sp => span_ended sp = true
      | None => True
      end
  end.

(** [m], run in [st], returns [a] and changes nothing: no panic, no write. *)
Definition no_op {A} (m : M A) (st : State) (a : A) : Prop := m st = Done a st.

(** The span a context makes the parent of the spans started from it: its
    current span, or the span whose span context a non-recording current
    span carries. *)
Definition parent_of (ctx : Context) : option nat := SpanContextFromContext ctx.

(** The attributes the span-writing procedures of the gen_ai-only llm.go set,
    in the order they set them. *)
Module LlmGenAIAttrs.
Import LlmGenAI.

(** if v != "" { span.SetAttributes(attribute.String(k, v)) } *)
Definition text_attr (k v : string) : list KeyValue :=
  if is_empty v then [] else [attr_String k v].

Definition usage_attrs (k : string) (n : Z) : list KeyValue :=
  if (0 <? n)%Z then [attr_Int k n] else [].

Definition toolCallAttrs (p : string) (calls : list ToolCall.t) : list KeyValue :=
  collect calls (fun j tc =>
    let tp := p +:+ ".tool_calls." +:+ itoa j in
    text_attr (tp +:+ ".id") (ToolCall.ID tc)
    ++ text_attr (tp +:+ ".type") (ToolCall.Type_ tc)
    ++ text_attr (tp +:+ ".name") (ToolCall.Name tc)
    ++ text_attr (tp +:+ ".arguments") (ToolCall.Arguments tc)).

Definition messageAttrs (prefix : string) (messages : list Message.t) : list KeyValue :=
  collect messages (fun i msg =>
    let p := prefix +:+ "." +:+ itoa i in
    text_attr (p +:+ ".role") (Message.Role msg)
    ++ text_attr (p +:+ ".content") (Message.Content msg)
    ++ toolCallAttrs p (Message.ToolCalls msg)).

Definition toolDefinitionAttrs (tools : list ToolDefinition.t) : list KeyValue :=
  collect tools (fun i tool =>
    let p := "gen_ai.request.tools." +:+ itoa i in
    text_attr (p +:+ ".name") (ToolDefinition.Name tool)
    ++ text_attr (p +:+ ".description") (ToolDefinition.Description tool)
    ++ match ToolDefinition.Parameters tool with
       | Some params =>
           match json_Marshal params with
           | Some data => [attr_String (p +:+ ".parameters") data]
           | None => []
           end
       | None => []
       end).

Definition requestAttrs (params : PromptParams.t) : list KeyValue :=
  text_attr AttrGenAISystem (PromptParams.Vendor params)
  ++ text_attr AttrGenAIRequestModel (PromptParams.Model params)
  ++ match PromptParams.Temperature params with
     | Some x => [attr_Float64 AttrGenAIRequestTemperature x]
     | None => []
     end
  ++ match PromptParams.TopP params with
     | Some x => [attr_Float64 AttrGenAIRequestTopP x]
     | None => []
     end
  ++ match PromptParams.MaxTokens params with
     | Some n => [attr_Int AttrGenAIRequestMaxTokens n]
     | None => []
     end
  ++ (if Nat.ltb 0 (length (PromptParams.Stop params))
      then [attr_StringSlice AttrGenAIRequestStopSequences (PromptParams.Stop params)]
      else []).

(** What LogPrompt sets; [trace] is what shouldTraceContent() returns. *)
Definition promptAttrs (trace : bool) (params : PromptParams.t) : list KeyValue :=
  requestAttrs params
  ++ (if trace
      then messageAttrs "gen_ai.prompt" (PromptParams.Messages params)
           ++ toolDefinitionAttrs (PromptParams.Tools params)
      else []).

Definition usageAttrs (u : Usage.t) : list KeyValue :=
  usage_attrs AttrGenAIUsageInputTokens (Usage.InputTokens u)
  ++ usage_attrs AttrGenAIUsageOutputTokens (Usage.OutputTokens u)
  ++ usage_attrs AttrGenAIUsageTotalTokens (Usage.TotalTokens u)
  ++ usage_attrs AttrGenAIUsageReasoningTokens (Usage.ReasoningTokens u)
  ++ usage_attrs AttrGenAIUsageCacheReadTokens (Usage.CacheReadTokens u)
  ++ usage_attrs AttrGenAIUsageCacheWriteTokens (Usage.CacheWriteTokens u).

Definition responseAttrs (params : CompletionParams.t) : list KeyValue :=
  text_attr AttrGenAIResponseModel (CompletionParams.Model params)
  ++ text_attr AttrGenAIResponseFinishReason (CompletionParams.FinishReason params).

(** What LogCompletion sets. *)
Definition completionAttrs (trace : bool) (params : CompletionParams.t) : list KeyValue :=
  responseAttrs params
  ++ usageAttrs (CompletionParams.Usage params)
  ++ (if trace
      then messageAttrs "gen_ai.completion" (CompletionParams.Messages params)
      else []).

Definition trace_of (s : Sdk) : bool :=
  match activeConfig s with
  | None => true
  | Some c => traceContent c
  end.

Definition request_keys : list string :=
  [ AttrGenAISystem; AttrGenAIRequestModel; AttrGenAIRequestTemperature;
    AttrGenAIRequestTopP; AttrGenAIRequestMaxTokens; AttrGenAIRequestStopSequences ].

Definition response_keys : list string :=
  [ AttrGenAIResponseModel; AttrGenAIResponseFinishReason ].

Definition usage_keys : list string :=
  [ AttrGenAIUsageInputTokens; AttrGenAIUsageOutputTokens; AttrGenAIUsageTotalTokens;
    AttrGenAIUsageReasoningTokens; AttrGenAIUsageCacheReadTokens;
    AttrGenAIUsageCacheWriteTokens ].

(** LogPrompt, then LogCompletion on the span it returned. *)
Definition logged (ctx : Context) (params : PromptParams.t)
    (completion : CompletionParams.t) : M (option LLMSpan) :=
  r <- LogPrompt ctx params ;;
  LogCompletion (snd r) completion ;;;
  ret (snd r).

(** The attributes such a call sets on its span, in the order it sets them:
    those of the annotation context (by the span processor), those of
    LogPrompt, those of LogCompletion. *)
Definition exported (trace : bool) (ctx : Context) (params : PromptParams.t)
    (completion : CompletionParams.t) : list KeyValue :=
  getTriageAttrs ctx ++ promptAttrs trace params ++ completionAttrs trace completion.

End LlmGenAIAttrs.

Module LlmDualAttrs.
Import LlmDual.

Definition trace_of (s : Sdk) : bool :=
  match globalCfg s with
  | None => true
  | Some c => traceContent c
  end.

(** The slices LogPrompt and LogCompletion build, by their parts. *)
Definition headAttrs (prompt : Prompt.t) : list KeyValue :=
  [ attr_String "gen_ai.system" (Prompt.Vendor prompt);
    attr_String "gen_ai.request.model" (Prompt.Model prompt);
    attr_String "llm.vendor" (Prompt.Vendor prompt);
    attr_String "llm.request.model" (Prompt.Model prompt);
    attr_String "llm.request.type" "chat" ].

Definition optionAttrs (prompt : Prompt.t) : list KeyValue :=
  (if (0 <? Prompt.MaxTokens prompt)%Z
   then [attr_Int "gen_ai.request.max_tokens" (Prompt.MaxTokens prompt)] else [])
  ++ match Prompt.Temperature prompt with
     | Some x => [attr_Float64 "gen_ai.request.temperature" x]
     | None => []
     end
  ++ match Prompt.TopP prompt with
     | Some x => [attr_Float64 "gen_ai.request.top_p" x]
     | None => []
     end
  ++ match Prompt.FrequencyPenalty prompt with
     | Some x => [attr_Float64 "gen_ai.request.frequency_penalty" x]
     | None => []
     end
  ++ match Prompt.PresencePenalty prompt with
     | Some x => [attr_Float64 "gen_ai.request.presence_penalty" x]
     | None => []
     end
  ++ (if Nat.ltb 0 (length (Prompt.Stop prompt))
      then [attr_StringSlice "gen_ai.request.stop_sequences" (Prompt.Stop prompt)]
      else []).

Definition responseAttrs (completion : Completion.t) : list KeyValue :=
  if is_empty (Completion.Model completion) then []
  else [ attr_String "gen_ai.response.model" (Completion.Model completion);
         attr_String "llm.response.model" (Completion.Model completion) ].

Definition usageAttrs (usage : Usage.t) : list KeyValue :=
  [ attr_Int "gen_ai.usage.input_tokens" (Usage.PromptTokens usage);
    attr_Int "gen_ai.usage.output_tokens" (Usage.CompletionTokens usage);
    attr_Int "llm.usage.prompt_tokens" (Usage.PromptTokens usage);
    attr_Int "llm.usage.completion_tokens" (Usage.CompletionTokens usage);
    attr_Int "llm.usage.total_tokens" (Usage.TotalTokens usage) ].

Definition head_keys : list string :=
  [ "gen_ai.system"; "gen_ai.request.model"; "llm.vendor"; "llm.request.model";
    "llm.request.type" ].

Definition option_keys : list string :=
  [ "gen_ai.request.max_tokens"; "gen_ai.request.temperature"; "gen_ai.request.top_p";
    "gen_ai.request.frequency_penalty"; "gen_ai.request.presence_penalty";
    "gen_ai.request.stop_sequences" ].

Definition response_keys : list string :=
  [ "gen_ai.response.model"; "llm.response.model" ].

Definition usage_keys : list string :=
  [ "gen_ai.usage.input_tokens"; "gen_ai.usage.output_tokens";
    "llm.usage.prompt_tokens"; "llm.usage.completion_tokens";
    "llm.usage.total_tokens" ].

(** LogPrompt, then LogCompletion on the span it returned. *)
Definition logged (ctx : Context) (prompt : Prompt.t)
    (completion : Completion.t) (usage : Usage.t) : M (option LLMSpan) :=
  r <- LogPrompt ctx prompt ;;
  LogCompletion (fst r) completion usage ;;;
  ret (fst r).

(** The attributes such a call sets on its span, in the order it sets them:
    those of the annotation context (by the span processor), those of
    LogPrompt, those of LogCompletion. *)
Definition exported (trace : bool) (ctx : Context) (prompt : Prompt.t)
    (completion : Completion.t) (usage : Usage.t) : list KeyValue :=
  getTriageAttrs ctx ++ promptAttrs trace prompt
  ++ completionAttrs trace completion usage.

End LlmDualAttrs.

(** Every key of [l] satisfies [Q]. *)
Definition keys (Q : string -> bool) (l : list KeyValue) : Prop :=
  Forall (fun kv => Q (fst kv) = true) l.

(** [k] is one of the keys [ks]. *)
Definition one_of (ks : list string) (k : string) : bool := existsb (String.eqb k) ks.

Definition is_digit (c : ascii) : bool :=
  let n := nat_of_ascii c in (Nat.leb 48 n && Nat.leb n 57)%bool.

Fixpoint all_digits (s : string) : bool :=
  match s with
  | EmptyString => true
  | String c s' => is_digit c && all_digits s'
  end.

(** The keys written for element [n] of a slice: [p], the index, a dot. *)
Definition indexed (p : string) (n : nat) (k : string) : Prop :=
  exists r, k = p +:+ itoa n +:+ String "." r.

(** What a new span keeps of the attributes [kvs] set on it, in this order:
    all of them when they fit. *)
Definition kept (kvs : list KeyValue) : list KeyValue := set_attrs [] kvs.

(** The attributes [kvs] are no more than a span holds. *)
Definition fits (kvs : list KeyValue) : Prop :=
  (length kvs <= AttributeCountLimit)%nat.

(** The span named [name] that was started from [ctx], had [kvs] set and has
    ended. *)
Definition finished (name : string) (ctx : Context) (kvs : list KeyValue) : Span :=
  end_span (add_attrs kvs (new_span name (parent_of ctx))).

(** [id] is the span the call that returned handle [h] opened: it is in the
    store of [st'], was not in that of [st], and carries [name] and [kvs]. *)
Definition opened (st st' : State) (h : option SpanHandle) (name : string)
    (kvs : list KeyValue) (ended : bool) : Prop :=
  exists id sp,
    h = Some (recordingSpan id)
    /\ spans (otel st) !! id = None
    /\ spans (otel st') !! id = Some sp
    /\ span_name sp = name
    /\ span_attrs sp = kvs
    /\ span_ended sp = ended.

(** LogPrompt then LogCompletion, run in [st], leave one new, ended span with
    the attributes [kvs]. *)
Definition LlmGenAI_records (st : State) (ctx : Context)
    (params : LlmGenAI.PromptParams.t) (completion : LlmGenAI.CompletionParams.t)
    (kvs : list KeyValue) : Prop :=
  exists s st',
    LlmGenAIAttrs.logged ctx params completion st = Done (Some s) st'
    /\ opened st st' (LlmGenAI.span s) (LlmGenAI.spanName params) kvs true.

Definition LlmDual_records (st : State) (ctx : Context)
    (prompt : LlmDual.Prompt.t) (completion : LlmDual.Completion.t)
    (usage : LlmDual.Usage.t) (kvs : list KeyValue) : Prop :=
  exists ls st',
    LlmDualAttrs.logged ctx prompt completion usage st = Done (Some ls) st'
    /\ opened st st' (LlmDual.span ls) (LlmDual.spanName prompt) kvs true.

(** The attribute under [k] is there exactly when the counter [n] is
    positive, and then it is [n]. *)
Definition recorded_iff_positive (kvs : list KeyValue) (k : string) (n : Z) : Prop :=
  attr_get k kvs = if (0 <? n)%Z then Some (INT64 n) else None.

(** A context that descends from [ctx]: obtained from it by annotation
    helpers and by starting tasks, agents, tools and LLM calls, in any states. *)
Inductive descends (ctx : Context) : Context -> Prop :=
| descends_here : descends ctx ctx
| descends_call c d d' st st' :
    descends ctx d -> call c d st = Done d' st' -> descends ctx d'
| descends_task name d t d' st st' :
    descends ctx d -> Workflow.StartTask d name st = Done (t, d') st' -> descends ctx d'
| descends_agent name d a d' st st' :
    descends ctx d -> Workflow.StartAgent d name st = Done (a, d') st' -> descends ctx d'
| descends_tool name d t d' st st' :
    descends ctx d -> Workflow.StartTool d name st = Done (t, d') st' -> descends ctx d'
| descends_llm_genai params d s d' st st' :
    descends ctx d -> LlmGenAI.LogPrompt d params st = Done (d', s) st' -> descends ctx d'
| descends_llm_dual prompt d ls d' st st' :
    descends ctx d -> LlmDual.LogPrompt d prompt st = Done (ls, d') st' -> descends ctx d'.

(** The three constructors that read the workflow name. *)
Inductive Kind := KindTask | KindAgent | KindTool.

Definition start (k : Kind) : Context -> string -> M (option Workflow.Workflow * Context) :=
  match k with
  | KindTask => Workflow.StartTask
  | KindAgent => Workflow.StartAgent
  | KindTool => Workflow.StartTool
  end.

(** What [start k] sets on the span, given the workflow name [wf] it finds in
    the context. *)
Definition kind_attrs (k : Kind) (name wf : string) : list KeyValue :=
  match k with
  | KindTask => [ attr_String "traceloop.span.kind" Workflow.spanKindTask;
                  attr_String "traceloop.entity.name" name ]
  | KindAgent => [ attr_String "traceloop.span.kind" Workflow.spanKindAgent;
                   attr_String "traceloop.entity.name" name;
                   attr_String "llm.agent.name" name ]
  | KindTool => [ attr_String "traceloop.span.kind" Workflow.spanKindTool;
                  attr_String "traceloop.entity.name" name ]
  end ++ (if is_empty wf then [] else [attr_String "traceloop.workflow.name" wf]).

(** The provider the tests install: a live SDK provider with the
    triageSpanProcessor, and [cfg] as the active configuration. *)
Definition with_test_provider (cfg : option config) (st : State) : State :=
  set_sdk {| initialized := initialized (sdk st); provider := provider (sdk st);
             activeConfig := cfg; globalCfg := cfg |}
    (set_otel {| global_tp := Some (tp_built (otel st)); tp_built := S (tp_built (otel st));
                 tp_down := tp_down (otel st); spans := spans (otel st) |} st).

(** ** Test data *)

(** The process after [Init(WithAPIKey("tsk_test"), WithTraceContent(b))]. *)
Definition initialized_state (b : bool) : State :=
  state_after (Init [WithAPIKey "tsk_test"; WithTraceContent b] (fresh plain_world))
    (fresh plain_world).

(** &config{traceContent: false} *)
Definition config_content_off : config :=
  {| apiKey := ""; endpoint := ""; appName := ""; environment := "";
     enabled := false; traceContent := false |}.

Module GenAIData.
Import LlmGenAI.

Definition secret_tool : ToolDefinition.t :=
  {| ToolDefinition.Name := "secret_tool";
     ToolDefinition.Description := "does secret things";
     ToolDefinition.Parameters := None |}.

Definition secret_prompt : PromptParams.t :=
  {| PromptParams.Vendor := "openai"; PromptParams.Model := "gpt-4o";
     PromptParams.Messages :=
       [ {| Message.Role := "user"; Message.Content := "secret prompt";
            Message.ToolCalls := [] |} ];
     PromptParams.Tools := [secret_tool];
     PromptParams.Temperature := None; PromptParams.TopP := None;
     PromptParams.MaxTokens := None; PromptParams.Stop := [] |}.

Definition secret_completion : CompletionParams.t :=
  {| CompletionParams.Model := "";
     CompletionParams.Messages :=
       [ {| Message.Role := "assistant"; Message.Content := "secret response";
            Message.ToolCalls := [] |} ];
     CompletionParams.Usage :=
       {| Usage.InputTokens := 10; Usage.OutputTokens := 5; Usage.TotalTokens := 15;
          Usage.ReasoningTokens := 0; Usage.CacheReadTokens := 0;
          Usage.CacheWriteTokens := 0 |};
     CompletionParams.FinishReason := "" |}.

Definition hello_prompt : PromptParams.t :=
  {| PromptParams.Vendor := "openai"; PromptParams.Model := "gpt-4o";
     PromptParams.Messages :=
       [ {| Message.Role := "user"; Message.Content := "Hello";
            Message.ToolCalls := [] |} ];
     PromptParams.Tools := [];
     PromptParams.Temperature := None; PromptParams.TopP := None;
     PromptParams.MaxTokens := None; PromptParams.Stop := [] |}.

Definition hello_completion : CompletionParams.t :=
  {| CompletionParams.Model := "gpt-4o";
     CompletionParams.Messages := [];
     CompletionParams.Usage :=
       {| Usage.InputTokens := 10; Usage.OutputTokens := 5; Usage.TotalTokens := 15;
          Usage.ReasoningTokens := 0; Usage.CacheReadTokens := 0;
          Usage.CacheWriteTokens := 0 |};
     CompletionParams.FinishReason := "" |}.

(** A conversation of 70 messages, each with a role and a content. *)
Definition long_prompt : PromptParams.t :=
  {| PromptParams.Vendor := "openai"; PromptParams.Model := "gpt-4o";
     PromptParams.Messages :=
       List.repeat {| Message.Role := "user"; Message.Content := "Hello";
                      Message.ToolCalls := [] |} 70;
     PromptParams.Tools := [];
     PromptParams.Temperature := None; PromptParams.TopP := None;
     PromptParams.MaxTokens := None; PromptParams.Stop := [] |}.

End GenAIData.

Module DualData.
Import LlmDual.

Definition get_weather : ToolDef.t :=
  {| ToolDef.Type_ := "function";
     ToolDef.Function :=
       {| ToolFunction.Name := "get_weather";
          ToolFunction.Description := "Get current weather";
          ToolFunction.Parameters := None |} |}.

Definition hello_prompt (tools : list ToolDef.t) : Prompt.t :=
  {| Prompt.Vendor := "openai"; Prompt.Model := "gpt-4o";
     Prompt.Messages :=
       [ {| Message.Role := "user"; Message.Content := "Hello";
            Message.ToolCalls := []; Message.ToolCallID := "" |} ];
     Prompt.Tools := tools; Prompt.MaxTokens := 0;
     Prompt.Temperature := None; Prompt.TopP := None;
     Prompt.FrequencyPenalty := None; Prompt.PresencePenalty := None;
     Prompt.Stop := [] |}.

Definition hello_completion : Completion.t :=
  {| Completion.Model := "gpt-4o"; Completion.Messages := [] |}.

Definition usage_10_5_15 : Usage.t :=
  {| Usage.PromptTokens := 10; Usage.CompletionTokens := 5; Usage.TotalTokens := 15 |}.

(** Usage{} *)
Definition usage_zero : Usage.t :=
  {| Usage.PromptTokens := 0; Usage.CompletionTokens := 0; Usage.TotalTokens := 0 |}.

(** Prompt{} *)
Definition empty_prompt : Prompt.t :=
  {| Prompt.Vendor := ""; Prompt.Model := ""; Prompt.Messages := [];
     Prompt.Tools := []; Prompt.MaxTokens := 0;
     Prompt.Temperature := None; Prompt.TopP := None;
     Prompt.FrequencyPenalty := None; Prompt.PresencePenalty := None;
     Prompt.Stop := [] |}.

End DualData.

(** ** Vocabulary of the statements on config.go *)

(** What an option says about each field of the config. *)
Definition Option_apiKey (o : Option_) : option string :=
  match o with WithAPIKey key => Some key | _ => None end.

Definition Option_endpoint (o : Option_) : option string :=
  match o with WithEndpoint ep => Some ep | _ => None end.

Definition Option_appName (o : Option_) : option string :=
  match o with WithAppName name => Some name | _ => None end.

Definition Option_environment (o : Option_) : option string :=
  match o with WithEnvironment env => Some env | _ => None end.

Definition Option_enabled (o : Option_) : option bool :=
  match o with WithEnabled b => Some b | _ => None end.

Definition Option_traceContent (o : Option_) : option bool :=
  match o with WithTraceContent b => Some b | _ => None end.

(** What the environment says about a setting: nothing when the variable is
    unset or empty; for a flag, whether the value is, in lower case, one of
    true, 1 and yes. *)
Definition env_text (os : OS) (key : string) : option string :=
  let v := Getenv (os_environ os) key in
  if is_empty v then None else Some v.

Definition env_flag (os : OS) (key : string) : option bool :=
  let v := Getenv (os_environ os) key in
  if is_empty v then None else Some (one_of ["true"; "1"; "yes"] (ToLower v)).

(** The three layers: the explicit value, else that of the environment, else
    the default. *)
Definition layered {A} (explicit env : option A) (dflt : A) : A :=
  match explicit, env with
  | Some v, _ => v
  | None, Some v => v
  | None, None => dflt
  end.

(** The config before the explicit options: the defaults under the
    environment variables. *)
Definition env_config (os : OS) : config :=
  {| apiKey := layered None (env_text os EnvAPIKey) "";
     endpoint := layered None (env_text os EnvEndpoint) DefaultEndpoint;
     appName := layered None (env_text os EnvAppName) (defaultAppName os);
     environment := layered None (env_text os EnvEnvironment) "development";
     enabled := layered None (env_flag os EnvEnabled) true;
     traceContent := layered None (env_flag os EnvTraceContent) true |}.

(** An operating system with the given variables set. *)
Definition os_with (environ : list (string * string)) : OS :=
  {| os_environ := environ; os_Args := ["/usr/local/bin/agent"] |}.

(** ** Vocabulary of the statements on the annotation helpers *)

(** What a helper sets at once on the current span for field [f], given the
    value [v] the field has in the context the helper returns: the field its
    required argument goes to is written whatever its value, the fields of
    its options are written when they are present, the JSON of the chunk
    ACLs when Marshal succeeded, and no other field. *)
Definition writes_now (c : Call) (f : Field) (v : Cell) : option Value :=
  match c, f with
  | CallWithUser _ _, FuserID
  | CallWithTenant _ _, FtenantID
  | CallWithSession _ _, FsessionID
  | CallWithInput _ _, FinputRaw
  | CallWithTemplate _ _, FtemplateID =>
      match v with
      | Text s => Some (STRING s)
      | Turn _ => None
      end
  | CallWithUser _ _, FuserRole
  | CallWithTenant _ _, FtenantName
  | CallWithSession _ _, FsessionTurnNumber
  | CallWithSession _ _, FsessionHistoryHash
  | CallWithInput _ _, FinputSanitized
  | CallWithTemplate _ _, FtemplateVersion => projected v
  | CallWithChunkACLs acls, FchunkACLs =>
      match json_Marshal acls, v with
      | Some _, Text s => Some (STRING s)
      | _, _ => None
      end
  | _, _ => None
  end.

(** A state with one open span, which the context [on_span] points to. *)
Definition one_open_span : State :=
  set_spans [new_span "request" None] (fresh plain_world).

Definition on_span (id : nat) : Context := ContextWithSpan Background (recordingSpan id).

(** One open span that holds as many attributes as a span keeps, k0 to
    k127. *)
(** The first span of the store. *)
Definition first_span (st : State) : Span :=
  default (new_span "request" None) (spans (otel st) !! 0%nat).

Definition one_full_span : State :=
  set_spans
    [add_attrs (map (fun i => attr_Int ("k" +:+ itoa i) 0) (seq 0 AttributeCountLimit))
       (new_span "request" None)]
    (fresh plain_world).

(** ** Vocabulary of the statements on the calls that start a span *)

(** The calls of the package that start a span: StartWorkflow, the three
    other hierarchy constructors, and LogPrompt in its two revisions. *)
Inductive Opening :=
| OpenWorkflow (name : string)
| OpenKind (k : Kind) (name : string)
| OpenGenAI (params : LlmGenAI.PromptParams.t)
| OpenDual (prompt : LlmDual.Prompt.t).

(** The call, by the span and the context it returns. *)
Definition open (o : Opening) (ctx : Context) : M (option SpanHandle * Context) :=
  match o with
  | OpenWorkflow name =>
      r <- Workflow.StartWorkflow ctx name ;;
      ret (match fst r with Some w => Workflow.span w | None => None end, snd r)
  | OpenKind k name =>
      r <- start k ctx name ;;
      ret (match fst r with Some w => Workflow.span w | None => None end, snd r)
  | OpenGenAI params =>
      r <- LlmGenAI.LogPrompt ctx params ;;
      ret (match snd r with Some s => LlmGenAI.span s | None => None end, fst r)
  | OpenDual prompt =>
      r <- LlmDual.LogPrompt ctx prompt ;;
      ret (match fst r with Some ls => LlmDual.span ls | None => None end, snd r)
  end.

(** The attributes the call itself sets on the span it started, after those
    of the span processor. *)
Definition own_attrs (o : Opening) (ctx : Context) (s : Sdk) : list KeyValue :=
  match o with
  | OpenWorkflow name =>
      [ attr_String "traceloop.span.kind" Workflow.spanKindWorkflow;
        attr_String "traceloop.entity.name" name;
        attr_String "traceloop.workflow.name" name ]
  | OpenKind k name => kind_attrs k name (Workflow.workflowNameFromContext ctx)
  | OpenGenAI params => LlmGenAIAttrs.promptAttrs (LlmGenAIAttrs.trace_of s) params
  | OpenDual prompt => LlmDual.promptAttrs (LlmDualAttrs.trace_of s) prompt
  end.

Definition opening_name (o : Opening) : string :=
  match o with
  | OpenWorkflow name => name
  | OpenKind _ name => name
  | OpenGenAI params => LlmGenAI.spanName params
  | OpenDual prompt => LlmDual.spanName prompt
  end.

(** The context the call returns, given the span it started. *)
Definition opening_context (o : Opening) (ctx : Context) (h : SpanHandle) : Context :=
  match o with
  | OpenWorkflow name => Workflow.withWorkflowName (ContextWithSpan ctx h) name
  | _ => ContextWithSpan ctx h
  end.

(** [st'] is [st] with one more span, [sp], which the handle [h] names;
    the spans of [st] and the rest of the process are as they were. *)
Definition started (st st' : State) (h : option SpanHandle) (sp : Span) : Prop :=
  h = Some (recordingSpan (length (spans (otel st))))
  /\ st' = set_spans (spans (otel st) ++ [sp]) st.

(** The kind a hierarchy span is tagged with. *)
Definition kind_name (k : Kind) : string :=
  match k with
  | KindTask => Workflow.spanKindTask
  | KindAgent => Workflow.spanKindAgent
  | KindTool => Workflow.spanKindTool
  end.

(** ** Vocabulary of the statements on the span store *)

(** From [st] to [st'] nothing was written but to span [id]: the process is
    the same, the store has the same spans, every other span is as it was,
    and span [id], when it exists, kept its name, its parent and the keys of
    its attributes, in their places, with the keys it gained after them, and
    did not change at all when it had already ended. *)
Definition only_span (id : nat) (st st' : State) : Prop :=
  same_process st st'
  /\ length (spans (otel st')) = length (spans (otel st))
  /\ (forall id', id' <> id -> spans (otel st') !! id' = spans (otel st) !! id')
  /\ (forall sp,
        spans (otel st) !! id = Some sp ->
        exists sp',
          spans (otel st') !! id = Some sp'
          /\ span_name sp' = span_name sp
          /\ span_parent sp' = span_parent sp
          /\ (exists ks, map fst (span_attrs sp') = map fst (span_attrs sp) ++ ks)
          /\ (span_ended sp = true -> sp' = sp)).

(** * Proofs *)

(** ** The package's tests, replayed on the embedding *)

(** TestWithSession_SetsTurnAndHash *)
Example test_WithSession_SetsTurnAndHash :
  exists ctx st',
    WithSession Background "s1" [TurnNumber 3; HistoryHash "abc123"] (fresh plain_world)
    = Done ctx st'
    /\ getTriageAttrs ctx
       = [ ("triage.session.id", STRING "s1");
           ("triage.session.turn_number", INT64 3);
           ("triage.session.history_hash", STRING "abc123") ].
Proof. eexists _, _. split; reflexivity. Qed.

(** TestWithSession_OmittedOptionalsDoNotOverwrite *)
Example test_WithSession_OmittedOptionalsDoNotOverwrite :
  exists ctx st',
    (c <- WithSession Background "s1" [TurnNumber 1] ;; WithSession c "s2" [])
      (fresh plain_world) = Done ctx st'
    /\ attr_get AttrSessionID (getTriageAttrs ctx) = Some (STRING "s2")
    /\ attr_get AttrSessionTurn (getTriageAttrs ctx) = Some (INT64 1).
Proof. vm_compute. eexists _, _. repeat split. Qed.

(** TestEnabled_EnvValues and TestEnabled_ExplicitOverridesEnv *)
Example test_Enabled_EnvValues :
  let env v := {| os_environ := [(EnvEnabled, v)]; os_Args := ["agent"] |} in
  option_map enabled (match resolveConfig (env "True") [WithAPIKey "k"] with
                      | inl c => Some c | inr _ => None end) = Some true
  /\ option_map enabled (match resolveConfig (env "no") [WithAPIKey "k"] with
                         | inl c => Some c | inr _ => None end) = Some false
  /\ option_map enabled (match resolveConfig (env "true") [WithAPIKey "k"; WithEnabled false]
                         with inl c => Some c | inr _ => None end) = Some false.
Proof. repeat split. Qed.

(** TestInit_MissingApiKeyReturnsError *)
Example test_Init_MissingApiKeyReturnsError :
  exists err, Init [] (fresh plain_world) = Done (noop, Some err) (fresh plain_world).
Proof. eexists. reflexivity. Qed.

(** TestShutdown_ResetsInitialized *)
Example test_Shutdown_ResetsInitialized :
  exists st',
    (Init [WithAPIKey "tsk_test"] ;;; Shutdown) (fresh plain_world) = Done None st'
    /\ initialized (sdk st') = false /\ provider (sdk st') = None
    /\ tracing st' = false.
Proof. vm_compute. eexists. repeat split. Qed.

(** TestProcessor_ContextInjectedIntoSpan, with a span started by StartTask *)
Example test_Processor_ContextInjectedIntoSpan :
  exists r st',
    (c <- WithUser Background "u1" [] ;; c <- WithTenant c "org_1" [] ;;
     Workflow.StartTask c "test-span") (initialized_state true) = Done r st'
    /\ attrs_of 0 st'
       = [ ("triage.user.id", STRING "u1"); ("triage.tenant.id", STRING "org_1");
           ("traceloop.span.kind", STRING "task");
           ("traceloop.entity.name", STRING "test-span") ].
Proof. vm_compute. eexists _, _. split; reflexivity. Qed.

(** TestLogCompletion_ToolCalls of the gen_ai-only revision: the keys of a
    tool call in a completion message. *)
Example test_LogCompletion_ToolCalls :
  LlmGenAIAttrs.messageAttrs "gen_ai.completion"
    [ {| LlmGenAI.Message.Role := "assistant"; LlmGenAI.Message.Content := "";
         LlmGenAI.Message.ToolCalls :=
           [ {| LlmGenAI.ToolCall.ID := "call_123"; LlmGenAI.ToolCall.Type_ := "function";
                LlmGenAI.ToolCall.Name := "get_weather";
                LlmGenAI.ToolCall.Arguments := "{}" |} ] |} ]
  = [ ("gen_ai.completion.0.role", STRING "assistant");
      ("gen_ai.completion.0.tool_calls.0.id", STRING "call_123");
      ("gen_ai.completion.0.tool_calls.0.type", STRING "function");
      ("gen_ai.completion.0.tool_calls.0.name", STRING "get_weather");
      ("gen_ai.completion.0.tool_calls.0.arguments", STRING "{}") ].
Proof. reflexivity. Qed.

(** TestLLMSpan_SetError *)
Example test_LLMSpan_SetError :
  exists st',
    (r <- LlmGenAI.LogPrompt Background GenAIData.hello_prompt ;;
     LlmGenAI.SetError (snd r) (Some "API rate limited") ;;;
     LlmGenAI.End_ (snd r)) (initialized_state true) = Done tt st'
    /\ option_map span_status (spans (otel st') !! 0%nat) = Some (Some "API rate limited")
    /\ option_map span_ended (spans (otel st') !! 0%nat) = Some true.
Proof. vm_compute. eexists. repeat split. Qed.

(** ** Calls that only write to spans *)

Lemma same_process_refl st : same_process st st.
Proof. repeat split. Qed.

Lemma same_process_trans st1 st2 st3 :
  same_process st1 st2 -> same_process st2 st3 -> same_process st1 st3.
Proof.
  unfold same_process. intros (?&?&?&?&?&?) (?&?&?&?&?&?).
  repeat split; congruence.
Qed.

Lemma update_span_same id f st : same_process st (update_span id f st).
Proof.
  unfold update_span. destruct (spans (otel st) !! id) as [sp|]; [|apply same_process_refl].
  destruct (span_ended sp); [apply same_process_refl|]. repeat split.
Qed.

Lemma returns_ret {A} (a : A) : returns (ret a) a.
Proof. intros st. exists st. split; [reflexivity|apply same_process_refl]. Qed.

Lemma returns_bind {A B} (m : M A) (k : A -> M B) a b :
  returns m a -> returns (k a) b -> returns (bind m k) b.
Proof.
  intros Hm Hk st. destruct (Hm st) as (st1 & E1 & S1).
  destruct (Hk st1) as (st2 & E2 & S2).
  exists st2. unfold bind. rewrite E1. eauto using same_process_trans.
Qed.

Lemma returns_when b (m : M unit) : returns m tt -> returns (when b m) tt.
Proof. destruct b; simpl; auto using returns_ret. Qed.

Lemma returns_SetAttributes h kvs : returns (span_SetAttributes h kvs) tt.
Proof.
  intros st. destruct h; simpl; eexists; split; try reflexivity;
    auto using same_process_refl, update_span_same.
Qed.

Lemma returns_End h : returns (span_End h) tt.
Proof.
  intros st. destruct h; simpl; eexists; split; try reflexivity;
    auto using same_process_refl, update_span_same.
Qed.

Lemma returns_IsRecording {A} h (k : bool -> M A) a :
  (forall b, returns (k b) a) -> returns (bind (span_IsRecording h) k) a.
Proof.
  intros Hk st. unfold bind.
  assert (exists b, span_IsRecording h st = Done b st) as [b ->].
  { destruct h as [|id]; simpl; eauto. destruct (spans (otel st) !! id); eauto. }
  apply Hk.
Qed.

Create HintDb returns_db.
#[local] Hint Resolve returns_ret returns_when returns_SetAttributes returns_End
  : returns_db.

Ltac returns_steps :=
  repeat first
    [ apply returns_IsRecording; intros ?
    | eapply returns_bind; [solve [auto with returns_db]|]
    | eapply returns_bind;
        [apply returns_when; eapply returns_bind; [solve [auto with returns_db]|];
         solve [auto with returns_db] |]
    | solve [auto with returns_db] ].

(** ** The annotation context *)

Lemma clone_id (tc : triageContext) : clone tc = tc.
Proof. destruct tc as [? ? ? ? ? [n|] ? ? ? ? ? ?]; reflexivity. Qed.

Lemma WithUser_returns ctx id opts :
  returns (WithUser ctx id opts)
    (setInContext ctx
       (fold_left (fun tc o => call_UserOption o tc) opts
          (set_userID id (getFromContext ctx)))).
Proof. unfold WithUser. rewrite clone_id. returns_steps. Qed.

Lemma WithTenant_returns ctx id opts :
  returns (WithTenant ctx id opts)
    (setInContext ctx
       (fold_left (fun tc o => call_TenantOption o tc) opts
          (set_tenantID id (getFromContext ctx)))).
Proof. unfold WithTenant. rewrite clone_id. returns_steps. Qed.

Lemma WithSession_returns ctx id opts :
  returns (WithSession ctx id opts)
    (setInContext ctx
       (fold_left (fun tc o => call_SessionOption o tc) opts
          (set_sessionID id (getFromContext ctx)))).
Proof.
  unfold WithSession. rewrite clone_id. apply returns_IsRecording; intros b.
  eapply returns_bind; [|apply returns_ret].
  apply returns_when. eapply returns_bind; [apply returns_SetAttributes|].
  eapply returns_bind; [|auto with returns_db].
  destruct (sessionTurnNumber _); auto with returns_db.
Qed.

Lemma WithInput_returns ctx raw opts :
  returns (WithInput ctx raw opts)
    (setInContext ctx
       (fold_left (fun tc o => call_InputOption o tc) opts
          (set_inputRaw raw (getFromContext ctx)))).
Proof. unfold WithInput. rewrite clone_id. returns_steps. Qed.

Lemma WithTemplate_returns ctx id opts :
  returns (WithTemplate ctx id opts)
    (setInContext ctx
       (fold_left (fun tc o => call_TemplateOption o tc) opts
          (set_templateID id (getFromContext ctx)))).
Proof. unfold WithTemplate. rewrite clone_id. returns_steps. Qed.

Lemma WithChunkACLs_returns ctx acls :
  returns (WithChunkACLs ctx acls)
    (setInContext ctx
       (match json_Marshal acls with
        | Some data => set_chunkACLs data (getFromContext ctx)
        | None => getFromContext ctx
        end)).
Proof.
  unfold WithChunkACLs. rewrite clone_id.
  destruct (json_Marshal acls); [|apply returns_ret]. returns_steps.
Qed.

(** Applying the options of a call in order leaves in each field the value of
    the last option that sets it. *)
Lemma fold_options {O} (step : O -> triageContext -> triageContext)
    (pick : O -> option Cell) (f : Field) :
  (forall o tc, field f (step o tc) = default (field f tc) (pick o)) ->
  forall opts tc,
    field f (fold_left (fun tc o => step o tc) opts tc)
    = default (field f tc) (last_some pick opts).
Proof.
  intros Hstep opts. induction opts as [|o opts IH]; intros tc; simpl; [reflexivity|].
  rewrite IH, Hstep. destruct (last_some pick opts); reflexivity.
Qed.

(** The context a call returns holds, in every field, the value the call sets
    or else the value the field had. *)
Lemma call_merges (c : Call) (ctx : Context) :
  exists ctx',
    returns (call c ctx) ctx'
    /\ ctx_workflowName ctx' = ctx_workflowName ctx
    /\ ctx_span ctx' = ctx_span ctx
    /\ forall f, field f (getFromContext ctx')
                 = default (field f (getFromContext ctx)) (sets c f).
Proof.
  destruct c as [id opts|id opts|id opts|raw opts|id opts|acls]; simpl;
    eexists; (split; [eauto using WithUser_returns, WithTenant_returns,
                         WithSession_returns, WithInput_returns,
                         WithTemplate_returns, WithChunkACLs_returns|]);
    (split; [reflexivity|]); (split; [reflexivity|]); intros f;
    unfold getFromContext at 1; simpl.
  - rewrite (fold_options call_UserOption (UserOption_sets f)).
    + destruct (last_some _ opts); [reflexivity|]. destruct f; reflexivity.
    + intros [role] tc; destruct f; reflexivity.
  - rewrite (fold_options call_TenantOption (TenantOption_sets f)).
    + destruct (last_some _ opts); [reflexivity|]. destruct f; reflexivity.
    + intros [name] tc; destruct f; reflexivity.
  - rewrite (fold_options call_SessionOption (SessionOption_sets f)).
    + destruct (last_some _ opts); [reflexivity|]. destruct f; reflexivity.
    + intros [n|h] tc; destruct f; reflexivity.
  - rewrite (fold_options call_InputOption (InputOption_sets f)).
    + destruct (last_some _ opts); [reflexivity|]. destruct f; reflexivity.
    + intros [s] tc; destruct f; reflexivity.
  - rewrite (fold_options call_TemplateOption (TemplateOption_sets f)).
    + destruct (last_some _ opts); [reflexivity|]. destruct f; reflexivity.
    + intros [v] tc; destruct f; reflexivity.
  - destruct (json_Marshal acls); destruct f; reflexivity.
Qed.

Lemma calls_merge (cs : list Call) :
  forall ctx, exists ctx',
    returns (calls cs ctx) ctx'
    /\ ctx_workflowName ctx' = ctx_workflowName ctx
    /\ ctx_span ctx' = ctx_span ctx
    /\ forall f, field f (getFromContext ctx')
                 = default (field f (getFromContext ctx))
                     (last_some (fun c => sets c f) cs).
Proof.
  induction cs as [|c cs IH]; intros ctx; simpl.
  - exists ctx. auto using returns_ret.
  - destruct (call_merges c ctx) as (ctx1 & R1 & W1 & S1 & F1).
    destruct (IH ctx1) as (ctx' & R & W & S & F).
    exists ctx'. split; [eapply returns_bind; eauto|].
    split; [congruence|]. split; [congruence|].
    intros f. rewrite F, F1.
    destruct (last_some _ cs); reflexivity.
Qed.

(** The last call that sets a field decides [last_some]. *)
Lemma last_some_at {A B} (pick : A -> option B) (l : list A) (i : nat) a b :
  l !! i = Some a -> pick a = Some b ->
  (forall j a', (i < j)%nat -> l !! j = Some a' -> pick a' = None) ->
  last_some pick l = Some b.
Proof.
  revert i. induction l as [|x l IH]; intros i Hi Hp Hlater; [discriminate|].
  simpl. destruct i as [|i]; simpl in Hi.
  - injection Hi as ->.
    assert (last_some pick l = None) as ->; [|exact Hp].
    clear IH Hp. assert (forall j a', l !! j = Some a' -> pick a' = None) as H.
    { intros j a' Hj. apply (Hlater (S j)); [lia|exact Hj]. }
    clear Hlater. induction l as [|y l IH]; simpl; [reflexivity|].
    rewrite IH; [apply (H 0%nat); reflexivity|].
    intros j a' Hj. apply (H (S j)). exact Hj.
  - rewrite (IH i); auto.
    intros j a' Hlt Hj. apply (Hlater (S j)); [lia|exact Hj].
Qed.

Lemma last_some_none {A B} (pick : A -> option B) (l : list A) :
  last_some pick l = None <-> forall a, In a l -> pick a = None.
Proof.
  induction l as [|x l IH]; simpl; [tauto|].
  destruct (last_some pick l) eqn:E.
  - split; [discriminate|]. intros H.
    assert (Some b = None) as Hb; [|discriminate Hb].
    apply IH. auto.
  - split.
    + intros Hx a [<-|Ha]; [exact Hx|]. apply IH; auto.
    + intros H. apply H. auto.
Qed.

(** ** The projection *)

(** The attribute a field contributes to the projection. *)
Lemma append_if_text (s k : string) (attrs : list KeyValue) :
  append_if (negb (is_empty s)) attrs (attr_String k s)
  = attrs ++ match projected (Text s) with Some v => [(k, v)] | None => [] end.
Proof. destruct s; simpl; [rewrite app_nil_r|]; reflexivity. Qed.

Lemma getTriageAttrs_flat (ctx : Context) :
  getTriageAttrs ctx
  = concat (map (fun f => match projected (field f (getFromContext ctx)) with
                          | Some v => [(key_of f, v)]
                          | None => []
                          end) all_fields).
Proof.
  unfold getTriageAttrs. rewrite !append_if_text.
  set (tc := getFromContext ctx).
  assert (forall attrs : list KeyValue,
            match sessionTurnNumber tc with
            | Some n => attrs ++ [attr_Int AttrSessionTurn n]
            | None => attrs
            end
            = attrs ++ match projected (Turn (sessionTurnNumber tc)) with
                       | Some v => [(AttrSessionTurn, v)]
                       | None => []
                       end) as ->.
  { intros attrs. destruct (sessionTurnNumber tc); simpl;
      [|rewrite app_nil_r]; reflexivity. }
  cbn [all_fields map concat field key_of].
  rewrite <- !app_assoc, app_nil_r. reflexivity.
Qed.

Lemma attr_get_app k l1 l2 :
  attr_get k (l1 ++ l2) = or_else (attr_get k l2) (attr_get k l1).
Proof.
  induction l1 as [|[k' v] l1 IH]; simpl.
  - destruct (attr_get k l2); reflexivity.
  - rewrite IH. destruct (attr_get k l2); simpl; [reflexivity|].
    destruct (attr_get k l1); reflexivity.
Qed.

Lemma has_key_attr_get k l :
  has_key k l = match attr_get k l with Some _ => true | None => false end.
Proof.
  unfold has_key. induction l as [|[k' v] l IH]; simpl; [reflexivity|].
  rewrite IH. destruct (attr_get k l); [apply orb_true_r|].
  rewrite orb_false_r. destruct (String.eqb k k'); reflexivity.
Qed.

Lemma present_projected c :
  present c = match projected c with Some _ => true | None => false end.
Proof. destruct c as [[|a s]|[n|]]; reflexivity. Qed.

Lemma projected_not_empty c v : projected c = Some v -> v <> STRING "".
Proof.
  destruct c as [[|a s]|[n|]]; simpl; intros H; try discriminate;
    injection H as <-; discriminate.
Qed.

Lemma attr_get_cells (k : string) (P : Field -> option Value) (fs : list Field) :
  attr_get k (concat (map (fun f => match P f with
                                    | Some v => [(key_of f, v)]
                                    | None => []
                                    end) fs))
  = last_some (fun f => if String.eqb k (key_of f) then P f else None) fs.
Proof.
  induction fs as [|f fs IH]; simpl; [reflexivity|].
  rewrite attr_get_app, IH.
  destruct (last_some _ fs); simpl; [reflexivity|].
  destruct (P f); simpl; [reflexivity|].
  destruct (String.eqb k (key_of f)); reflexivity.
Qed.

(** The twelve keys are distinct. *)
Lemma last_some_key (P : Field -> option Value) (f0 : Field) :
  last_some (fun f => if String.eqb (key_of f0) (key_of f) then P f else None)
    all_fields = P f0.
Proof.
  destruct f0; vm_compute;
    match goal with |- _ = P ?x => destruct (P x) end; reflexivity.
Qed.

(** The projection holds, under the key of each field, the projected value of
    that field and nothing else. *)
Lemma attr_get_projection (ctx : Context) (f : Field) :
  attr_get (key_of f) (getTriageAttrs ctx) = projected (field f (getFromContext ctx)).
Proof.
  rewrite getTriageAttrs_flat.
  rewrite (attr_get_cells _ (fun f => projected (field f (getFromContext ctx)))).
  apply (last_some_key (fun f => projected (field f (getFromContext ctx)))).
Qed.

Lemma In_projection (ctx : Context) (k : string) (v : Value) :
  In (k, v) (getTriageAttrs ctx) ->
  exists f, k = key_of f /\ projected (field f (getFromContext ctx)) = Some v.
Proof.
  rewrite getTriageAttrs_flat, in_concat. intros (l & Hl & Hin).
  apply in_map_iff in Hl as (f & <- & _). exists f.
  destruct (projected _); [|contradiction].
  destruct Hin as [H|[]]. injection H as <- <-. auto.
Qed.

Lemma last_some_Some {A B} (pick : A -> option B) (l : list A) b :
  last_some pick l = Some b -> exists a, In a l /\ pick a = Some b.
Proof.
  induction l as [|x l IH]; simpl; [discriminate|].
  destruct (last_some pick l) as [b'|].
  - intros H. destruct (IH H) as (a & Ha & Hp). eauto.
  - intros H. eauto.
Qed.

Lemma last_some_existsb {A B} (pick : A -> option B) (l : list A) :
  match last_some pick l with Some _ => true | None => false end
  = existsb (fun a => match pick a with Some _ => true | None => false end) l.
Proof.
  induction l as [|x l IH]; simpl; [reflexivity|].
  rewrite <- IH. destruct (last_some pick l); [apply eq_sym, orb_true_r|].
  rewrite orb_false_r. reflexivity.
Qed.

Lemma attr_get_In k v (l : list KeyValue) : attr_get k l = Some v -> In (k, v) l.
Proof.
  induction l as [|[k' v'] l IH]; cbn [attr_get]; [discriminate|].
  destruct (attr_get k l) as [w|].
  - intros H. right. auto.
  - destruct (String.eqb k k') eqn:E; [|discriminate].
    apply String.eqb_eq in E as <-. intros H. injection H as ->. left. reflexivity.
Qed.

(** A call that sets the turn number sets it to a number. *)
Lemma sets_turn_number (c : Call) (v : Cell) :
  sets c FsessionTurnNumber = Some v -> exists n, v = Turn (Some n).
Proof.
  destruct c as [id opts|id opts|id opts|raw opts|id opts|acls]; simpl;
    try (destruct (last_some _ opts) eqn:E; simpl; [|discriminate];
         intros H; injection H as <-;
         apply last_some_Some in E as (o & _ & Ho); destruct o; simpl in Ho;
         try discriminate; injection Ho as <-; eauto).
  destruct (json_Marshal acls); discriminate.
Qed.

(** C1. No-lost-update merge of the annotation helpers: after any sequence of
    WithUser / WithTenant / WithSession / WithInput / WithTemplate /
    WithChunkACLs calls, a field that call [i] set to [v] and that no later
    call sets holds [v] in the final context and is projected from it; a call
    leaves every field it does not set as it was; and
    WithUser(WithUser(empty, "u1", UserRole("admin")), "u2") projects
    triage.user.id = "u2" and triage.user.role = "admin". *)
Theorem no_lost_update :
  (forall (cs : list Call) (ctx0 : Context) (i : nat) (c : Call) (f : Field) (v : Cell),
      cs !! i = Some c ->
      sets c f = Some v ->
      (forall j c', (i < j)%nat -> cs !! j = Some c' -> sets c' f = None) ->
      exists ctx,
        returns (calls cs ctx0) ctx
        /\ field f (getFromContext ctx) = v
        /\ attr_get (key_of f) (getTriageAttrs ctx) = projected v)
  /\ (forall (c : Call) (ctx : Context) (f : Field),
        sets c f = None ->
        exists ctx',
          returns (call c ctx) ctx'
          /\ field f (getFromContext ctx') = field f (getFromContext ctx))
  /\ (exists ctx,
        returns (c1 <- WithUser Background "u1" [UserRole "admin"] ;;
                 WithUser c1 "u2" []) ctx
        /\ attr_get AttrUserID (getTriageAttrs ctx) = Some (STRING "u2")
        /\ attr_get AttrUserRole (getTriageAttrs ctx) = Some (STRING "admin")).
Proof.
  split; [|split].
  - intros cs ctx0 i c f v Hi Hset Hlater.
    destruct (calls_merge cs ctx0) as (ctx & R & _ & _ & F).
    exists ctx. split; [exact R|].
    assert (field f (getFromContext ctx) = v) as Hv.
    { rewrite F, (last_some_at (fun c => sets c f) cs i c v); auto. }
    split; [exact Hv|]. rewrite attr_get_projection, Hv. reflexivity.
  - intros c ctx f Hnone.
    destruct (call_merges c ctx) as (ctx' & R & _ & _ & F).
    exists ctx'. split; [exact R|]. rewrite F, Hnone. reflexivity.
  - eexists. split.
    + eapply returns_bind; apply WithUser_returns.
    + split; reflexivity.
Qed.

Lemma no_lost_update_witness :
  exists ctx,
    returns (calls [CallWithUser "u1" [UserRole "admin"]; CallWithUser "u2" []]
               Background) ctx
    /\ field FuserRole (getFromContext ctx) = Text "admin"
    /\ attr_get (key_of FuserRole) (getTriageAttrs ctx) = projected (Text "admin").
Proof.
  apply (proj1 no_lost_update
           [CallWithUser "u1" [UserRole "admin"]; CallWithUser "u2" []]
           Background 0%nat (CallWithUser "u1" [UserRole "admin"]) FuserRole
           (Text "admin")).
  - reflexivity.
  - reflexivity.
  - intros j c' Hlt Hj. destruct j as [|[|j]]; [lia| |discriminate Hj].
    simpl in Hj. injection Hj as <-. reflexivity.
Defined.

(** C2. Projection presence: getTriageAttrs emits the triage.* key of a field
    exactly when the field is present (string not empty, turn number not nil),
    with the field's value; every emitted attribute is the key of a present
    field and never an empty string; the empty context projects to nothing;
    a turn number set to 0 is emitted as the integer 0; and after any sequence
    of helper calls on the empty context the turn-number key is there exactly
    when some call passed a TurnNumber option. *)
Theorem projection_presence :
  (forall (ctx : Context) (f : Field),
      has_key (key_of f) (getTriageAttrs ctx) = present (field f (getFromContext ctx))
      /\ attr_get (key_of f) (getTriageAttrs ctx)
         = projected (field f (getFromContext ctx)))
  /\ (forall (ctx : Context) (k : string) (v : Value),
        In (k, v) (getTriageAttrs ctx) ->
        v <> STRING ""
        /\ exists f, k = key_of f
                     /\ present (field f (getFromContext ctx)) = true
                     /\ projected (field f (getFromContext ctx)) = Some v)
  /\ getTriageAttrs Background = []
  /\ (forall (ctx : Context) (id : string) (opts : list SessionOption),
        exists ctx',
          returns (WithSession ctx id (opts ++ [TurnNumber 0])) ctx'
          /\ sessionTurnNumber (getFromContext ctx') = Some 0
          /\ attr_get AttrSessionTurn (getTriageAttrs ctx') = Some (INT64 0)
          /\ In (AttrSessionTurn, INT64 0) (getTriageAttrs ctx'))
  /\ (forall (cs : list Call),
        exists ctx,
          returns (calls cs Background) ctx
          /\ has_key AttrSessionTurn (getTriageAttrs ctx)
             = existsb (fun c => match sets c FsessionTurnNumber with
                                 | Some _ => true
                                 | None => false
                                 end) cs).
Proof.
  split; [|split; [|split; [|split]]].
  - intros ctx f. split; [|apply attr_get_projection].
    rewrite has_key_attr_get, attr_get_projection, present_projected. reflexivity.
  - intros ctx k v Hin. destruct (In_projection ctx k v Hin) as (f & -> & Hp).
    split; [eapply projected_not_empty; eauto|].
    exists f. rewrite present_projected, Hp. auto.
  - reflexivity.
  - intros ctx id opts. eexists. split; [apply WithSession_returns|].
    assert (sessionTurnNumber
              (getFromContext
                 (setInContext ctx
                    (fold_left (fun tc o => call_SessionOption o tc)
                       (opts ++ [TurnNumber 0])
                       (set_sessionID id (getFromContext ctx))))) = Some 0) as H0.
    { unfold getFromContext, setInContext. cbn [ctx_triage].
      rewrite fold_left_app. reflexivity. }
    split; [exact H0|].
    assert (attr_get AttrSessionTurn
              (getTriageAttrs
                 (setInContext ctx
                    (fold_left (fun tc o => call_SessionOption o tc)
                       (opts ++ [TurnNumber 0])
                       (set_sessionID id (getFromContext ctx))))) = Some (INT64 0)) as H1.
    { rewrite (attr_get_projection _ FsessionTurnNumber). simpl field.
      rewrite H0. reflexivity. }
    split; [exact H1|].
    apply attr_get_In. exact H1.
  - intros cs. destruct (calls_merge cs Background) as (ctx & R & _ & _ & F).
    exists ctx. split; [exact R|].
    rewrite (has_key_attr_get AttrSessionTurn).
    change AttrSessionTurn with (key_of FsessionTurnNumber).
    rewrite attr_get_projection, <- present_projected, F.
    rewrite <- last_some_existsb.
    destruct (last_some _ cs) as [v|] eqn:E; [|reflexivity].
    apply last_some_Some in E as (c & _ & Hc).
    apply sets_turn_number in Hc as (n & ->). reflexivity.
Qed.

(** ** Writes to a live span *)

Lemma add_attrs_nil sp : add_attrs [] sp = sp.
Proof. destruct sp. reflexivity. Qed.

Lemma set_attrs_app attrs k1 k2 :
  set_attrs attrs (k1 ++ k2) = set_attrs (set_attrs attrs k1) k2.
Proof. apply fold_left_app. Qed.

Lemma add_attrs_app k1 k2 sp : add_attrs k2 (add_attrs k1 sp) = add_attrs (k1 ++ k2) sp.
Proof. unfold add_attrs. simpl. rewrite set_attrs_app. reflexivity. Qed.

(** *** What a span keeps of the attributes set on it *)

Lemma has_key_app k l1 l2 : has_key k (l1 ++ l2) = has_key k l1 || has_key k l2.
Proof. apply existsb_app. Qed.

Lemma length_replace_attr kv l : length (replace_attr kv l) = length l.
Proof. apply length_map. Qed.

Lemma has_key_replace_attr k kv l : has_key k (replace_attr kv l) = has_key k l.
Proof.
  unfold has_key, replace_attr. induction l as [|[k' v'] l IH]; [reflexivity|].
  cbn [map existsb fst]. rewrite IH. f_equal.
  destruct (String.eqb_spec (fst kv) k') as [E|]; [|reflexivity].
  rewrite E. reflexivity.
Qed.

Lemma attr_get_replace_attr_gen k k1 v1 l :
  attr_get k (replace_attr (k1, v1) l)
  = if String.eqb k k1 then (if has_key k1 l then Some v1 else None)
    else attr_get k l.
Proof.
  unfold has_key, replace_attr. cbn [fst]. induction l as [|[k' v'] l IH].
  - cbn. destruct (String.eqb k k1); reflexivity.
  - cbn [map fst existsb].
    destruct (String.eqb_spec k1 k') as [<-|N]; cbn [attr_get fst orb]; rewrite IH;
      destruct (String.eqb_spec k k1) as [->|N1]; rewrite ?String.eqb_refl;
      try reflexivity.
    + destruct (existsb (fun kv => String.eqb k1 (fst kv)) l); reflexivity.
    + destruct (existsb (fun kv => String.eqb k1 (fst kv)) l); [reflexivity|].
      destruct (String.eqb_spec k1 k'); [contradiction|reflexivity].
Qed.

Lemma attr_get_replace_attr k k1 v1 l :
  has_key k1 l = true ->
  attr_get k (replace_attr (k1, v1) l)
  = if String.eqb k k1 then Some v1 else attr_get k l.
Proof. intros H. rewrite attr_get_replace_attr_gen, H. reflexivity. Qed.

Lemma attr_get_set_attr_other k kv l :
  String.eqb k (fst kv) = false -> attr_get k (set_attr l kv) = attr_get k l.
Proof.
  intros N. destruct kv as [k1 v1]. unfold set_attr. cbn [fst] in *.
  destruct (has_key k1 l) eqn:H.
  - rewrite (attr_get_replace_attr k k1 v1 l H), N. reflexivity.
  - destruct (Nat.ltb _ _); [|reflexivity].
    rewrite attr_get_app. cbn [attr_get]. rewrite N. reflexivity.
Qed.

(** A key that is not among those set keeps what it had. *)
Lemma attr_get_set_attrs_other k kvs :
  has_key k kvs = false ->
  forall l, attr_get k (set_attrs l kvs) = attr_get k l.
Proof.
  induction kvs as [|kv kvs IH]; intros H l; [reflexivity|].
  cbn [has_key existsb] in H. apply orb_false_iff in H as [H1 H2].
  cbn [set_attrs fold_left]. fold (set_attrs (set_attr l kv) kvs).
  rewrite (IH H2). apply attr_get_set_attr_other, H1.
Qed.

(** While there is room the span shows, for each key, the last value set. *)
Lemma attr_get_set_attrs k kvs :
  forall l,
    (length l + length kvs <= AttributeCountLimit)%nat ->
    attr_get k (set_attrs l kvs) = attr_get k (l ++ kvs).
Proof.
  induction kvs as [|[k1 v1] kvs IH]; intros l R.
  - rewrite app_nil_r. reflexivity.
  - cbn [set_attrs fold_left]. fold (set_attrs (set_attr l (k1, v1)) kvs).
    cbn [length] in R. unfold set_attr. cbn [fst].
    destruct (has_key k1 l) eqn:H.
    + rewrite IH by (rewrite length_replace_attr; lia).
      rewrite !attr_get_app. cbn [attr_get].
      rewrite (attr_get_replace_attr k k1 v1 l H).
      destruct (attr_get k kvs); [reflexivity|]. cbn [or_else].
      destruct (String.eqb k k1); reflexivity.
    + replace (Nat.ltb (length l) AttributeCountLimit) with true
        by (symmetry; apply Nat.ltb_lt; lia).
      rewrite IH by (rewrite length_app; cbn [length]; lia).
      rewrite <- app_assoc. reflexivity.
Qed.

(** A new span keeps all of a list of attributes that fits. *)
Lemma attr_get_kept k kvs :
  (length kvs <= AttributeCountLimit)%nat ->
  attr_get k (set_attrs [] kvs) = attr_get k kvs.
Proof. intros R. apply (attr_get_set_attrs k kvs []). exact R. Qed.

(** The attributes set first are kept whatever is set after them. *)
Lemma attr_get_kept_early k l1 l2 :
  (length l1 <= AttributeCountLimit)%nat ->
  has_key k l2 = false ->
  attr_get k (set_attrs [] (l1 ++ l2)) = attr_get k (l1 ++ l2).
Proof.
  intros R H. rewrite set_attrs_app, (attr_get_set_attrs_other k l2 H).
  rewrite (attr_get_kept k l1 R), attr_get_app.
  rewrite has_key_attr_get in H. destruct (attr_get k l2); [discriminate|reflexivity].
Qed.

Lemma Forall_replace_attr (P : KeyValue -> Prop) kv l :
  P kv -> Forall P l -> Forall P (replace_attr kv l).
Proof.
  intros Hkv Hl. unfold replace_attr. apply Forall_map.
  eapply Forall_impl; [exact Hl|]. intros old Ho. cbn.
  destruct (String.eqb _ _); assumption.
Qed.

(** A span holds nothing but what it held and what was set. *)
Lemma Forall_set_attrs (P : KeyValue -> Prop) kvs :
  Forall P kvs -> forall l, Forall P l -> Forall P (set_attrs l kvs).
Proof.
  induction 1 as [|kv kvs Hkv _ IH]; intros l Hl; [exact Hl|].
  cbn [set_attrs fold_left]. apply IH. unfold set_attr.
  destruct (has_key _ _); [apply Forall_replace_attr; assumption|].
  destruct (Nat.ltb _ _); [|exact Hl].
  apply Forall_app_2; [exact Hl|]. constructor; [exact Hkv|constructor].
Qed.

Lemma has_key_prefix_false p l :
  has_key_prefix p l = false <-> Forall (fun kv => has_prefix p (fst kv) = false) l.
Proof.
  unfold has_key_prefix. induction l as [|kv l IH]; cbn [existsb].
  - split; [constructor|reflexivity].
  - rewrite orb_false_iff, IH. split.
    + intros [H1 H2]. constructor; assumption.
    + intros H. inversion H; subst. split; assumption.
Qed.

Lemma has_key_prefix_set_attrs p l kvs :
  has_key_prefix p l = false -> has_key_prefix p kvs = false ->
  has_key_prefix p (set_attrs l kvs) = false.
Proof.
  rewrite !has_key_prefix_false. intros Hl Hk. apply Forall_set_attrs; assumption.
Qed.

Lemma has_key_prefix_kept p kvs :
  has_key_prefix p kvs = false -> has_key_prefix p (set_attrs [] kvs) = false.
Proof. apply has_key_prefix_set_attrs. reflexivity. Qed.

(** A span loses no key, and never holds more than the limit unless it
    already did. *)
Lemma has_key_set_attr k l kv : has_key k l = true -> has_key k (set_attr l kv) = true.
Proof.
  intros H. unfold set_attr. destruct (has_key (fst kv) l).
  - rewrite has_key_replace_attr. exact H.
  - destruct (Nat.ltb _ _); [|exact H]. rewrite has_key_app, H. reflexivity.
Qed.

Lemma has_key_set_attrs k kvs :
  forall l, has_key k l = true -> has_key k (set_attrs l kvs) = true.
Proof.
  induction kvs as [|kv kvs IH]; intros l H; [exact H|].
  cbn [set_attrs fold_left]. apply IH, has_key_set_attr, H.
Qed.

Lemma length_set_attr l kv :
  (length l <= length (set_attr l kv) <= Nat.max (length l) AttributeCountLimit)%nat.
Proof.
  unfold set_attr. destruct (has_key _ _); [rewrite length_replace_attr; lia|].
  destruct (Nat.ltb_spec (length l) AttributeCountLimit);
    [rewrite length_app; cbn [length]; lia|lia].
Qed.

Lemma length_set_attrs kvs :
  forall l,
    (length l <= length (set_attrs l kvs) <= Nat.max (length l) AttributeCountLimit)%nat.
Proof.
  induction kvs as [|kv kvs IH]; intros l; [cbn; lia|].
  cbn [set_attrs fold_left]. fold (set_attrs (set_attr l kv) kvs).
  pose proof (IH (set_attr l kv)). pose proof (length_set_attr l kv). lia.
Qed.

(** A key the span has takes the value set last, also when the span is
    full. *)
Lemma map_fst_replace_attr kv l : map fst (replace_attr kv l) = map fst l.
Proof.
  unfold replace_attr. rewrite map_map. apply map_ext_in. intros old _.
  destruct (String.eqb (fst kv) (fst old)) eqn:E; [|reflexivity].
  apply String.eqb_eq, E.
Qed.

(** Setting attributes keeps the keys a span holds, in their places. *)
Lemma map_fst_set_attrs kvs :
  forall l, exists ks, map fst (set_attrs l kvs) = map fst l ++ ks.
Proof.
  induction kvs as [|kv kvs IH]; intros l; cbn [set_attrs fold_left].
  - exists []. symmetry. apply app_nil_r.
  - destruct (IH (set_attr l kv)) as (ks & E). fold (set_attrs (set_attr l kv) kvs).
    rewrite E. unfold set_attr.
    destruct (has_key (fst kv) l); [rewrite map_fst_replace_attr; eauto|].
    destruct (Nat.ltb (length l) AttributeCountLimit); [|eauto].
    rewrite map_app, <- app_assoc. eauto.
Qed.

Lemma attr_get_set_attrs_update k v kvs :
  forall l,
    has_key k l = true ->
    attr_get k kvs = Some v ->
    attr_get k (set_attrs l kvs) = Some v.
Proof.
  induction kvs as [|[k1 v1] kvs IH]; intros l H G; [discriminate|].
  cbn [set_attrs fold_left]. fold (set_attrs (set_attr l (k1, v1)) kvs).
  cbn [attr_get] in G. destruct (attr_get k kvs) as [w|] eqn:Gk.
  - injection G as ->. apply IH; [apply has_key_set_attr, H|reflexivity].
  - destruct (String.eqb_spec k k1) as [->|]; [|discriminate]. injection G as ->.
    rewrite attr_get_set_attrs_other
      by (rewrite has_key_attr_get, Gk; reflexivity).
    unfold set_attr. cbn [fst]. rewrite H, (attr_get_replace_attr k1 k1 v l H).
    rewrite String.eqb_refl. reflexivity.
Qed.

(** A key a full span does not have is dropped. *)
Lemma attr_get_set_attrs_full k kvs :
  forall l,
    (AttributeCountLimit <= length l)%nat ->
    has_key k l = false ->
    attr_get k (set_attrs l kvs) = None.
Proof.
  induction kvs as [|[k1 v1] kvs IH]; intros l F H.
  - cbn. rewrite has_key_attr_get in H. destruct (attr_get k l); [discriminate|].
    reflexivity.
  - cbn [set_attrs fold_left]. apply IH.
    + pose proof (length_set_attr l (k1, v1)). lia.
    + unfold set_attr. cbn [fst]. destruct (has_key k1 l).
      * rewrite has_key_replace_attr. exact H.
      * replace (Nat.ltb (length l) AttributeCountLimit) with false
          by (symmetry; apply Nat.ltb_ge; lia).
        exact H.
Qed.

Lemma put_span_id id sp st : spans (otel st) !! id = Some sp -> put_span id sp st = st.
Proof.
  intros H. unfold put_span, set_spans, set_otel. rewrite (list_insert_id _ _ _ H).
  destruct st as [w s [g b d l] lg]. reflexivity.
Qed.

Lemma put_span_put id sp sp' st : put_span id sp' (put_span id sp st) = put_span id sp' st.
Proof.
  unfold put_span, set_spans, set_otel. simpl. rewrite list_insert_insert_eq. reflexivity.
Qed.

Lemma put_span_lookup id sp sp0 st :
  spans (otel st) !! id = Some sp0 -> spans (otel (put_span id sp st)) !! id = Some sp.
Proof.
  intros H. simpl. apply list_lookup_insert_eq. eapply lookup_lt_Some; eauto.
Qed.

Lemma SetAttributes_live id kvs st sp :
  spans (otel st) !! id = Some sp -> span_ended sp = false ->
  span_SetAttributes (recordingSpan id) kvs st = Done tt (put_span id (add_attrs kvs sp) st).
Proof.
  intros H E. unfold span_SetAttributes, modify, update_span. rewrite H, E. reflexivity.
Qed.

Lemma End_live id st sp :
  spans (otel st) !! id = Some sp -> span_ended sp = false ->
  span_End (recordingSpan id) st = Done tt (put_span id (end_span sp) st).
Proof.
  intros H E. unfold span_End, modify, update_span. rewrite H, E. reflexivity.
Qed.

Lemma insert_last {A} (l : list A) (x y : A) : <[length l := y]> (l ++ [x]) = l ++ [y].
Proof.
  rewrite insert_app_r_alt by lia. rewrite Nat.sub_diag. reflexivity.
Qed.

Lemma lookup_last {A} (l : list A) (x : A) : (l ++ [x]) !! length l = Some x.
Proof. rewrite lookup_app_r by lia. rewrite Nat.sub_diag. reflexivity. Qed.

Lemma appends_SetAttributes s id kvs :
  appends s (span_SetAttributes (recordingSpan id) kvs) id kvs tt.
Proof. intros st sp _ H E. apply SetAttributes_live; assumption. Qed.

Lemma appends_ret {A} s id (a : A) : appends s (ret a) id [] a.
Proof.
  intros st sp _ H E. rewrite add_attrs_nil, put_span_id; [reflexivity|exact H].
Qed.

Lemma appends_bind {A B} s (m : M A) (k : A -> M B) id k1 k2 a b :
  appends s m id k1 a -> appends s (k a) id k2 b -> appends s (bind m k) id (k1 ++ k2) b.
Proof.
  intros H1 H2 st sp Hs H E. unfold bind. rewrite (H1 st sp Hs H E).
  rewrite (H2 (put_span id (add_attrs k1 sp) st) (add_attrs k1 sp)).
  - rewrite put_span_put, add_attrs_app. reflexivity.
  - exact Hs.
  - eapply put_span_lookup; eauto.
  - exact E.
Qed.

Lemma appends_when s b (m : M unit) id kvs :
  appends s m id kvs tt -> appends s (when b m) id (if b then kvs else []) tt.
Proof. destruct b; simpl; auto using appends_ret. Qed.

Lemma appends_eq {A} s (m : M A) id k1 k2 a :
  k1 = k2 -> appends s m id k1 a -> appends s m id k2 a.
Proof. intros ->. auto. Qed.

Lemma appends_range_from {A} s id (body : nat -> A -> M unit)
    (f : nat -> A -> list KeyValue) (xs : list A) :
  (forall i x, appends s (body i x) id (f i x) tt) ->
  forall i, appends s (range_from i xs body) id (collect_from i xs f) tt.
Proof.
  intros Hb. induction xs as [|x xs IH]; intros i; simpl.
  - apply appends_ret.
  - eapply appends_bind; auto.
Qed.

Lemma appends_range {A} s id (body : nat -> A -> M unit)
    (f : nat -> A -> list KeyValue) (xs : list A) :
  (forall i x, appends s (body i x) id (f i x) tt) ->
  appends s (range xs body) id (collect xs f) tt.
Proof. intros H. apply appends_range_from. exact H. Qed.

(** A write to the span at the end of the store. *)
Lemma appends_last {A} s (m : M A) kvs a l sp st :
  appends s m (length l) kvs a ->
  sdk st = s -> span_ended sp = false ->
  m (set_spans (l ++ [sp]) st) = Done a (set_spans (l ++ [add_attrs kvs sp]) st).
Proof.
  intros H Hs E. rewrite (H _ sp); [| exact Hs | apply lookup_last | exact E].
  unfold put_span. simpl. rewrite insert_last. reflexivity.
Qed.

Lemma End_last l sp st :
  span_ended sp = false ->
  span_End (recordingSpan (length l)) (set_spans (l ++ [sp]) st)
  = Done tt (set_spans (l ++ [end_span sp]) st).
Proof.
  intros E. erewrite End_live; [| apply lookup_last | exact E].
  unfold put_span. simpl. rewrite insert_last. reflexivity.
Qed.

Lemma ends_End s id : ends s (span_End (recordingSpan id)) id [].
Proof.
  intros st sp _ H E. rewrite add_attrs_nil. apply End_live; assumption.
Qed.

Lemma ends_bind {A} s (m : M A) (k : A -> M unit) id k1 k2 a :
  appends s m id k1 a -> ends s (k a) id k2 -> ends s (bind m k) id (k1 ++ k2).
Proof.
  intros H1 H2 st sp Hs H E. unfold bind. rewrite (H1 st sp Hs H E).
  rewrite (H2 (put_span id (add_attrs k1 sp) st) (add_attrs k1 sp)).
  - rewrite put_span_put, add_attrs_app. reflexivity.
  - exact Hs.
  - eapply put_span_lookup; eauto.
  - exact E.
Qed.

Lemma ends_eq s m id k1 k2 : k1 = k2 -> ends s m id k1 -> ends s m id k2.
Proof. intros ->. auto. Qed.

Lemma ends_last s m kvs l sp st :
  ends s m (length l) kvs ->
  sdk st = s -> span_ended sp = false ->
  m (set_spans (l ++ [sp]) st) = Done tt (set_spans (l ++ [end_span (add_attrs kvs sp)]) st).
Proof.
  intros H Hs E. rewrite (H _ sp); [| exact Hs | apply lookup_last | exact E].
  unfold put_span. simpl. rewrite insert_last. reflexivity.
Qed.

(** ** Calls on a closed span *)

Lemma no_op_ret {A} st (a : A) : no_op (ret a) st a.
Proof. reflexivity. Qed.

Lemma no_op_bind {A B} (m : M A) (k : A -> M B) st a b :
  no_op m st a -> no_op (k a) st b -> no_op (bind m k) st b.
Proof. unfold no_op, bind. intros -> ->. reflexivity. Qed.

Lemma no_op_when b (m : M unit) st : no_op m st tt -> no_op (when b m) st tt.
Proof. destruct b; simpl; auto using no_op_ret. Qed.

Lemma closed_update h st id f :
  closed h st -> h = recordingSpan id -> update_span id f st = st.
Proof.
  intros C ->. unfold update_span. simpl in C.
  destruct (spans (otel st) !! id) as [sp|]; [|reflexivity]. rewrite C. reflexivity.
Qed.

Lemma no_op_SetAttributes h kvs st : closed h st -> no_op (span_SetAttributes h kvs) st tt.
Proof.
  intros C. destruct h as [|id]; [reflexivity|].
  unfold no_op, span_SetAttributes, modify. erewrite closed_update; eauto.
Qed.

Lemma no_op_End h st : closed h st -> no_op (span_End h) st tt.
Proof.
  intros C. destruct h as [|id]; [reflexivity|].
  unfold no_op, span_End, modify. erewrite closed_update; eauto.
Qed.

Lemma no_op_RecordError h err st : closed h st -> no_op (span_RecordError h err) st tt.
Proof.
  intros C. destruct h as [|id]; [reflexivity|]. destruct err; [|reflexivity].
  unfold no_op, span_RecordError, modify. erewrite closed_update; eauto.
Qed.

Lemma no_op_SetStatus h d st : closed h st -> no_op (span_SetStatus_Error h d) st tt.
Proof.
  intros C. destruct h as [|id]; [reflexivity|].
  unfold no_op, span_SetStatus_Error, modify. erewrite closed_update; eauto.
Qed.

Lemma no_op_range_from {A} (body : nat -> A -> M unit) (xs : list A) st :
  (forall i x, no_op (body i x) st tt) ->
  forall i, no_op (range_from i xs body) st tt.
Proof.
  intros Hb. induction xs as [|x xs IH]; intros i; simpl.
  - apply no_op_ret.
  - eapply no_op_bind; auto.
Qed.

Lemma no_op_range {A} (body : nat -> A -> M unit) (xs : list A) st :
  (forall i x, no_op (body i x) st tt) -> no_op (range xs body) st tt.
Proof. intros H. apply no_op_range_from. exact H. Qed.

(** ** Tracer.Start *)

(** Under a live provider Start opens, at the end of the store, a span that
    carries the projection of the context. *)
Lemma tracer_Start_tracing ctx name st :
  tracing st = true ->
  let id := length (spans (otel st)) in
  tracer_Start ctx name st
  = Done (ContextWithSpan ctx (recordingSpan id), recordingSpan id)
         (set_spans (spans (otel st)
                     ++ [add_attrs (getTriageAttrs ctx) (new_span name (parent_of ctx))]) st).
Proof.
  intros T id. unfold tracer_Start. rewrite T. fold (parent_of ctx). fold id.
  unfold bind, triageSpanProcessor_OnStart.
  destruct (getTriageAttrs ctx) as [|kv kvs] eqn:E.
  - reflexivity.
  - cbn [length Nat.ltb Nat.leb when].
    erewrite SetAttributes_live; [| apply lookup_last | reflexivity].
    unfold ret, put_span. simpl. unfold id. rewrite insert_last. reflexivity.
Qed.

Lemma tracer_Start_idle ctx name st :
  tracing st = false ->
  tracer_Start ctx name st
  = Done (ContextWithSpan ctx (nonRecordingSpan (parent_of ctx)),
          nonRecordingSpan (parent_of ctx)) st.
Proof. intros T. unfold tracer_Start. rewrite T. reflexivity. Qed.

(** ** llm.go, gen_ai-only revision: what the calls set *)

Module LlmGenAIFacts.
Import LlmGenAI LlmGenAIAttrs.

Lemma appends_text s id k v :
  appends s (when (negb (is_empty v))
               (span_SetAttributes (recordingSpan id) [attr_String k v]))
    id (text_attr k v) tt.
Proof.
  eapply appends_eq; [|apply appends_when, appends_SetAttributes].
  unfold text_attr. destruct (is_empty v); reflexivity.
Qed.

Lemma appends_usage s id k n :
  appends s (usage_attr (recordingSpan id) k n) id (usage_attrs k n) tt.
Proof. apply appends_when, appends_SetAttributes. Qed.

Lemma appends_shouldTraceContent s id : appends s shouldTraceContent id [] (trace_of s).
Proof.
  intros st sp Hs H E. unfold shouldTraceContent, trace_of. rewrite Hs.
  rewrite add_attrs_nil, put_span_id by exact H. reflexivity.
Qed.

Lemma appends_setMessageAttrs s id prefix messages :
  appends s (setMessageAttrs (recordingSpan id) prefix messages) id
    (messageAttrs prefix messages) tt.
Proof.
  apply appends_range. intros i msg.
  eapply appends_bind; [apply appends_text|].
  eapply appends_bind; [apply appends_text|].
  apply appends_range. intros j tc.
  eapply appends_bind; [apply appends_text|].
  eapply appends_bind; [apply appends_text|].
  eapply appends_bind; [apply appends_text|].
  apply appends_text.
Qed.

Lemma appends_setToolDefinitionAttrs s id tools :
  appends s (setToolDefinitionAttrs (recordingSpan id) tools) id
    (toolDefinitionAttrs tools) tt.
Proof.
  apply appends_range. intros i tool.
  eapply appends_bind; [apply appends_text|].
  eapply appends_bind; [apply appends_text|].
  destruct (ToolDefinition.Parameters tool) as [params|]; [|apply appends_ret].
  destruct (json_Marshal params); [apply appends_SetAttributes|apply appends_ret].
Qed.

Lemma appends_option {A} s id (o : option A) (f : A -> KeyValue) :
  appends s match o with
            | Some x => span_SetAttributes (recordingSpan id) [f x]
            | None => ret tt
            end id match o with Some x => [f x] | None => [] end tt.
Proof. destruct o; [apply appends_SetAttributes|apply appends_ret]. Qed.

(** The body of LogPrompt, once the span is started. *)
Lemma genai_LogPrompt_tracing ctx params st :
  tracing st = true ->
  let id := length (spans (otel st)) in
  LogPrompt ctx params st
  = Done (ContextWithSpan ctx (recordingSpan id),
          Some {| span := Some (recordingSpan id) |})
         (set_spans
            (spans (otel st)
             ++ [add_attrs (getTriageAttrs ctx ++ promptAttrs (trace_of (sdk st)) params)
                   (new_span (spanName params) (parent_of ctx))]) st).
Proof.
  intros T id. unfold LogPrompt. unfold bind at 1.
  rewrite (tracer_Start_tracing ctx (spanName params) st T). fold id.
  cbv beta iota.
  erewrite (appends_last (sdk st)); [| | reflexivity | reflexivity].
  - rewrite add_attrs_app. reflexivity.
  - unfold promptAttrs, requestAttrs. rewrite <- !app_assoc.
    eapply appends_bind; [apply appends_text|].
    eapply appends_bind; [apply appends_text|].
    eapply appends_bind;
      [apply (appends_option _ _ _ (attr_Float64 AttrGenAIRequestTemperature))|].
    eapply appends_bind;
      [apply (appends_option _ _ _ (attr_Float64 AttrGenAIRequestTopP))|].
    eapply appends_bind;
      [apply (appends_option _ _ _ (attr_Int AttrGenAIRequestMaxTokens))|].
    eapply appends_bind; [apply appends_when, appends_SetAttributes|].
    eapply (appends_bind _ _ _ _ [] _ (trace_of (sdk st)));
      [apply appends_shouldTraceContent|].
    eapply (appends_eq _ _ _ (_ ++ [])); [apply app_nil_r|].
    eapply appends_bind; [|apply appends_ret].
    apply appends_when.
    eapply appends_bind;
      [apply appends_setMessageAttrs|apply appends_setToolDefinitionAttrs].
Qed.

Lemma no_op_setMessageAttrs h prefix messages st :
  closed h st -> no_op (setMessageAttrs h prefix messages) st tt.
Proof.
  intros C. apply no_op_range. intros i msg.
  eapply no_op_bind; [apply no_op_when, no_op_SetAttributes, C|].
  eapply no_op_bind; [apply no_op_when, no_op_SetAttributes, C|].
  apply no_op_range. intros j tc.
  do 3 (eapply no_op_bind; [apply no_op_when, no_op_SetAttributes, C|]).
  apply no_op_when, no_op_SetAttributes, C.
Qed.

Lemma no_op_setToolDefinitionAttrs h tools st :
  closed h st -> no_op (setToolDefinitionAttrs h tools) st tt.
Proof.
  intros C. apply no_op_range. intros i tool.
  do 2 (eapply no_op_bind; [apply no_op_when, no_op_SetAttributes, C|]).
  destruct (ToolDefinition.Parameters tool) as [params|]; [|apply no_op_ret].
  destruct (json_Marshal params); [apply no_op_SetAttributes, C|apply no_op_ret].
Qed.

Lemma no_op_shouldTraceContent st : no_op shouldTraceContent st (trace_of (sdk st)).
Proof. reflexivity. Qed.

(** With no live provider LogPrompt opens nothing and records nothing. *)
Lemma genai_LogPrompt_idle ctx params st :
  tracing st = false ->
  LogPrompt ctx params st
  = Done (ContextWithSpan ctx (nonRecordingSpan (parent_of ctx)),
          Some {| span := Some (nonRecordingSpan (parent_of ctx)) |}) st.
Proof.
  intros T. unfold LogPrompt. unfold bind at 1.
  rewrite (tracer_Start_idle ctx (spanName params) st T). cbv beta iota.
  assert (closed (nonRecordingSpan (parent_of ctx)) st) as C by exact I.
  do 2 (eapply no_op_bind; [apply no_op_when, no_op_SetAttributes, C|]).
  do 3 (eapply no_op_bind;
        [match goal with |- no_op (match ?o with _ => _ end) _ _ =>
           destruct o; [apply no_op_SetAttributes, C|apply no_op_ret] end|]).
  eapply no_op_bind; [apply no_op_when, no_op_SetAttributes, C|].
  eapply no_op_bind; [apply no_op_shouldTraceContent|].
  eapply no_op_bind; [|apply no_op_ret].
  apply no_op_when. eapply no_op_bind;
    [apply no_op_setMessageAttrs, C|apply no_op_setToolDefinitionAttrs, C].
Qed.

Lemma genai_ends_LogCompletion s id params :
  ends s (LogCompletion (Some {| span := Some (recordingSpan id) |}) params) id
    (completionAttrs (trace_of s) params).
Proof.
  unfold LogCompletion, deref.
  eapply (ends_eq _ _ _ ([] ++ _)); [reflexivity|].
  eapply ends_bind; [apply appends_ret|]. cbn [span].
  unfold completionAttrs, responseAttrs, usageAttrs. rewrite <- !app_assoc.
  eapply ends_bind; [apply appends_text|].
  eapply ends_bind; [apply appends_text|].
  do 6 (eapply ends_bind; [apply appends_usage|]).
  eapply (ends_eq _ _ _ ([] ++ _ ++ [])); [simpl; apply app_nil_r|].
  eapply ends_bind; [apply appends_shouldTraceContent|].
  eapply ends_bind; [apply appends_when, appends_setMessageAttrs|].
  apply ends_End.
Qed.

(** LogCompletion on a closed span changes nothing. *)
Lemma genai_LogCompletion_closed h params st :
  closed h st -> no_op (LogCompletion (Some {| span := Some h |}) params) st tt.
Proof.
  intros C. unfold LogCompletion, deref.
  eapply no_op_bind; [apply no_op_ret|]. cbn [span].
  do 2 (eapply no_op_bind; [apply no_op_when, no_op_SetAttributes, C|]).
  do 6 (eapply no_op_bind; [apply no_op_when, no_op_SetAttributes, C|]).
  eapply no_op_bind; [apply no_op_shouldTraceContent|].
  eapply no_op_bind; [apply no_op_when, no_op_setMessageAttrs, C|].
  apply no_op_End, C.
Qed.

(** A whole call: the span it leaves in the store. *)
Lemma genai_logged_tracing ctx params completion st :
  tracing st = true ->
  let id := length (spans (otel st)) in
  logged ctx params completion st
  = Done (Some {| span := Some (recordingSpan id) |})
         (set_spans
            (spans (otel st)
             ++ [finished (spanName params) ctx
                   (exported (trace_of (sdk st)) ctx params completion)]) st).
Proof.
  intros T id. unfold logged. unfold bind at 1.
  rewrite (genai_LogPrompt_tracing ctx params st T). fold id. cbn [snd].
  unfold bind. erewrite (ends_last (sdk st));
    [| apply genai_ends_LogCompletion | reflexivity | reflexivity].
  unfold ret, finished, exported. rewrite add_attrs_app.
  unfold add_attrs at 2. simpl. rewrite <- app_assoc. reflexivity.
Qed.

End LlmGenAIFacts.

(** ** llm.go, dual-schema revision: what the calls set *)

Module LlmDualFacts.
Import LlmDual LlmDualAttrs.

Lemma appends_isTraceContentEnabled s id :
  appends s isTraceContentEnabled id [] (trace_of s).
Proof.
  intros st sp Hs H E. unfold isTraceContentEnabled, trace_of. rewrite Hs.
  rewrite add_attrs_nil, put_span_id by exact H. reflexivity.
Qed.

Lemma dual_LogPrompt_tracing ctx prompt st :
  tracing st = true ->
  let id := length (spans (otel st)) in
  LogPrompt ctx prompt st
  = Done (Some {| span := Some (recordingSpan id);
                  ctx := ContextWithSpan ctx (recordingSpan id) |},
          ContextWithSpan ctx (recordingSpan id))
         (set_spans
            (spans (otel st)
             ++ [add_attrs (getTriageAttrs ctx ++ promptAttrs (trace_of (sdk st)) prompt)
                   (new_span (spanName prompt) (parent_of ctx))]) st).
Proof.
  intros T id. unfold LogPrompt. unfold bind at 1.
  rewrite (tracer_Start_tracing ctx (spanName prompt) st T). fold id.
  cbv beta iota.
  erewrite (appends_last (sdk st)); [| | reflexivity | reflexivity].
  - rewrite add_attrs_app. reflexivity.
  - eapply (appends_eq _ _ _ ([] ++ _ ++ [])); [simpl; apply app_nil_r|].
    eapply appends_bind; [apply appends_isTraceContentEnabled|].
    eapply appends_bind; [apply appends_SetAttributes|apply appends_ret].
Qed.

Lemma dual_LogPrompt_idle ctx prompt st :
  tracing st = false ->
  LogPrompt ctx prompt st
  = Done (Some {| span := Some (nonRecordingSpan (parent_of ctx));
                  ctx := ContextWithSpan ctx (nonRecordingSpan (parent_of ctx)) |},
          ContextWithSpan ctx (nonRecordingSpan (parent_of ctx))) st.
Proof.
  intros T. unfold LogPrompt. unfold bind at 1.
  rewrite (tracer_Start_idle ctx (spanName prompt) st T). reflexivity.
Qed.

Lemma dual_ends_LogCompletion s id c completion usage :
  ends s (LogCompletion (Some {| span := Some (recordingSpan id); ctx := c |})
            completion usage) id
    (completionAttrs (trace_of s) completion usage).
Proof.
  unfold LogCompletion. cbn [span].
  eapply (ends_eq _ _ _ ([] ++ _ ++ [])); [simpl; apply app_nil_r|].
  eapply ends_bind; [apply appends_isTraceContentEnabled|].
  eapply ends_bind; [apply appends_SetAttributes|apply ends_End].
Qed.

Lemma dual_LogCompletion_closed h c completion usage st :
  closed h st ->
  no_op (LogCompletion (Some {| span := Some h; ctx := c |}) completion usage) st tt.
Proof.
  intros C. unfold LogCompletion. cbn [span].
  eapply no_op_bind; [reflexivity|].
  eapply no_op_bind; [apply no_op_SetAttributes, C|apply no_op_End, C].
Qed.

Lemma dual_logged_tracing ctx prompt completion usage st :
  tracing st = true ->
  let id := length (spans (otel st)) in
  logged ctx prompt completion usage st
  = Done (Some {| span := Some (recordingSpan id);
                  ctx := ContextWithSpan ctx (recordingSpan id) |})
         (set_spans
            (spans (otel st)
             ++ [finished (spanName prompt) ctx
                   (exported (trace_of (sdk st)) ctx prompt completion usage)]) st).
Proof.
  intros T id. unfold logged. unfold bind at 1.
  rewrite (dual_LogPrompt_tracing ctx prompt st T). fold id. cbn [fst].
  unfold bind. erewrite (ends_last (sdk st));
    [| apply dual_ends_LogCompletion | reflexivity | reflexivity].
  unfold ret, finished, exported. rewrite add_attrs_app.
  unfold add_attrs at 2. simpl. rewrite <- app_assoc. reflexivity.
Qed.

End LlmDualFacts.

(** ** Keys *)

Lemma keys_nil Q : keys Q [].
Proof. constructor. Qed.

Lemma keys_app Q l1 l2 : keys Q l1 -> keys Q l2 -> keys Q (l1 ++ l2).
Proof. intros H1 H2. apply Forall_app. split; assumption. Qed.

Lemma keys_cons Q k v l : Q k = true -> keys Q l -> keys Q ((k, v) :: l).
Proof. intros H1 H2. constructor; assumption. Qed.

Lemma keys_weaken (Q Q' : string -> bool) l :
  (forall k, Q k = true -> Q' k = true) -> keys Q l -> keys Q' l.
Proof.
  intros H HF. unfold keys in *. rewrite Forall_forall in *.
  intros kv Hin. apply H, HF, Hin.
Qed.

Lemma keys_if Q (b : bool) l1 l2 : keys Q l1 -> keys Q l2 -> keys Q (if b then l1 else l2).
Proof. destruct b; auto. Qed.

Lemma keys_collect_from {A} Q (body : nat -> A -> list KeyValue) (xs : list A) :
  (forall i x, keys Q (body i x)) -> forall i, keys Q (collect_from i xs body).
Proof.
  intros H. induction xs as [|x xs IH]; intros i; simpl;
    [apply keys_nil|apply keys_app; auto].
Qed.

Lemma attr_get_outside Q k l : keys Q l -> Q k = false -> attr_get k l = None.
Proof.
  intros H Hk. induction H as [|[k' v] l Hq _ IH]; simpl; [reflexivity|].
  rewrite IH. destruct (String.eqb k k') eqn:E; [|reflexivity].
  apply String.eqb_eq in E as <-. simpl in Hq. congruence.
Qed.

Lemma has_key_prefix_outside Q p l :
  keys Q l -> (forall k, Q k = true -> has_prefix p k = false) ->
  has_key_prefix p l = false.
Proof.
  intros H Hq. unfold has_key_prefix.
  induction H as [|[k' v] l Hk _ IH]; simpl; [reflexivity|].
  rewrite IH, (Hq k' Hk). reflexivity.
Qed.

Lemma has_key_prefix_app p l1 l2 :
  has_key_prefix p (l1 ++ l2) = has_key_prefix p l1 || has_key_prefix p l2.
Proof. unfold has_key_prefix. apply existsb_app. Qed.

(** Two prefixes of one string: one is a prefix of the other. *)
Lemma has_prefix_clash p q k :
  has_prefix p k = true -> has_prefix q k = true ->
  has_prefix p q = true \/ has_prefix q p = true.
Proof.
  revert q k. induction p as [|a p IH]; intros q k Hp Hq; [left; reflexivity|].
  destruct q as [|b q]; [right; reflexivity|].
  destruct k as [|c k]; [discriminate|]. simpl in *.
  apply andb_true_iff in Hp as [Ha Hp]. apply andb_true_iff in Hq as [Hb Hq].
  apply Ascii.eqb_eq in Ha as ->. apply Ascii.eqb_eq in Hb as ->.
  rewrite Ascii.eqb_refl. simpl. eauto.
Qed.

Lemma has_prefix_apart p q k :
  has_prefix p q = false -> has_prefix q p = false ->
  has_prefix p k = true -> has_prefix q k = false.
Proof.
  intros H1 H2 Hp. destruct (has_prefix q k) eqn:Hq; [|reflexivity].
  destruct (has_prefix_clash p q k Hp Hq); congruence.
Qed.

Lemma has_prefix_trans p q k :
  has_prefix p q = true -> has_prefix q k = true -> has_prefix p k = true.
Proof.
  revert q k. induction p as [|a p IH]; intros q k Hp Hq; [reflexivity|].
  destruct q as [|b q]; [discriminate|]. destruct k as [|c k]; [discriminate|].
  simpl in *. apply andb_true_iff in Hp as [Ha Hp]. apply andb_true_iff in Hq as [Hb Hq].
  apply Ascii.eqb_eq in Ha as ->. rewrite Hb. simpl. eauto.
Qed.

Lemma has_prefix_app p s : has_prefix p (p +:+ s) = true.
Proof. induction p as [|a p IH]; simpl; [reflexivity|]. rewrite Ascii.eqb_refl. exact IH. Qed.

Lemma eqb_app_l a s1 s2 : String.eqb (a +:+ s1) (a +:+ s2) = String.eqb s1 s2.
Proof. induction a as [|c a IH]; simpl; [reflexivity|]. rewrite Ascii.eqb_refl. exact IH. Qed.

Lemma append_assoc a b c : (a +:+ b) +:+ c = a +:+ b +:+ c.
Proof.
  induction a as [|x a IH]; [reflexivity|].
  change (String x ((a +:+ b) +:+ c) = String x (a +:+ b +:+ c)).
  rewrite IH. reflexivity.
Qed.

Lemma eqb_indexed p x s1 s2 :
  String.eqb (p +:+ x +:+ s1) ((p +:+ x) +:+ s2) = String.eqb s1 s2.
Proof. rewrite append_assoc, !eqb_app_l. reflexivity. Qed.

(** The keys of the projection are the triage.* ones. *)
Lemma keys_getTriageAttrs ctx : keys (has_prefix "triage.") (getTriageAttrs ctx).
Proof.
  apply Forall_forall. intros [k v] Hin. apply list_elem_of_In in Hin.
  destruct (In_projection ctx k v Hin) as (f & -> & _). destruct f; reflexivity.
Qed.

(** *** Keys a list does not hold, and how long the projection is *)

Lemma has_key_outside Q k l : keys Q l -> Q k = false -> has_key k l = false.
Proof.
  intros H Hk. induction H as [|[k' v] l Hq _ IH]; simpl; [reflexivity|].
  fold (has_key k l). rewrite IH, orb_false_r.
  destruct (String.eqb k k') eqn:E; [|reflexivity].
  apply String.eqb_eq in E as <-. simpl in Hq. congruence.
Qed.

(** A key that was never set is not on the span. *)
Lemma attr_get_kept_none k kvs : attr_get k kvs = None -> attr_get k (kept kvs) = None.
Proof.
  intros H. unfold kept.
  rewrite attr_get_set_attrs_other by (rewrite has_key_attr_get, H; reflexivity).
  reflexivity.
Qed.

Lemma attr_get_kept_fits k kvs : fits kvs -> attr_get k (kept kvs) = attr_get k kvs.
Proof. apply attr_get_kept. Qed.

Lemma length_append_if b l kv : (length (append_if b l kv) <= S (length l))%nat.
Proof. destruct b; simpl; [rewrite length_app; simpl|]; lia. Qed.

(** The projection has at most one attribute for each of the twelve fields. *)
Lemma length_getTriageAttrs ctx : (length (getTriageAttrs ctx) <= 12)%nat.
Proof.
  unfold getTriageAttrs. cbv zeta.
  destruct (sessionTurnNumber (getFromContext ctx));
    repeat first
      [ etransitivity; [apply length_append_if|]; apply le_n_S
      | rewrite length_app; cbn [length]; rewrite Nat.add_1_r; apply le_n_S ];
    simpl; lia.
Qed.

(** The projection and a few attributes more fit on a span. *)
Lemma fits_projection ctx l :
  (length l <= 100)%nat -> fits (getTriageAttrs ctx ++ l).
Proof.
  intros H. unfold fits. rewrite length_app. pose proof (length_getTriageAttrs ctx).
  unfold AttributeCountLimit. lia.
Qed.

Lemma length_if_le {A} (b : bool) (l1 l2 : list A) n :
  (length l1 <= n)%nat -> (length l2 <= n)%nat ->
  (length (if b then l1 else l2) <= n)%nat.
Proof. destruct b; auto. Qed.

(** ** Decimal indices *)

Lemma all_digits_itoa n : all_digits (itoa n) = true.
Proof.
  unfold itoa. induction (Nat.to_uint n); simpl; auto.
Qed.

Lemma itoa_inj n m : itoa n = itoa m -> n = m.
Proof.
  unfold itoa. intros H.
  assert (Nat.to_uint n = Nat.to_uint m) as E.
  { apply (f_equal NilEmpty.uint_of_string) in H.
    rewrite !NilEmpty.usu in H. congruence. }
  apply DecimalNat.Unsigned.to_uint_inj. exact E.
Qed.

(** Two decimal numbers followed by a dot: equal texts, equal numbers. *)
Lemma digits_dot a b r1 r2 :
  all_digits a = true -> all_digits b = true ->
  a +:+ String "." r1 = b +:+ String "." r2 -> a = b /\ r1 = r2.
Proof.
  revert b. induction a as [|c a IH]; intros [|d b] Ha Hb H; simpl in *.
  - injection H as ->. auto.
  - injection H as <- _. discriminate.
  - injection H as -> _. discriminate.
  - injection H as -> H.
    apply andb_true_iff in Ha as [_ Ha]. apply andb_true_iff in Hb as [_ Hb].
    destruct (IH b Ha Hb H) as [-> ->]. auto.
Qed.

Lemma indexed_key_inj p n m r1 r2 :
  p +:+ itoa n +:+ String "." r1 = p +:+ itoa m +:+ String "." r2 -> n = m /\ r1 = r2.
Proof.
  intros H.
  assert (itoa n +:+ String "." r1 = itoa m +:+ String "." r2) as H'.
  { clear -H. induction p as [|c p IH]; simpl in H; [exact H|].
    injection H as H. auto. }
  destruct (digits_dot _ _ _ _ (all_digits_itoa n) (all_digits_itoa m) H') as [E ->].
  split; [apply itoa_inj, E|reflexivity].
Qed.

Lemma attr_get_collect_later {A} p suffix (body : nat -> A -> list KeyValue) xs :
  (forall n y, Forall (fun kv => indexed p n (fst kv)) (body n y)) ->
  forall m i, (i < m)%nat ->
    attr_get (p +:+ itoa i +:+ String "." suffix) (collect_from m xs body) = None.
Proof.
  intros Hb. induction xs as [|x xs IH]; intros m i Hlt; simpl; [reflexivity|].
  rewrite attr_get_app, IH by lia. simpl.
  specialize (Hb m x). induction Hb as [|[k v] l [r Hk] _ IHl]; simpl; [reflexivity|].
  rewrite IHl. destruct (String.eqb _ k) eqn:E; [|reflexivity].
  apply String.eqb_eq in E. simpl in Hk. rewrite Hk in E.
  apply indexed_key_inj in E as [-> _]. lia.
Qed.

(** Under the key of element [i] a slice loop leaves what its body wrote for
    that element. *)
Lemma attr_get_collect {A} p suffix (body : nat -> A -> list KeyValue) xs i x v :
  (forall n y, Forall (fun kv => indexed p n (fst kv)) (body n y)) ->
  xs !! i = Some x ->
  attr_get (p +:+ itoa i +:+ String "." suffix) (body i x) = Some v ->
  attr_get (p +:+ itoa i +:+ String "." suffix) (collect xs body) = Some v.
Proof.
  intros Hb. unfold collect.
  change i with (0 + i)%nat at 2 3 4. generalize 0%nat as m.
  revert i. induction xs as [|y xs IH]; intros i m Hi Hv; [discriminate|].
  simpl. rewrite attr_get_app. destruct i as [|i]; simpl in Hi.
  - injection Hi as ->. rewrite Nat.add_0_r in *.
    rewrite (attr_get_collect_later p suffix body xs Hb) by lia. exact Hv.
  - replace (m + S i)%nat with (S m + i)%nat in * by lia.
    rewrite (IH i (S m) Hi Hv). reflexivity.
Qed.

Lemma has_prefix_app_r q p s : has_prefix q p = true -> has_prefix q (p +:+ s) = true.
Proof.
  intros H. eapply has_prefix_trans; [exact H|apply has_prefix_app].
Qed.

Lemma app_option {A} (o : option A) (attrs : list KeyValue) (f : A -> KeyValue) :
  match o with Some x => attrs ++ [f x] | None => attrs end
  = attrs ++ match o with Some x => [f x] | None => [] end.
Proof. destruct o; [reflexivity|rewrite app_nil_r; reflexivity]. Qed.

Lemma app_if (b : bool) (attrs l : list KeyValue) :
  (if b then attrs ++ l else attrs) = attrs ++ (if b then l else []).
Proof. destruct b; [reflexivity|rewrite app_nil_r; reflexivity]. Qed.

Lemma append_if_app (b : bool) (attrs : list KeyValue) kv :
  append_if b attrs kv = attrs ++ (if b then [kv] else []).
Proof. apply app_if. Qed.

Lemma keys_option {A} Q (o : option A) (f : A -> KeyValue) :
  (forall x, Q (fst (f x)) = true) ->
  keys Q match o with Some x => [f x] | None => [] end.
Proof. intros H. destruct o; [constructor; [apply H|constructor]|constructor]. Qed.

Ltac keys_literal :=
  repeat first
    [ apply keys_nil
    | apply keys_cons; [reflexivity|]
    | apply keys_app
    | apply keys_if
    | apply keys_option; intros ?; reflexivity ].

Module LlmDualKeys.
Import LlmDual LlmDualAttrs.

Lemma promptAttrs_parts trace prompt :
  promptAttrs trace prompt
  = headAttrs prompt ++ optionAttrs prompt
    ++ (if trace then promptMessageAttrs (Prompt.Messages prompt) else [])
    ++ toolDefAttrs (Prompt.Tools prompt).
Proof.
  unfold promptAttrs, optionAttrs.
  rewrite !append_if_app, !app_option, app_if.
  rewrite <- !app_assoc. reflexivity.
Qed.

Lemma completionAttrs_parts trace completion usage :
  completionAttrs trace completion usage
  = responseAttrs completion ++ usageAttrs usage
    ++ (if trace then completionMessageAttrs (Completion.Messages completion) else []).
Proof.
  unfold completionAttrs, responseAttrs, usageAttrs. rewrite app_if.
  destruct (is_empty (Completion.Model completion)); reflexivity.
Qed.

Lemma keys_headAttrs prompt : keys (one_of head_keys) (headAttrs prompt).
Proof. unfold headAttrs. keys_literal. Qed.

Lemma keys_optionAttrs prompt : keys (one_of option_keys) (optionAttrs prompt).
Proof. unfold optionAttrs. keys_literal. Qed.

Lemma keys_responseAttrs completion : keys (one_of response_keys) (responseAttrs completion).
Proof. unfold responseAttrs. keys_literal. Qed.

Lemma dual_keys_usageAttrs usage : keys (one_of usage_keys) (usageAttrs usage).
Proof. unfold usageAttrs. keys_literal. Qed.

Lemma dual_keys_toolCallAttrs q prefix calls :
  has_prefix q prefix = true -> keys (has_prefix q) (toolCallAttrs prefix calls).
Proof.
  intros H. apply keys_collect_from. intros j tc.
  repeat (apply keys_cons; [simpl fst; auto using has_prefix_app_r|]).
  apply keys_nil.
Qed.

Lemma keys_promptMessageAttrs messages :
  keys (has_prefix "gen_ai.prompt.") (promptMessageAttrs messages).
Proof.
  apply keys_collect_from. intros i msg.
  apply keys_app; [keys_literal|].
  apply keys_app; [keys_literal|].
  apply keys_app; [apply dual_keys_toolCallAttrs; reflexivity|keys_literal].
Qed.

Lemma keys_completionMessageAttrs messages :
  keys (has_prefix "gen_ai.completion.") (completionMessageAttrs messages).
Proof.
  apply keys_collect_from. intros i msg.
  apply keys_app; [keys_literal|].
  apply keys_app; [keys_literal|].
  apply dual_keys_toolCallAttrs; reflexivity.
Qed.

Lemma keys_toolDefAttrs tools :
  keys (has_prefix "gen_ai.request.tool.") (toolDefAttrs tools).
Proof.
  apply keys_collect_from. intros i tool.
  apply keys_app; [keys_literal|].
  apply keys_app; [keys_literal|].
  apply keys_app; [keys_literal|].
  destruct (ToolFunction.Parameters _) as [params|]; [|apply keys_nil].
  destruct (json_Marshal params); keys_literal.
Qed.

End LlmDualKeys.

Module LlmDualLookups.
Import LlmDual LlmDualAttrs LlmDualKeys.

Section Exported.
Variables (trace : bool) (ctx : Context) (prompt : Prompt.t)
  (completion : Completion.t) (usage : Usage.t).

Local Abbreviation L := (exported trace ctx prompt completion usage).

Lemma dual_exported_parts :
  L = getTriageAttrs ctx ++ headAttrs prompt ++ optionAttrs prompt
      ++ (if trace then promptMessageAttrs (Prompt.Messages prompt) else [])
      ++ toolDefAttrs (Prompt.Tools prompt)
      ++ responseAttrs completion ++ usageAttrs usage
      ++ (if trace then completionMessageAttrs (Completion.Messages completion)
          else []).
Proof.
  unfold exported. rewrite promptAttrs_parts, completionAttrs_parts.
  rewrite <- !app_assoc. reflexivity.
Qed.

(** A key outside every variable part is looked up in the fixed parts. *)
Lemma dual_attr_get_fixed k :
  has_prefix "triage." k = false ->
  one_of option_keys k = false ->
  has_prefix "gen_ai.prompt." k = false ->
  has_prefix "gen_ai.request.tool." k = false ->
  one_of response_keys k = false ->
  has_prefix "gen_ai.completion." k = false ->
  attr_get k L = or_else (attr_get k (usageAttrs usage)) (attr_get k (headAttrs prompt)).
Proof.
  intros H1 H2 H3 H4 H5 H6. rewrite dual_exported_parts, !attr_get_app.
  rewrite (attr_get_outside _ k _ (keys_getTriageAttrs ctx) H1).
  rewrite (attr_get_outside _ k _ (keys_optionAttrs prompt) H2).
  rewrite (attr_get_outside _ k _
             (keys_if _ trace _ _ (keys_promptMessageAttrs _) (keys_nil _)) H3).
  rewrite (attr_get_outside _ k _ (keys_toolDefAttrs _) H4).
  rewrite (attr_get_outside _ k _ (keys_responseAttrs completion) H5).
  rewrite (attr_get_outside _ k _
             (keys_if _ trace _ _ (keys_completionMessageAttrs _) (keys_nil _)) H6).
  generalize (attr_get k (usageAttrs usage)) as U.
  generalize (attr_get k (headAttrs prompt)) as H.
  intros [h|] [u|]; reflexivity.
Qed.

Lemma dual_exported_request :
  attr_get "gen_ai.system" L = Some (STRING (Prompt.Vendor prompt))
  /\ attr_get "gen_ai.request.model" L = Some (STRING (Prompt.Model prompt))
  /\ attr_get "llm.vendor" L = Some (STRING (Prompt.Vendor prompt))
  /\ attr_get "llm.request.model" L = Some (STRING (Prompt.Model prompt))
  /\ attr_get "llm.request.type" L = Some (STRING "chat").
Proof. repeat split; rewrite dual_attr_get_fixed; reflexivity. Qed.

Lemma dual_exported_usage :
  attr_get "gen_ai.usage.input_tokens" L = Some (INT64 (Usage.PromptTokens usage))
  /\ attr_get "gen_ai.usage.output_tokens" L
     = Some (INT64 (Usage.CompletionTokens usage))
  /\ attr_get "llm.usage.prompt_tokens" L = Some (INT64 (Usage.PromptTokens usage))
  /\ attr_get "llm.usage.completion_tokens" L
     = Some (INT64 (Usage.CompletionTokens usage))
  /\ attr_get "llm.usage.total_tokens" L = Some (INT64 (Usage.TotalTokens usage)).
Proof. repeat split; rewrite dual_attr_get_fixed; reflexivity. Qed.

Lemma exported_response :
  attr_get "gen_ai.response.model" L = attr_get "llm.response.model" L
  /\ attr_get "gen_ai.response.model" L
     = if is_empty (Completion.Model completion) then None
       else Some (STRING (Completion.Model completion)).
Proof.
  assert (forall k, one_of response_keys k = true ->
            attr_get k L
            = if is_empty (Completion.Model completion) then None
              else Some (STRING (Completion.Model completion))) as H.
  { intros k Hk. rewrite dual_exported_parts, !attr_get_app.
    assert (has_prefix "gen_ai.completion." k = false
            /\ one_of usage_keys k = false
            /\ has_prefix "gen_ai.request.tool." k = false
            /\ has_prefix "gen_ai.prompt." k = false
            /\ one_of option_keys k = false
            /\ one_of head_keys k = false
            /\ has_prefix "triage." k = false) as (H1&H2&H3&H4&H5&H6&H7).
    { unfold one_of, response_keys in Hk. simpl in Hk.
      rewrite orb_false_r in Hk. apply orb_true_iff in Hk as [E|E];
        apply String.eqb_eq in E as ->; repeat split; reflexivity. }
    rewrite (attr_get_outside _ k _
               (keys_if _ trace _ _ (keys_completionMessageAttrs _) (keys_nil _)) H1).
    rewrite (attr_get_outside _ k _ (dual_keys_usageAttrs usage) H2).
    rewrite (attr_get_outside _ k _ (keys_toolDefAttrs _) H3).
    rewrite (attr_get_outside _ k _
               (keys_if _ trace _ _ (keys_promptMessageAttrs _) (keys_nil _)) H4).
    rewrite (attr_get_outside _ k _ (keys_optionAttrs prompt) H5).
    rewrite (attr_get_outside _ k _ (keys_headAttrs prompt) H6).
    rewrite (attr_get_outside _ k _ (keys_getTriageAttrs ctx) H7).
    assert (attr_get k (responseAttrs completion)
            = if is_empty (Completion.Model completion) then None
              else Some (STRING (Completion.Model completion))) as ->.
    { unfold responseAttrs.
      unfold one_of, response_keys in Hk. simpl in Hk. rewrite orb_false_r in Hk.
      destruct (is_empty (Completion.Model completion)); [reflexivity|].
      apply orb_true_iff in Hk as [E|E]; apply String.eqb_eq in E as ->; reflexivity. }
    destruct (is_empty (Completion.Model completion)); reflexivity. }
  split; [rewrite !H by reflexivity; reflexivity|apply H; reflexivity].
Qed.

Lemma dual_exported_no_content :
  trace = false ->
  has_key_prefix "gen_ai.prompt." L = false
  /\ has_key_prefix "gen_ai.completion." L = false.
Proof.
  intros Ht. rewrite dual_exported_parts, Ht. cbv iota.
  assert (forall p, has_prefix "triage." p = false -> has_prefix p "triage." = false ->
          has_prefix "gen_ai.request.tool." p = false ->
          has_prefix p "gen_ai.request.tool." = false ->
          (forall k, one_of (head_keys ++ option_keys ++ response_keys ++ usage_keys) k
                       = true -> has_prefix p k = false) ->
          has_key_prefix p
            (getTriageAttrs ctx ++ headAttrs prompt ++ optionAttrs prompt ++ []
             ++ toolDefAttrs (Prompt.Tools prompt) ++ responseAttrs completion
             ++ usageAttrs usage ++ []) = false) as H.
  { intros p T1 T2 G1 G2 Hlit.
    assert (forall ks qs, (forall k, one_of ks k = true -> one_of qs k = true) ->
            (forall k, one_of qs k = true -> has_prefix p k = false) ->
            forall l, keys (one_of ks) l -> has_key_prefix p l = false) as Hone.
    { intros ks qs Hsub Hq l Hl. eapply has_key_prefix_outside; [exact Hl|].
      intros k Hk. apply Hq, Hsub, Hk. }
    assert (forall ks, (forall k, one_of ks k = true ->
               one_of (head_keys ++ option_keys ++ response_keys ++ usage_keys) k = true) ->
            forall l, keys (one_of ks) l -> has_key_prefix p l = false) as Hlits.
    { intros ks Hsub. eapply Hone; eauto. }
    rewrite !has_key_prefix_app.
    rewrite (has_key_prefix_outside _ p _ (keys_getTriageAttrs ctx))
      by (intros k Hk; exact (has_prefix_apart _ _ k T1 T2 Hk)).
    rewrite (has_key_prefix_outside _ p _ (keys_toolDefAttrs _))
      by (intros k Hk; exact (has_prefix_apart _ _ k G1 G2 Hk)).
    assert (forall ks l, incl ks (head_keys ++ option_keys ++ response_keys ++ usage_keys)
              -> keys (one_of ks) l -> has_key_prefix p l = false) as Hin.
    { intros ks l Hincl. apply Hlits. intros k Hk. unfold one_of in *.
      apply existsb_exists in Hk as (x & Hx & E). apply existsb_exists.
      exists x. split; [apply Hincl, Hx|exact E]. }
    rewrite (Hin head_keys _ ltac:(intros x Hx; apply in_or_app; auto)
               (keys_headAttrs prompt)).
    rewrite (Hin option_keys _
               ltac:(intros x Hx; apply in_or_app; right; apply in_or_app; auto)
               (keys_optionAttrs prompt)).
    rewrite (Hin response_keys _
               ltac:(intros x Hx; do 2 (apply in_or_app; right); apply in_or_app; auto)
               (keys_responseAttrs completion)).
    rewrite (Hin usage_keys _
               ltac:(intros x Hx; do 3 (apply in_or_app; right); exact Hx)
               (dual_keys_usageAttrs usage)).
    reflexivity. }
  split; apply H; try reflexivity;
    intros k Hk; unfold one_of in Hk; simpl in Hk;
    repeat (apply orb_true_iff in Hk as [Hk|Hk];
            [apply String.eqb_eq in Hk as ->; reflexivity|]);
    discriminate.
Qed.

Lemma indexed_toolDefAttrs n (tool : ToolDef.t) :
  Forall (fun kv => indexed "gen_ai.request.tool." n (fst kv))
    (let prefix := "gen_ai.request.tool." +:+ itoa n in
     let f := ToolDef.Function tool in
     [attr_String (prefix +:+ ".type") (ToolDef.Type_ tool)]
     ++ [attr_String (prefix +:+ ".function.name") (ToolFunction.Name f)]
     ++ (if is_empty (ToolFunction.Description f) then []
         else [attr_String (prefix +:+ ".function.description")
                 (ToolFunction.Description f)])
     ++ match ToolFunction.Parameters f with
        | Some params =>
            match json_Marshal params with
            | Some paramJSON =>
                [attr_String (prefix +:+ ".function.parameters") paramJSON]
            | None => []
            end
        | None => []
        end).
Proof.
  cbv zeta. repeat apply Forall_app_2.
  - repeat constructor. exists "type". reflexivity.
  - repeat constructor. exists "function.name". reflexivity.
  - destruct (is_empty _); repeat constructor.
    exists "function.description". reflexivity.
  - destruct (ToolFunction.Parameters _) as [params|]; [|constructor].
    destruct (json_Marshal params); repeat constructor.
    exists "function.parameters". reflexivity.
Qed.

(** A key of the tool definitions is looked up in them. *)
Lemma attr_get_tool i suffix :
  attr_get ("gen_ai.request.tool." +:+ itoa i +:+ String "." suffix) L
  = attr_get ("gen_ai.request.tool." +:+ itoa i +:+ String "." suffix)
      (toolDefAttrs (Prompt.Tools prompt)).
Proof.
  rewrite dual_exported_parts, !attr_get_app.
  set (k := "gen_ai.request.tool." +:+ itoa i +:+ String "." suffix).
  rewrite (attr_get_outside _ k _
             (keys_if _ trace _ _ (keys_completionMessageAttrs _) (keys_nil _)))
    by reflexivity.
  rewrite (attr_get_outside _ k _ (dual_keys_usageAttrs usage)) by reflexivity.
  rewrite (attr_get_outside _ k _ (keys_responseAttrs completion)) by reflexivity.
  rewrite (attr_get_outside _ k _
             (keys_if _ trace _ _ (keys_promptMessageAttrs _) (keys_nil _)))
    by reflexivity.
  rewrite (attr_get_outside _ k _ (keys_optionAttrs prompt)) by reflexivity.
  rewrite (attr_get_outside _ k _ (keys_headAttrs prompt)) by reflexivity.
  rewrite (attr_get_outside _ k _ (keys_getTriageAttrs ctx)) by reflexivity.
  cbn [or_else].
  destruct (attr_get k (toolDefAttrs (Prompt.Tools prompt))); reflexivity.
Qed.

Lemma dual_exported_tool i (tool : ToolDef.t) :
  Prompt.Tools prompt !! i = Some tool ->
  let f := ToolDef.Function tool in
  let key suffix := "gen_ai.request.tool." +:+ itoa i +:+ suffix in
  attr_get (key ".type") L = Some (STRING (ToolDef.Type_ tool))
  /\ attr_get (key ".function.name") L = Some (STRING (ToolFunction.Name f))
  /\ (is_empty (ToolFunction.Description f) = false ->
      attr_get (key ".function.description") L
      = Some (STRING (ToolFunction.Description f)))
  /\ (forall params data,
        ToolFunction.Parameters f = Some params -> json_Marshal params = Some data ->
        attr_get (key ".function.parameters") L = Some (STRING data)).
Proof.
  intros Hi f key. unfold key.
  repeat split; [| | intros Hd | intros params data Hp Hm];
    rewrite attr_get_tool;
    (eapply attr_get_collect; [apply indexed_toolDefAttrs|exact Hi|]);
    fold f; cbv zeta;
    try rewrite Hd; try rewrite Hp, Hm;
    destruct (is_empty (ToolFunction.Description f));
    destruct (ToolFunction.Parameters f) as [q|]; try destruct (json_Marshal q);
    cbn [app attr_get attr_String fst snd];
    rewrite !eqb_indexed; reflexivity.
Qed.

(** *** What the span keeps of these *)

Lemma length_optionAttrs : (length (optionAttrs prompt) <= 6)%nat.
Proof.
  unfold optionAttrs.
  destruct (0 <? Prompt.MaxTokens prompt)%Z, (Prompt.Temperature prompt),
    (Prompt.TopP prompt), (Prompt.FrequencyPenalty prompt),
    (Prompt.PresencePenalty prompt), (Nat.ltb 0 (length (Prompt.Stop prompt)));
    simpl; lia.
Qed.

(** The attributes set before the messages are always kept: the annotation
    context, the request head and the request options are 23 at most. *)
Lemma dual_kept_early k :
  has_prefix "gen_ai.prompt." k = false ->
  has_prefix "gen_ai.request.tool." k = false ->
  one_of response_keys k = false ->
  one_of usage_keys k = false ->
  has_prefix "gen_ai.completion." k = false ->
  attr_get k (kept L) = attr_get k L.
Proof.
  intros H1 H2 H3 H4 H5. unfold kept. rewrite dual_exported_parts, 2!app_assoc.
  apply attr_get_kept_early.
  - rewrite !length_app. pose proof (length_getTriageAttrs ctx).
    pose proof length_optionAttrs. unfold AttributeCountLimit.
    change (length (headAttrs prompt)) with 5%nat. lia.
  - rewrite !has_key_app.
    rewrite (has_key_outside _ k _
               (keys_if _ trace _ _ (keys_promptMessageAttrs _) (keys_nil _)) H1).
    rewrite (has_key_outside _ k _ (keys_toolDefAttrs _) H2).
    rewrite (has_key_outside _ k _ (keys_responseAttrs _) H3).
    rewrite (has_key_outside _ k _ (dual_keys_usageAttrs _) H4).
    rewrite (has_key_outside _ k _
               (keys_if _ trace _ _ (keys_completionMessageAttrs _) (keys_nil _)) H5).
    reflexivity.
Qed.

Lemma dual_kept_request :
  attr_get "gen_ai.system" (kept L) = Some (STRING (Prompt.Vendor prompt))
  /\ attr_get "gen_ai.request.model" (kept L) = Some (STRING (Prompt.Model prompt))
  /\ attr_get "llm.vendor" (kept L) = Some (STRING (Prompt.Vendor prompt))
  /\ attr_get "llm.request.model" (kept L) = Some (STRING (Prompt.Model prompt))
  /\ attr_get "llm.request.type" (kept L) = Some (STRING "chat").
Proof.
  rewrite !dual_kept_early by reflexivity. apply dual_exported_request.
Qed.

Lemma dual_kept_no_content :
  trace = false ->
  has_key_prefix "gen_ai.prompt." (kept L) = false
  /\ has_key_prefix "gen_ai.completion." (kept L) = false.
Proof.
  intros Ht. destruct (dual_exported_no_content Ht) as [H1 H2].
  split; apply has_key_prefix_kept; assumption.
Qed.

End Exported.

End LlmDualLookups.

Lemma has_key_prefix_literals p ks l :
  keys (one_of ks) l ->
  forallb (fun k => negb (has_prefix p k)) ks = true ->
  has_key_prefix p l = false.
Proof.
  intros Hl Hks. eapply has_key_prefix_outside; [exact Hl|].
  intros k Hk. unfold one_of in Hk. apply existsb_exists in Hk as (x & Hx & E).
  apply String.eqb_eq in E as ->.
  rewrite forallb_forall in Hks. specialize (Hks x Hx).
  destruct (has_prefix p x); [discriminate|reflexivity].
Qed.

Lemma has_key_prefix_apart p q l :
  keys (has_prefix q) l ->
  has_prefix q p = false -> has_prefix p q = false ->
  has_key_prefix p l = false.
Proof.
  intros Hl H1 H2. eapply has_key_prefix_outside; [exact Hl|].
  intros k Hk. exact (has_prefix_apart q p k H1 H2 Hk).
Qed.

Module LlmGenAIKeys.
Import LlmGenAI LlmGenAIAttrs.

Lemma keys_text_attr Q k v : Q k = true -> keys Q (text_attr k v).
Proof.
  intros H. unfold text_attr. destruct (is_empty v);
    [apply keys_nil|apply keys_cons; [exact H|apply keys_nil]].
Qed.

Lemma keys_usage_attrs Q k n : Q k = true -> keys Q (usage_attrs k n).
Proof.
  intros H. unfold usage_attrs. destruct (0 <? n)%Z;
    [apply keys_cons; [exact H|apply keys_nil]|apply keys_nil].
Qed.

Lemma keys_requestAttrs params : keys (one_of request_keys) (requestAttrs params).
Proof.
  unfold requestAttrs.
  repeat first [ apply keys_app | apply keys_text_attr; reflexivity ];
    keys_literal.
Qed.

Lemma genai_keys_usageAttrs u : keys (one_of usage_keys) (usageAttrs u).
Proof.
  unfold usageAttrs.
  repeat first [ apply keys_app | apply keys_usage_attrs; reflexivity ].
Qed.

Lemma genai_keys_toolCallAttrs q p calls :
  has_prefix q p = true -> keys (has_prefix q) (toolCallAttrs p calls).
Proof.
  intros H. apply keys_collect_from. intros j tc.
  repeat first [ apply keys_app | apply keys_text_attr; auto using has_prefix_app_r ].
Qed.

Lemma keys_messageAttrs prefix messages :
  keys (has_prefix (prefix +:+ ".")) (messageAttrs prefix messages).
Proof.
  apply keys_collect_from. intros i msg. cbv zeta.
  assert (has_prefix (prefix +:+ ".") (prefix +:+ "." +:+ itoa i) = true) as H.
  { rewrite <- append_assoc. apply has_prefix_app. }
  repeat first [ apply keys_app | apply keys_text_attr; auto using has_prefix_app_r ].
  apply genai_keys_toolCallAttrs, H.
Qed.

Lemma keys_toolDefinitionAttrs tools :
  keys (has_prefix "gen_ai.request.tools.") (toolDefinitionAttrs tools).
Proof.
  apply keys_collect_from. intros i tool.
  repeat first [ apply keys_app | apply keys_text_attr; reflexivity ].
  destruct (ToolDefinition.Parameters _) as [params|]; [|apply keys_nil].
  destruct (json_Marshal params); keys_literal.
Qed.

Section Exported.
Variables (trace : bool) (ctx : Context) (params : PromptParams.t)
  (completion : CompletionParams.t).

Local Abbreviation L := (exported trace ctx params completion).

Lemma genai_exported_parts :
  L = getTriageAttrs ctx ++ requestAttrs params
      ++ (if trace then messageAttrs "gen_ai.prompt" (PromptParams.Messages params)
                        ++ toolDefinitionAttrs (PromptParams.Tools params)
          else [])
      ++ responseAttrs completion
      ++ usageAttrs (CompletionParams.Usage completion)
      ++ (if trace
          then messageAttrs "gen_ai.completion" (CompletionParams.Messages completion)
          else []).
Proof.
  unfold exported, promptAttrs, completionAttrs. rewrite <- !app_assoc. reflexivity.
Qed.

Lemma keys_prompt_content :
  keys (has_prefix "gen_ai.")
    (if trace then messageAttrs "gen_ai.prompt" (PromptParams.Messages params)
                   ++ toolDefinitionAttrs (PromptParams.Tools params)
     else []).
Proof.
  apply keys_if; [|apply keys_nil]. apply keys_app.
  - eapply keys_weaken; [|apply keys_messageAttrs].
    intros k. apply has_prefix_trans. reflexivity.
  - eapply keys_weaken; [|apply keys_toolDefinitionAttrs].
    intros k. apply has_prefix_trans. reflexivity.
Qed.

Lemma keys_response : keys (one_of response_keys) (responseAttrs completion).
Proof. apply keys_app; apply keys_text_attr; reflexivity. Qed.

(** No key of the span starts with llm. *)
Lemma exported_no_llm : has_key_prefix "llm." L = false.
Proof.
  rewrite genai_exported_parts, !has_key_prefix_app.
  rewrite (has_key_prefix_apart "llm." _ _ (keys_getTriageAttrs ctx)) by reflexivity.
  rewrite (has_key_prefix_literals "llm." _ _ (keys_requestAttrs params)) by reflexivity.
  rewrite (has_key_prefix_apart "llm." _ _ keys_prompt_content) by reflexivity.
  rewrite (has_key_prefix_literals "llm." _ _ keys_response) by reflexivity.
  rewrite (has_key_prefix_literals "llm." _ _ (genai_keys_usageAttrs _)) by reflexivity.
  rewrite (has_key_prefix_apart "llm." _ _
             (keys_if _ trace _ _ (keys_messageAttrs "gen_ai.completion" _)
                (keys_nil _))) by reflexivity.
  reflexivity.
Qed.

(** With the policy off: no message attribute and no tool definition. *)
Lemma genai_exported_no_content :
  trace = false ->
  has_key_prefix "gen_ai.prompt." L = false
  /\ has_key_prefix "gen_ai.completion." L = false
  /\ has_key_prefix "gen_ai.request.tool" L = false.
Proof.
  intros Ht. rewrite genai_exported_parts, Ht. cbv iota.
  repeat split; rewrite !has_key_prefix_app;
    rewrite (has_key_prefix_apart _ _ _ (keys_getTriageAttrs ctx)) by reflexivity;
    rewrite (has_key_prefix_literals _ _ _ (keys_requestAttrs params)) by reflexivity;
    rewrite (has_key_prefix_literals _ _ _ keys_response) by reflexivity;
    rewrite (has_key_prefix_literals _ _ _ (genai_keys_usageAttrs _)) by reflexivity;
    reflexivity.
Qed.

(** The lookup of a request or usage key. *)
Lemma genai_attr_get_fixed k :
  has_prefix "triage." k = false ->
  has_prefix "gen_ai." k = true ->
  has_prefix "gen_ai.prompt." k = false ->
  has_prefix "gen_ai.request.tools." k = false ->
  has_prefix "gen_ai.completion." k = false ->
  one_of response_keys k = false ->
  attr_get k L = or_else (attr_get k (usageAttrs (CompletionParams.Usage completion)))
                   (attr_get k (requestAttrs params)).
Proof.
  intros H1 _ H3 H4 H6 H5. rewrite genai_exported_parts, !attr_get_app.
  rewrite (attr_get_outside _ k _ (keys_getTriageAttrs ctx) H1).
  rewrite (attr_get_outside _ k _
             (keys_if _ trace _ _ (keys_messageAttrs "gen_ai.completion" _)
                (keys_nil _)) H6).
  rewrite (attr_get_outside _ k _ keys_response H5).
  assert (attr_get k
            (if trace
             then messageAttrs "gen_ai.prompt" (PromptParams.Messages params)
                  ++ toolDefinitionAttrs (PromptParams.Tools params)
             else []) = None) as ->.
  { destruct trace; [|reflexivity]. rewrite attr_get_app.
    rewrite (attr_get_outside _ k _ (keys_toolDefinitionAttrs _) H4).
    rewrite (attr_get_outside _ k _ (keys_messageAttrs "gen_ai.prompt" _) H3).
    reflexivity. }
  generalize (attr_get k (usageAttrs (CompletionParams.Usage completion))) as U.
  generalize (attr_get k (requestAttrs params)) as R.
  intros [r|] [u|]; reflexivity.
Qed.

Lemma genai_exported_request :
  attr_get AttrGenAISystem L
  = (if is_empty (PromptParams.Vendor params) then None
     else Some (STRING (PromptParams.Vendor params)))
  /\ attr_get AttrGenAIRequestModel L
     = (if is_empty (PromptParams.Model params) then None
        else Some (STRING (PromptParams.Model params))).
Proof.
  split; rewrite genai_attr_get_fixed by reflexivity;
    rewrite (attr_get_outside _ _ _ (genai_keys_usageAttrs _)) by reflexivity;
    unfold requestAttrs, text_attr;
    destruct (is_empty (PromptParams.Vendor params));
    destruct (is_empty (PromptParams.Model params));
    destruct (PromptParams.Temperature params);
    destruct (PromptParams.TopP params);
    destruct (PromptParams.MaxTokens params);
    destruct (Nat.ltb 0 (length (PromptParams.Stop params))); reflexivity.
Qed.

Lemma genai_exported_usage :
  let u := CompletionParams.Usage completion in
  recorded_iff_positive L AttrGenAIUsageInputTokens (Usage.InputTokens u)
  /\ recorded_iff_positive L AttrGenAIUsageOutputTokens (Usage.OutputTokens u)
  /\ recorded_iff_positive L AttrGenAIUsageTotalTokens (Usage.TotalTokens u)
  /\ recorded_iff_positive L AttrGenAIUsageReasoningTokens (Usage.ReasoningTokens u)
  /\ recorded_iff_positive L AttrGenAIUsageCacheReadTokens (Usage.CacheReadTokens u)
  /\ recorded_iff_positive L AttrGenAIUsageCacheWriteTokens (Usage.CacheWriteTokens u).
Proof.
  intros u. unfold recorded_iff_positive.
  repeat split; rewrite genai_attr_get_fixed by reflexivity;
    rewrite (attr_get_outside _ _ _ (keys_requestAttrs _)) by reflexivity;
    fold u; unfold usageAttrs, usage_attrs;
    destruct (0 <? Usage.InputTokens u)%Z;
    destruct (0 <? Usage.OutputTokens u)%Z;
    destruct (0 <? Usage.TotalTokens u)%Z;
    destruct (0 <? Usage.ReasoningTokens u)%Z;
    destruct (0 <? Usage.CacheReadTokens u)%Z;
    destruct (0 <? Usage.CacheWriteTokens u)%Z; reflexivity.
Qed.

Lemma indexed_toolDefinitionAttrs n (tool : ToolDefinition.t) :
  Forall (fun kv => indexed "gen_ai.request.tools." n (fst kv))
    (let p := "gen_ai.request.tools." +:+ itoa n in
     text_attr (p +:+ ".name") (ToolDefinition.Name tool)
     ++ text_attr (p +:+ ".description") (ToolDefinition.Description tool)
     ++ match ToolDefinition.Parameters tool with
        | Some params =>
            match json_Marshal params with
            | Some data => [attr_String (p +:+ ".parameters") data]
            | None => []
            end
        | None => []
        end).
Proof.
  cbv zeta. unfold text_attr. repeat apply Forall_app_2.
  - destruct (is_empty _); repeat constructor. exists "name". reflexivity.
  - destruct (is_empty _); repeat constructor. exists "description". reflexivity.
  - destruct (ToolDefinition.Parameters _) as [q|]; [|constructor].
    destruct (json_Marshal q); repeat constructor.
    exists "parameters". reflexivity.
Qed.

(** With the policy on, the tool definitions are on the span. *)
Lemma genai_exported_tool i (tool : ToolDefinition.t) :
  trace = true ->
  PromptParams.Tools params !! i = Some tool ->
  let key suffix := "gen_ai.request.tools." +:+ itoa i +:+ suffix in
  (is_empty (ToolDefinition.Name tool) = false ->
   attr_get (key ".name") L = Some (STRING (ToolDefinition.Name tool)))
  /\ (is_empty (ToolDefinition.Description tool) = false ->
      attr_get (key ".description") L
      = Some (STRING (ToolDefinition.Description tool)))
  /\ (forall q data,
        ToolDefinition.Parameters tool = Some q -> json_Marshal q = Some data ->
        attr_get (key ".parameters") L = Some (STRING data)).
Proof.
  intros Ht Hi key. unfold key.
  assert (forall suffix,
            attr_get ("gen_ai.request.tools." +:+ itoa i +:+ String "." suffix) L
            = attr_get ("gen_ai.request.tools." +:+ itoa i +:+ String "." suffix)
                (toolDefinitionAttrs (PromptParams.Tools params))) as Hget.
  { intros suffix. rewrite genai_exported_parts, Ht, !attr_get_app.
    set (k := "gen_ai.request.tools." +:+ itoa i +:+ String "." suffix).
    rewrite (attr_get_outside _ k _ (keys_messageAttrs "gen_ai.completion" _))
      by reflexivity.
    rewrite (attr_get_outside _ k _ (genai_keys_usageAttrs _)) by reflexivity.
    rewrite (attr_get_outside _ k _ keys_response) by reflexivity.
    rewrite (attr_get_outside _ k _ (keys_messageAttrs "gen_ai.prompt" _))
      by reflexivity.
    rewrite (attr_get_outside _ k _ (keys_requestAttrs _)) by reflexivity.
    rewrite (attr_get_outside _ k _ (keys_getTriageAttrs ctx)) by reflexivity.
    cbn [or_else].
    destruct (attr_get k (toolDefinitionAttrs (PromptParams.Tools params)));
      reflexivity. }
  repeat split; [intros Hn | intros Hd | intros q data Hp Hm];
    rewrite Hget;
    (eapply attr_get_collect; [apply indexed_toolDefinitionAttrs|exact Hi|]);
    cbv zeta; unfold text_attr;
    try rewrite Hn; try rewrite Hd; try rewrite Hp, Hm;
    destruct (is_empty (ToolDefinition.Name tool));
    destruct (is_empty (ToolDefinition.Description tool));
    destruct (ToolDefinition.Parameters tool) as [q'|]; try destruct (json_Marshal q');
    cbn [app attr_get attr_String fst snd];
    rewrite ?eqb_indexed; reflexivity.
Qed.

(** *** What the span keeps of these *)

Lemma length_text_attr k v : (length (text_attr k v) <= 1)%nat.
Proof. unfold text_attr. destruct (is_empty v); simpl; lia. Qed.

Lemma length_usage_attrs k n : (length (usage_attrs k n) <= 1)%nat.
Proof. unfold usage_attrs. destruct (0 <? n)%Z; simpl; lia. Qed.

Lemma length_requestAttrs : (length (requestAttrs params) <= 6)%nat.
Proof.
  unfold requestAttrs. rewrite !length_app.
  pose proof (length_text_attr AttrGenAISystem (PromptParams.Vendor params)).
  pose proof (length_text_attr AttrGenAIRequestModel (PromptParams.Model params)).
  destruct (PromptParams.Temperature params), (PromptParams.TopP params),
    (PromptParams.MaxTokens params), (Nat.ltb 0 (length (PromptParams.Stop params)));
    simpl; lia.
Qed.

Lemma length_responseAttrs : (length (responseAttrs completion) <= 2)%nat.
Proof.
  unfold responseAttrs. rewrite length_app.
  pose proof (length_text_attr AttrGenAIResponseModel (CompletionParams.Model completion)).
  pose proof (length_text_attr AttrGenAIResponseFinishReason
                (CompletionParams.FinishReason completion)).
  lia.
Qed.

Lemma length_usageAttrs u : (length (usageAttrs u) <= 6)%nat.
Proof.
  unfold usageAttrs. rewrite !length_app.
  pose proof (length_usage_attrs AttrGenAIUsageInputTokens (Usage.InputTokens u)).
  pose proof (length_usage_attrs AttrGenAIUsageOutputTokens (Usage.OutputTokens u)).
  pose proof (length_usage_attrs AttrGenAIUsageTotalTokens (Usage.TotalTokens u)).
  pose proof (length_usage_attrs AttrGenAIUsageReasoningTokens (Usage.ReasoningTokens u)).
  pose proof (length_usage_attrs AttrGenAIUsageCacheReadTokens (Usage.CacheReadTokens u)).
  pose proof (length_usage_attrs AttrGenAIUsageCacheWriteTokens
                (Usage.CacheWriteTokens u)).
  lia.
Qed.

(** The attributes set before the messages are always kept: the annotation
    context and the request parameters are 18 at most. *)
Lemma genai_kept_early k :
  has_prefix "gen_ai.prompt." k = false ->
  has_prefix "gen_ai.request.tools." k = false ->
  one_of response_keys k = false ->
  one_of usage_keys k = false ->
  has_prefix "gen_ai.completion." k = false ->
  attr_get k (kept L) = attr_get k L.
Proof.
  intros H1 H2 H3 H4 H5. unfold kept. rewrite genai_exported_parts, app_assoc.
  apply attr_get_kept_early.
  - rewrite length_app. pose proof (length_getTriageAttrs ctx).
    pose proof length_requestAttrs. unfold AttributeCountLimit. lia.
  - rewrite !has_key_app.
    assert (has_key k (if trace
                       then messageAttrs "gen_ai.prompt" (PromptParams.Messages params)
                            ++ toolDefinitionAttrs (PromptParams.Tools params)
                       else []) = false) as ->.
    { destruct trace; [|reflexivity]. rewrite has_key_app.
      rewrite (has_key_outside _ k _ (keys_messageAttrs "gen_ai.prompt" _) H1).
      rewrite (has_key_outside _ k _ (keys_toolDefinitionAttrs _) H2). reflexivity. }
    rewrite (has_key_outside _ k _ keys_response H3).
    rewrite (has_key_outside _ k _ (genai_keys_usageAttrs _) H4).
    rewrite (has_key_outside _ k _
               (keys_if _ trace _ _ (keys_messageAttrs "gen_ai.completion" _)
                  (keys_nil _)) H5).
    reflexivity.
Qed.

Lemma genai_kept_request :
  attr_get AttrGenAISystem (kept L)
  = (if is_empty (PromptParams.Vendor params) then None
     else Some (STRING (PromptParams.Vendor params)))
  /\ attr_get AttrGenAIRequestModel (kept L)
     = (if is_empty (PromptParams.Model params) then None
        else Some (STRING (PromptParams.Model params))).
Proof.
  rewrite !genai_kept_early by reflexivity. apply genai_exported_request.
Qed.

Lemma genai_kept_no_content :
  trace = false ->
  has_key_prefix "gen_ai.prompt." (kept L) = false
  /\ has_key_prefix "gen_ai.completion." (kept L) = false
  /\ has_key_prefix "gen_ai.request.tool" (kept L) = false.
Proof.
  intros Ht. destruct (genai_exported_no_content Ht) as (H1 & H2 & H3).
  repeat split; apply has_key_prefix_kept; assumption.
Qed.

Lemma genai_kept_no_llm : has_key_prefix "llm." (kept L) = false.
Proof. apply has_key_prefix_kept, exported_no_llm. Qed.

(** Without the messages and the tool definitions a span has room for all
    that is set on it: 26 attributes at most. *)
Lemma genai_fits_off : trace = false -> fits L.
Proof.
  intros Ht. unfold fits. rewrite genai_exported_parts, Ht, !length_app.
  pose proof (length_getTriageAttrs ctx). pose proof length_requestAttrs.
  pose proof length_responseAttrs.
  pose proof (length_usageAttrs (CompletionParams.Usage completion)).
  unfold AttributeCountLimit. simpl. lia.
Qed.

End Exported.

End LlmGenAIKeys.

(** ** The span of an LLM call *)

Lemma lookup_fresh {A} (l : list A) : l !! length l = None.
Proof. apply lookup_ge_None. lia. Qed.

Lemma LlmGenAI_records_tracing st ctx params completion :
  tracing st = true ->
  LlmGenAI_records st ctx params completion
    (kept (LlmGenAIAttrs.exported (LlmGenAIAttrs.trace_of (sdk st)) ctx params completion)).
Proof.
  intros T. eexists _, _. split; [apply LlmGenAIFacts.genai_logged_tracing, T|].
  exists (length (spans (otel st))), (finished (LlmGenAI.spanName params) ctx
    (LlmGenAIAttrs.exported (LlmGenAIAttrs.trace_of (sdk st)) ctx params completion)).
  split; [reflexivity|]. split; [apply lookup_fresh|].
  split; [apply lookup_last|]. repeat split.
Qed.

Lemma LlmDual_records_tracing st ctx prompt completion usage :
  tracing st = true ->
  LlmDual_records st ctx prompt completion usage
    (kept (LlmDualAttrs.exported (LlmDualAttrs.trace_of (sdk st)) ctx prompt completion
             usage)).
Proof.
  intros T. eexists _, _. split; [apply LlmDualFacts.dual_logged_tracing, T|].
  exists (length (spans (otel st))), (finished (LlmDual.spanName prompt) ctx
    (LlmDualAttrs.exported (LlmDualAttrs.trace_of (sdk st)) ctx prompt completion usage)).
  split; [reflexivity|]. split; [apply lookup_fresh|].
  split; [apply lookup_last|]. repeat split.
Qed.

(** C3. Content-visibility gating.  As amended: with traceContent off, a prompt
    and its completion leave a span with no gen_ai.prompt.* and no
    gen_ai.completion.* attribute (roles, contents, tool calls) in both
    revisions of llm.go, while vendor and model are recorded, and so are the
    usage counters on a span that has room for them: a span keeps 128
    attributes, the SDK's default that Init leaves in place, and drops the
    keys set after these.  The gen_ai-only revision with the policy off never
    sets that many.  The dual-schema revision records every tool definition
    whatever the policy, when all the attributes fit; the gen_ai-only revision
    records the tool definitions when the policy is on and all the attributes
    fit, and none of them when the policy is off. *)
Theorem content_visibility_gating :
  (forall st ctx prompt completion usage,
      tracing st = true ->
      exists kvs,
        LlmDual_records st ctx prompt completion usage kvs
        /\ (forall cfg, globalCfg (sdk st) = Some cfg -> traceContent cfg = false ->
            has_key_prefix "gen_ai.prompt." kvs = false
            /\ has_key_prefix "gen_ai.completion." kvs = false)
        /\ attr_get "gen_ai.system" kvs = Some (STRING (LlmDual.Prompt.Vendor prompt))
        /\ attr_get "gen_ai.request.model" kvs = Some (STRING (LlmDual.Prompt.Model prompt))
        /\ (fits (LlmDualAttrs.exported (LlmDualAttrs.trace_of (sdk st)) ctx prompt
                    completion usage) ->
            attr_get "gen_ai.usage.input_tokens" kvs
            = Some (INT64 (LlmDual.Usage.PromptTokens usage))
            /\ attr_get "gen_ai.usage.output_tokens" kvs
               = Some (INT64 (LlmDual.Usage.CompletionTokens usage))
            /\ (forall i tool,
                  LlmDual.Prompt.Tools prompt !! i = Some tool ->
                  let f := LlmDual.ToolDef.Function tool in
                  let key suffix := "gen_ai.request.tool." +:+ itoa i +:+ suffix in
                  attr_get (key ".type") kvs = Some (STRING (LlmDual.ToolDef.Type_ tool))
                  /\ attr_get (key ".function.name") kvs
                     = Some (STRING (LlmDual.ToolFunction.Name f))
                  /\ (is_empty (LlmDual.ToolFunction.Description f) = false ->
                      attr_get (key ".function.description") kvs
                      = Some (STRING (LlmDual.ToolFunction.Description f)))
                  /\ (forall q data,
                        LlmDual.ToolFunction.Parameters f = Some q ->
                        json_Marshal q = Some data ->
                        attr_get (key ".function.parameters") kvs = Some (STRING data)))))
  /\ (forall st ctx params completion,
        tracing st = true ->
        exists kvs,
          LlmGenAI_records st ctx params completion kvs
          /\ (forall cfg, activeConfig (sdk st) = Some cfg -> traceContent cfg = false ->
              has_key_prefix "gen_ai.prompt." kvs = false
              /\ has_key_prefix "gen_ai.completion." kvs = false
              /\ has_key_prefix "gen_ai.request.tool" kvs = false)
          /\ (is_empty (LlmGenAI.PromptParams.Vendor params) = false ->
              attr_get AttrGenAISystem kvs
              = Some (STRING (LlmGenAI.PromptParams.Vendor params)))
          /\ (is_empty (LlmGenAI.PromptParams.Model params) = false ->
              attr_get AttrGenAIRequestModel kvs
              = Some (STRING (LlmGenAI.PromptParams.Model params)))
          /\ ((exists cfg, activeConfig (sdk st) = Some cfg /\ traceContent cfg = false)
              \/ fits (LlmGenAIAttrs.exported (LlmGenAIAttrs.trace_of (sdk st)) ctx params
                         completion) ->
              let u := LlmGenAI.CompletionParams.Usage completion in
              recorded_iff_positive kvs AttrGenAIUsageInputTokens (LlmGenAI.Usage.InputTokens u)
              /\ recorded_iff_positive kvs AttrGenAIUsageOutputTokens
                   (LlmGenAI.Usage.OutputTokens u)
              /\ recorded_iff_positive kvs AttrGenAIUsageTotalTokens
                   (LlmGenAI.Usage.TotalTokens u))
          /\ (fits (LlmGenAIAttrs.exported (LlmGenAIAttrs.trace_of (sdk st)) ctx params
                      completion) ->
              (activeConfig (sdk st) = None
               \/ exists cfg, activeConfig (sdk st) = Some cfg /\ traceContent cfg = true) ->
              forall i tool,
                LlmGenAI.PromptParams.Tools params !! i = Some tool ->
                let key suffix := "gen_ai.request.tools." +:+ itoa i +:+ suffix in
                (is_empty (LlmGenAI.ToolDefinition.Name tool) = false ->
                 attr_get (key ".name") kvs
                 = Some (STRING (LlmGenAI.ToolDefinition.Name tool)))
                /\ (is_empty (LlmGenAI.ToolDefinition.Description tool) = false ->
                    attr_get (key ".description") kvs
                    = Some (STRING (LlmGenAI.ToolDefinition.Description tool)))
                /\ (forall q data,
                      LlmGenAI.ToolDefinition.Parameters tool = Some q ->
                      json_Marshal q = Some data ->
                      attr_get (key ".parameters") kvs = Some (STRING data)))).
Proof.
  split.
  - intros st ctx prompt completion usage T. eexists.
    split; [apply LlmDual_records_tracing, T|].
    split.
    { intros cfg Hc Hoff. apply LlmDualLookups.dual_kept_no_content.
      unfold LlmDualAttrs.trace_of. rewrite Hc. exact Hoff. }
    destruct (LlmDualLookups.dual_kept_request (LlmDualAttrs.trace_of (sdk st)) ctx prompt
                completion usage) as (R1 & R2 & _).
    repeat (split; [assumption|]).
    intros F.
    destruct (LlmDualLookups.dual_exported_usage (LlmDualAttrs.trace_of (sdk st)) ctx prompt
                completion usage) as (U1 & U2 & _).
    rewrite !(attr_get_kept_fits _ _ F).
    repeat (split; [assumption|]).
    intros i tool Hi. cbv zeta. rewrite !(attr_get_kept_fits _ _ F).
    apply LlmDualLookups.dual_exported_tool, Hi.
  - intros st ctx params completion T. eexists.
    split; [apply LlmGenAI_records_tracing, T|].
    split.
    { intros cfg Hc Hoff. apply LlmGenAIKeys.genai_kept_no_content.
      unfold LlmGenAIAttrs.trace_of. rewrite Hc. exact Hoff. }
    destruct (LlmGenAIKeys.genai_kept_request (LlmGenAIAttrs.trace_of (sdk st)) ctx params
                completion) as (R1 & R2).
    split; [intros E; rewrite R1, E; reflexivity|].
    split; [intros E; rewrite R2, E; reflexivity|].
    split.
    { intros Hroom.
      assert (fits (LlmGenAIAttrs.exported (LlmGenAIAttrs.trace_of (sdk st)) ctx params
                      completion)) as F.
      { destruct Hroom as [(cfg & Hc & Hoff)|F]; [|exact F].
        apply LlmGenAIKeys.genai_fits_off. unfold LlmGenAIAttrs.trace_of.
        rewrite Hc. exact Hoff. }
      destruct (LlmGenAIKeys.genai_exported_usage (LlmGenAIAttrs.trace_of (sdk st)) ctx
                  params completion) as (U1 & U2 & U3 & _).
      cbv zeta. unfold recorded_iff_positive in *.
      rewrite !(attr_get_kept_fits _ _ F). auto. }
    intros F Hon i tool Hi. cbv zeta. rewrite !(attr_get_kept_fits _ _ F).
    apply LlmGenAIKeys.genai_exported_tool; [|exact Hi].
    unfold LlmGenAIAttrs.trace_of.
    destruct Hon as [->|(cfg & -> & Hon)]; [reflexivity|exact Hon].
Qed.

Lemma content_visibility_gating_witness :
  exists kvs,
    LlmDual_records (with_test_provider (Some config_content_off) (fresh plain_world))
      Background (DualData.hello_prompt [DualData.get_weather]) DualData.hello_completion
      DualData.usage_10_5_15 kvs
    /\ has_key_prefix "gen_ai.prompt." kvs = false
    /\ has_key_prefix "gen_ai.completion." kvs = false
    /\ attr_get "gen_ai.system" kvs = Some (STRING "openai")
    /\ attr_get "gen_ai.usage.input_tokens" kvs = Some (INT64 10)
    /\ attr_get "gen_ai.request.tool.0.function.name" kvs = Some (STRING "get_weather").
Proof.
  destruct (proj1 content_visibility_gating
              (with_test_provider (Some config_content_off) (fresh plain_world))
              Background (DualData.hello_prompt [DualData.get_weather])
              DualData.hello_completion DualData.usage_10_5_15 eq_refl)
    as (kvs & R & Hoff & Hsys & _ & Hroom).
  exists kvs. split; [exact R|].
  destruct (Hoff config_content_off eq_refl eq_refl) as [H1 H2].
  destruct Hroom as (Hin & _ & Htool); [apply Nat.leb_le; reflexivity|].
  destruct (Htool 0%nat DualData.get_weather eq_refl) as (_ & Hname & _).
  repeat split; assumption.
Defined.

(** C3, the claim as stated fails: in the gen_ai-only llm.go, with
    traceContent off, a prompt that declares the tool secret_tool leaves a span
    with exactly the vendor, model and usage attributes and no tool
    definition; with traceContent on, the same call records
    gen_ai.request.tools.0.name. *)
Lemma tool_definitions_are_gated :
  LlmGenAI.PromptParams.Tools GenAIData.secret_prompt = [GenAIData.secret_tool]
  /\ LlmGenAI_records (initialized_state false) Background GenAIData.secret_prompt
       GenAIData.secret_completion
       [ ("gen_ai.system", STRING "openai");
         ("gen_ai.request.model", STRING "gpt-4o");
         ("gen_ai.usage.input_tokens", INT64 10);
         ("gen_ai.usage.output_tokens", INT64 5);
         ("gen_ai.usage.total_tokens", INT64 15) ]
  /\ exists kvs,
       LlmGenAI_records (initialized_state true) Background GenAIData.secret_prompt
         GenAIData.secret_completion kvs
       /\ attr_get "gen_ai.request.tools.0.name" kvs = Some (STRING "secret_tool").
Proof.
  split; [reflexivity|]. split.
  - apply (LlmGenAI_records_tracing (initialized_state false)). reflexivity.
  - eexists. split.
    + apply (LlmGenAI_records_tracing (initialized_state true)). reflexivity.
    + reflexivity.
Qed.

(** ** The name of an LLM span *)

(** C4. LLM span naming.  As amended: the dual-schema LogPrompt names the span
    "<vendor>.chat <model>" when the model is not empty and "<vendor>.chat"
    when it is, with no fallback for an empty vendor; the gen_ai-only
    LogPrompt names it "<vendor>.chat" whatever the model, and "llm.chat" when
    the vendor is empty. *)
Theorem llm_span_naming :
  (forall st ctx prompt,
      tracing st = true ->
      exists ls ctx' st' kvs,
        LlmDual.LogPrompt ctx prompt st = Done (Some ls, ctx') st'
        /\ opened st st' (LlmDual.span ls)
             (if is_empty (LlmDual.Prompt.Model prompt)
              then LlmDual.Prompt.Vendor prompt +:+ ".chat"
              else LlmDual.Prompt.Vendor prompt +:+ ".chat "
                   +:+ LlmDual.Prompt.Model prompt)
             kvs false)
  /\ (forall st ctx params,
        tracing st = true ->
        exists s ctx' st' kvs,
          LlmGenAI.LogPrompt ctx params st = Done (ctx', Some s) st'
          /\ opened st st' (LlmGenAI.span s)
               (if is_empty (LlmGenAI.PromptParams.Vendor params)
                then "llm.chat"
                else LlmGenAI.PromptParams.Vendor params +:+ ".chat")
               kvs false).
Proof.
  split.
  - intros st ctx prompt T. eexists _, _, _, _.
    split; [apply LlmDualFacts.dual_LogPrompt_tracing, T|].
    eexists _, _. split; [reflexivity|]. split; [apply lookup_fresh|].
    split; [apply lookup_last|]. split; [|split; reflexivity].
    simpl. unfold LlmDual.spanName.
    destruct (is_empty (LlmDual.Prompt.Model prompt)); reflexivity.
  - intros st ctx params T. eexists _, _, _, _.
    split; [apply LlmGenAIFacts.genai_LogPrompt_tracing, T|].
    eexists _, _. split; [reflexivity|]. split; [apply lookup_fresh|].
    split; [apply lookup_last|]. split; [|split; reflexivity].
    reflexivity.
Qed.

Lemma llm_span_naming_witness :
  exists ls ctx' st' kvs,
    LlmDual.LogPrompt Background (DualData.hello_prompt [])
      (with_test_provider None (fresh plain_world)) = Done (Some ls, ctx') st'
    /\ opened (with_test_provider None (fresh plain_world)) st' (LlmDual.span ls)
         "openai.chat gpt-4o" kvs false.
Proof.
  exact (proj1 llm_span_naming (with_test_provider None (fresh plain_world))
           Background (DualData.hello_prompt []) eq_refl).
Defined.

(** C4, the claim as stated fails: the gen_ai-only LogPrompt, given vendor
    "openai" and model "gpt-4o", names the span "openai.chat"; and the
    dual-schema LogPrompt, given neither vendor nor model, names it ".chat". *)
Lemma span_name_without_model :
  (exists s ctx' st' kvs,
      LlmGenAI.LogPrompt Background GenAIData.hello_prompt (initialized_state true)
      = Done (ctx', Some s) st'
      /\ opened (initialized_state true) st' (LlmGenAI.span s) "openai.chat" kvs false)
  /\ "openai.chat" <> "openai.chat gpt-4o"
  /\ LlmGenAI.PromptParams.Model GenAIData.hello_prompt = "gpt-4o"
  /\ LlmDual.spanName DualData.empty_prompt = ".chat".
Proof.
  split; [|split; [discriminate|split; reflexivity]].
  eexists _, _, _, _.
  split; [apply (LlmGenAIFacts.genai_LogPrompt_tracing Background GenAIData.hello_prompt
                   (initialized_state true)); reflexivity|].
  eexists _, _. split; [reflexivity|]. split; [reflexivity|].
  split; [reflexivity|]. repeat split.
Qed.

(** ** The two naming schemes and the usage counters *)

(** C5. Dual naming schemes.  As amended: the dual-schema llm.go records
    vendor and model under gen_ai.* and under llm.* at once, and likewise the
    response model and the usage counters on a span that has room for them (a
    span keeps 128 attributes, the SDK's default that Init leaves in place);
    the scenario span is named "openai.chat gpt-4o" and carries
    gen_ai.system = openai, gen_ai.usage.input_tokens = 10 and
    llm.usage.total_tokens = 15; the gen_ai-only llm.go records the gen_ai.*
    scheme alone: its span has no llm.* attribute. *)
Theorem dual_naming_schemes :
  (forall st ctx prompt completion usage,
      tracing st = true ->
      exists kvs,
        LlmDual_records st ctx prompt completion usage kvs
        /\ attr_get "gen_ai.system" kvs = Some (STRING (LlmDual.Prompt.Vendor prompt))
        /\ attr_get "llm.vendor" kvs = Some (STRING (LlmDual.Prompt.Vendor prompt))
        /\ attr_get "gen_ai.request.model" kvs = Some (STRING (LlmDual.Prompt.Model prompt))
        /\ attr_get "llm.request.model" kvs = Some (STRING (LlmDual.Prompt.Model prompt))
        /\ attr_get "llm.request.type" kvs = Some (STRING "chat")
        /\ (fits (LlmDualAttrs.exported (LlmDualAttrs.trace_of (sdk st)) ctx prompt
                    completion usage) ->
            attr_get "gen_ai.response.model" kvs = attr_get "llm.response.model" kvs
            /\ attr_get "gen_ai.response.model" kvs
               = (if is_empty (LlmDual.Completion.Model completion) then None
                  else Some (STRING (LlmDual.Completion.Model completion)))
            /\ attr_get "gen_ai.usage.input_tokens" kvs
               = Some (INT64 (LlmDual.Usage.PromptTokens usage))
            /\ attr_get "llm.usage.prompt_tokens" kvs
               = Some (INT64 (LlmDual.Usage.PromptTokens usage))
            /\ attr_get "gen_ai.usage.output_tokens" kvs
               = Some (INT64 (LlmDual.Usage.CompletionTokens usage))
            /\ attr_get "llm.usage.completion_tokens" kvs
               = Some (INT64 (LlmDual.Usage.CompletionTokens usage))
            /\ attr_get "llm.usage.total_tokens" kvs
               = Some (INT64 (LlmDual.Usage.TotalTokens usage))))
  /\ (exists kvs,
        LlmDual_records (with_test_provider None (fresh plain_world)) Background
          (DualData.hello_prompt []) DualData.hello_completion DualData.usage_10_5_15 kvs
        /\ LlmDual.spanName (DualData.hello_prompt []) = "openai.chat gpt-4o"
        /\ attr_get "gen_ai.system" kvs = Some (STRING "openai")
        /\ attr_get "gen_ai.usage.input_tokens" kvs = Some (INT64 10)
        /\ attr_get "llm.usage.total_tokens" kvs = Some (INT64 15))
  /\ (forall st ctx params completion,
        tracing st = true ->
        exists kvs,
          LlmGenAI_records st ctx params completion kvs
          /\ has_key_prefix "llm." kvs = false).
Proof.
  split; [|split].
  - intros st ctx prompt completion usage T. eexists.
    split; [apply LlmDual_records_tracing, T|].
    destruct (LlmDualLookups.dual_kept_request (LlmDualAttrs.trace_of (sdk st)) ctx prompt
                completion usage) as (R1 & R2 & R3 & R4 & R5).
    repeat (split; [assumption|]).
    intros F.
    destruct (LlmDualLookups.dual_exported_usage (LlmDualAttrs.trace_of (sdk st)) ctx prompt
                completion usage) as (U1 & U2 & U3 & U4 & U5).
    destruct (LlmDualLookups.exported_response (LlmDualAttrs.trace_of (sdk st)) ctx prompt
                completion usage) as (M1 & M2).
    rewrite !(attr_get_kept_fits _ _ F).
    repeat (split; [assumption|]). assumption.
  - eexists. split.
    + apply (LlmDual_records_tracing (with_test_provider None (fresh plain_world))).
      reflexivity.
    + repeat split.
  - intros st ctx params completion T. eexists.
    split; [apply LlmGenAI_records_tracing, T|].
    apply LlmGenAIKeys.genai_kept_no_llm.
Qed.

Lemma dual_naming_schemes_witness :
  exists kvs,
    LlmGenAI_records (initialized_state true) Background GenAIData.hello_prompt
      GenAIData.hello_completion kvs
    /\ has_key_prefix "llm." kvs = false.
Proof.
  exact (proj2 (proj2 dual_naming_schemes) (initialized_state true) Background
           GenAIData.hello_prompt GenAIData.hello_completion eq_refl).
Defined.

(** C5, the claim as stated fails: in the gen_ai-only llm.go the scenario
    leaves a span without llm.usage.total_tokens (and without llm.vendor); the
    total is under gen_ai.usage.total_tokens. *)
Lemma no_compatibility_schema :
  LlmGenAI_records (initialized_state true) Background GenAIData.hello_prompt
    GenAIData.hello_completion
    [ ("gen_ai.system", STRING "openai");
      ("gen_ai.request.model", STRING "gpt-4o");
      ("gen_ai.prompt.0.role", STRING "user");
      ("gen_ai.prompt.0.content", STRING "Hello");
      ("gen_ai.response.model", STRING "gpt-4o");
      ("gen_ai.usage.input_tokens", INT64 10);
      ("gen_ai.usage.output_tokens", INT64 5);
      ("gen_ai.usage.total_tokens", INT64 15) ]
  /\ attr_get "llm.usage.total_tokens"
       (kept (LlmGenAIAttrs.exported true Background GenAIData.hello_prompt
                GenAIData.hello_completion)) = None
  /\ attr_get "llm.vendor"
       (kept (LlmGenAIAttrs.exported true Background GenAIData.hello_prompt
                GenAIData.hello_completion)) = None.
Proof.
  split; [|split; reflexivity].
  apply (LlmGenAI_records_tracing (initialized_state true)). reflexivity.
Qed.

(** C6. Zero-usage omission.  As amended: the gen_ai-only LogCompletion
    leaves no attribute for a usage counter that is not strictly positive,
    and on a span that has room for them (a span keeps 128 attributes, the
    SDK's default that Init leaves in place, and drops the keys set after
    these) it records each of its six counters exactly when the counter is
    positive; the dual-schema LogCompletion records its three counters
    unconditionally on such a span, a zero one as the integer 0. *)
Theorem zero_usage_omission :
  (forall st ctx params completion,
      tracing st = true ->
      exists kvs,
        LlmGenAI_records st ctx params completion kvs
        /\ let u := LlmGenAI.CompletionParams.Usage completion in
           (forall k n,
               In (k, n)
                 [ (AttrGenAIUsageInputTokens, LlmGenAI.Usage.InputTokens u);
                   (AttrGenAIUsageOutputTokens, LlmGenAI.Usage.OutputTokens u);
                   (AttrGenAIUsageTotalTokens, LlmGenAI.Usage.TotalTokens u);
                   (AttrGenAIUsageReasoningTokens, LlmGenAI.Usage.ReasoningTokens u);
                   (AttrGenAIUsageCacheReadTokens, LlmGenAI.Usage.CacheReadTokens u);
                   (AttrGenAIUsageCacheWriteTokens, LlmGenAI.Usage.CacheWriteTokens u) ] ->
               (n <= 0)%Z -> attr_get k kvs = None)
           /\ (fits (LlmGenAIAttrs.exported (LlmGenAIAttrs.trace_of (sdk st)) ctx params
                       completion) ->
               recorded_iff_positive kvs AttrGenAIUsageInputTokens
                 (LlmGenAI.Usage.InputTokens u)
               /\ recorded_iff_positive kvs AttrGenAIUsageOutputTokens
                    (LlmGenAI.Usage.OutputTokens u)
               /\ recorded_iff_positive kvs AttrGenAIUsageTotalTokens
                    (LlmGenAI.Usage.TotalTokens u)
               /\ recorded_iff_positive kvs AttrGenAIUsageReasoningTokens
                    (LlmGenAI.Usage.ReasoningTokens u)
               /\ recorded_iff_positive kvs AttrGenAIUsageCacheReadTokens
                    (LlmGenAI.Usage.CacheReadTokens u)
               /\ recorded_iff_positive kvs AttrGenAIUsageCacheWriteTokens
                    (LlmGenAI.Usage.CacheWriteTokens u)))
  /\ (forall st ctx prompt completion usage,
        tracing st = true ->
        exists kvs,
          LlmDual_records st ctx prompt completion usage kvs
          /\ (fits (LlmDualAttrs.exported (LlmDualAttrs.trace_of (sdk st)) ctx prompt
                      completion usage) ->
              attr_get "gen_ai.usage.input_tokens" kvs
              = Some (INT64 (LlmDual.Usage.PromptTokens usage))
              /\ attr_get "gen_ai.usage.output_tokens" kvs
                 = Some (INT64 (LlmDual.Usage.CompletionTokens usage))
              /\ attr_get "llm.usage.prompt_tokens" kvs
                 = Some (INT64 (LlmDual.Usage.PromptTokens usage))
              /\ attr_get "llm.usage.completion_tokens" kvs
                 = Some (INT64 (LlmDual.Usage.CompletionTokens usage))
              /\ attr_get "llm.usage.total_tokens" kvs
                 = Some (INT64 (LlmDual.Usage.TotalTokens usage)))).
Proof.
  split.
  - intros st ctx params completion T. eexists.
    split; [apply LlmGenAI_records_tracing, T|].
    pose proof (LlmGenAIKeys.genai_exported_usage (LlmGenAIAttrs.trace_of (sdk st)) ctx
                  params completion) as U.
    cbv zeta in *. unfold recorded_iff_positive in *. split.
    + destruct U as (U1 & U2 & U3 & U4 & U5 & U6).
      intros k n Hin Hn. apply attr_get_kept_none.
      assert ((0 <? n)%Z = false) as Z by (apply Z.ltb_ge, Hn).
      simpl in Hin.
      destruct Hin as [E|[E|[E|[E|[E|[E|[]]]]]]]; injection E as <- <-;
        [rewrite U1|rewrite U2|rewrite U3|rewrite U4|rewrite U5|rewrite U6];
        rewrite Z; reflexivity.
    + intros F. rewrite !(attr_get_kept_fits _ _ F). exact U.
  - intros st ctx prompt completion usage T. eexists.
    split; [apply LlmDual_records_tracing, T|].
    intros F. rewrite !(attr_get_kept_fits _ _ F).
    apply LlmDualLookups.dual_exported_usage.
Qed.

Lemma zero_usage_omission_witness :
  exists kvs,
    LlmGenAI_records (initialized_state true) Background GenAIData.hello_prompt
      GenAIData.hello_completion kvs
    /\ attr_get AttrGenAIUsageInputTokens kvs = Some (INT64 10)
    /\ attr_get AttrGenAIUsageReasoningTokens kvs = None.
Proof.
  destruct (proj1 zero_usage_omission (initialized_state true) Background
              GenAIData.hello_prompt GenAIData.hello_completion eq_refl)
    as (kvs & R & Hzero & Hroom).
  exists kvs. split; [exact R|]. split.
  - destruct Hroom as (U1 & _); [apply Nat.leb_le; reflexivity|]. exact U1.
  - apply (Hzero AttrGenAIUsageReasoningTokens 0%Z); [|reflexivity].
    right; right; right; left; reflexivity.
Defined.

(** C6, the claim as stated fails: the dual-schema LogCompletion, given
    Usage{}, records gen_ai.usage.input_tokens = 0 (and the other counters,
    all 0). *)
Lemma zero_usage_is_recorded :
  LlmDual_records (with_test_provider None (fresh plain_world)) Background
    DualData.empty_prompt DualData.hello_completion DualData.usage_zero
    [ ("gen_ai.system", STRING "");
      ("gen_ai.request.model", STRING "");
      ("llm.vendor", STRING "");
      ("llm.request.model", STRING "");
      ("llm.request.type", STRING "chat");
      ("gen_ai.response.model", STRING "gpt-4o");
      ("llm.response.model", STRING "gpt-4o");
      ("gen_ai.usage.input_tokens", INT64 0);
      ("gen_ai.usage.output_tokens", INT64 0);
      ("llm.usage.prompt_tokens", INT64 0);
      ("llm.usage.completion_tokens", INT64 0);
      ("llm.usage.total_tokens", INT64 0) ]
  /\ attr_get "gen_ai.usage.input_tokens"
       (kept (LlmDualAttrs.exported true Background DualData.empty_prompt
                DualData.hello_completion DualData.usage_zero)) = Some (INT64 0)
  /\ LlmDual.Usage.PromptTokens DualData.usage_zero = 0.
Proof.
  split; [|split; reflexivity].
  apply (LlmDual_records_tracing (with_test_provider None (fresh plain_world))).
  reflexivity.
Qed.

(** ** A conversation longer than a span *)

(** A gen_ai-only call with 70 messages sets 146 attributes, of which the
    span keeps the first 128: vendor, model and the messages 0 to 62.  The
    rest of the conversation, the response model and the usage counters,
    which LogCompletion sets last, are not on the exported span. *)
Example long_conversation_is_cut :
  exists kvs,
    LlmGenAI_records (initialized_state true) Background GenAIData.long_prompt
      GenAIData.hello_completion kvs
    /\ length (LlmGenAIAttrs.exported true Background GenAIData.long_prompt
                 GenAIData.hello_completion) = 146%nat
    /\ length kvs = 128%nat
    /\ attr_get "gen_ai.system" kvs = Some (STRING "openai")
    /\ attr_get "gen_ai.request.model" kvs = Some (STRING "gpt-4o")
    /\ attr_get "gen_ai.prompt.62.content" kvs = Some (STRING "Hello")
    /\ attr_get "gen_ai.prompt.63.role" kvs = None
    /\ attr_get "gen_ai.prompt.69.content" kvs = None
    /\ attr_get "gen_ai.response.model" kvs = None
    /\ attr_get "gen_ai.usage.input_tokens" kvs = None
    /\ LlmGenAI.Usage.InputTokens
         (LlmGenAI.CompletionParams.Usage GenAIData.hello_completion) = 10.
Proof.
  eexists. split.
  - apply (LlmGenAI_records_tracing (initialized_state true)). reflexivity.
  - vm_compute. repeat split.
Qed.

(** ** Hierarchy spans *)

Module WorkflowFacts.
Import Workflow.

Lemma StartWorkflow_tracing d name st :
  tracing st = true ->
  let id := length (spans (otel st)) in
  let c := withWorkflowName (ContextWithSpan d (recordingSpan id)) name in
  StartWorkflow d name st
  = Done (Some {| span := Some (recordingSpan id); ctx := c; name := name |}, c)
         (set_spans
            (spans (otel st)
             ++ [add_attrs (getTriageAttrs d
                            ++ [ attr_String "traceloop.span.kind" spanKindWorkflow;
                                 attr_String "traceloop.entity.name" name;
                                 attr_String "traceloop.workflow.name" name ])
                   (new_span name (parent_of d))]) st).
Proof.
  intros T id c. unfold StartWorkflow. unfold bind at 1.
  rewrite (tracer_Start_tracing d name st T). fold id. cbv beta iota.
  erewrite (appends_last (sdk st)); [| | reflexivity | reflexivity].
  - rewrite add_attrs_app. reflexivity.
  - eapply (appends_eq _ _ _ (_ ++ [])); [apply app_nil_r|].
    eapply appends_bind; [apply appends_SetAttributes|apply appends_ret].
Qed.

Lemma StartWorkflow_idle d name st :
  tracing st = false ->
  let h := nonRecordingSpan (parent_of d) in
  let c := withWorkflowName (ContextWithSpan d h) name in
  StartWorkflow d name st = Done (Some {| span := Some h; ctx := c; name := name |}, c) st.
Proof.
  intros T c. unfold StartWorkflow. unfold bind at 1.
  rewrite (tracer_Start_idle d name st T). reflexivity.
Qed.

Lemma start_tracing k d name st :
  tracing st = true ->
  let id := length (spans (otel st)) in
  let c := ContextWithSpan d (recordingSpan id) in
  start k d name st
  = Done (Some {| span := Some (recordingSpan id); ctx := c; name := name |}, c)
         (set_spans
            (spans (otel st)
             ++ [add_attrs (getTriageAttrs d
                            ++ kind_attrs k name (workflowNameFromContext d))
                   (new_span name (parent_of d))]) st).
Proof.
  intros T id c.
  destruct k; unfold start, StartTask, StartAgent, StartTool; unfold bind at 1;
    rewrite (tracer_Start_tracing d name st T); fold id; cbv beta iota;
    (erewrite (appends_last (sdk st)); [| | reflexivity | reflexivity];
     [ rewrite add_attrs_app; reflexivity
     | eapply (appends_eq _ _ _ (_ ++ [])); [apply app_nil_r|];
       eapply appends_bind; [|apply appends_ret];
       eapply appends_eq; [|apply appends_SetAttributes];
       unfold kind_attrs, append_if, workflowNameFromContext; simpl;
       destruct (ctx_workflowName d) as [wf|]; [destruct (is_empty wf)|];
       reflexivity ]).
Qed.

Lemma start_idle k d name st :
  tracing st = false ->
  let h := nonRecordingSpan (parent_of d) in
  let c := ContextWithSpan d h in
  start k d name st = Done (Some {| span := Some h; ctx := c; name := name |}, c) st.
Proof.
  intros T c.
  destruct k; unfold start, StartTask, StartAgent, StartTool; unfold bind at 1;
    rewrite (tracer_Start_idle d name st T); reflexivity.
Qed.

(** The constructors other than StartWorkflow hand the workflow name on. *)
Lemma start_keeps_name k d name st r d' st' :
  start k d name st = Done (r, d') st' -> ctx_workflowName d' = ctx_workflowName d.
Proof.
  destruct (tracing st) eqn:T.
  - rewrite (start_tracing k d name st T). intros H. injection H as _ <- _. reflexivity.
  - rewrite (start_idle k d name st T). intros H. injection H as _ <- _. reflexivity.
Qed.

Lemma descends_keeps_name root d :
  descends root d -> ctx_workflowName d = ctx_workflowName root.
Proof.
  induction 1 as [|c d d' st st' _ IH H|name d t d' st st' _ IH H
                  |name d a d' st st' _ IH H|name d t d' st st' _ IH H
                  |params d s d' st st' _ IH H|prompt d ls d' st st' _ IH H];
    [reflexivity|..]; rewrite <- IH.
  - destruct (call_merges c d) as (d1 & R & W & _).
    destruct (R st) as (st1 & E & _). rewrite E in H. injection H as <- _. exact W.
  - exact (start_keeps_name KindTask d name st t d' st' H).
  - exact (start_keeps_name KindAgent d name st a d' st' H).
  - exact (start_keeps_name KindTool d name st t d' st' H).
  - destruct (tracing st) eqn:T.
    + rewrite (LlmGenAIFacts.genai_LogPrompt_tracing d params st T) in H.
      injection H as <- _ _. reflexivity.
    + rewrite (LlmGenAIFacts.genai_LogPrompt_idle d params st T) in H.
      injection H as <- _ _. reflexivity.
  - destruct (tracing st) eqn:T.
    + rewrite (LlmDualFacts.dual_LogPrompt_tracing d prompt st T) in H.
      injection H as _ <- _. reflexivity.
    + rewrite (LlmDualFacts.dual_LogPrompt_idle d prompt st T) in H.
      injection H as _ <- _. reflexivity.
Qed.

Lemma length_kind_attrs k name wf : (length (kind_attrs k name wf) <= 4)%nat.
Proof. unfold kind_attrs. destruct k, (is_empty wf); simpl; lia. Qed.

(** A task, agent or tool span has room for all that is set when it starts. *)
Lemma fits_start k d name wf : fits (getTriageAttrs d ++ kind_attrs k name wf).
Proof.
  unfold fits. rewrite length_app. pose proof (length_getTriageAttrs d).
  pose proof (length_kind_attrs k name wf). unfold AttributeCountLimit. lia.
Qed.

Lemma attr_get_kind_attrs k name wf :
  attr_get "traceloop.workflow.name" (kind_attrs k name wf)
  = if is_empty wf then None else Some (STRING wf).
Proof. unfold kind_attrs. destruct k, (is_empty wf); reflexivity. Qed.

(** The span a task, agent or tool opens, and its workflow-name attribute. *)
Lemma start_opens k d name st :
  tracing st = true ->
  exists t d' st' kvs,
    start k d name st = Done (Some t, d') st'
    /\ opened st st' (span t) name kvs false
    /\ ctx_workflowName d' = ctx_workflowName d
    /\ attr_get "traceloop.workflow.name" kvs
       = (if is_empty (workflowNameFromContext d) then None
          else Some (STRING (workflowNameFromContext d))).
Proof.
  intros T. eexists _, _, _, _. split; [apply start_tracing, T|].
  split.
  { eexists _, _. split; [reflexivity|]. split; [apply lookup_fresh|].
    split; [apply lookup_last|]. repeat split. }
  split; [reflexivity|].
  cbn [span_attrs add_attrs new_span].
  rewrite (attr_get_kept _ _ (fits_start k d name (workflowNameFromContext d))).
  rewrite attr_get_app, attr_get_kind_attrs.
  rewrite (attr_get_outside _ _ _ (keys_getTriageAttrs d)) by reflexivity.
  destruct (is_empty (workflowNameFromContext d)); reflexivity.
Qed.

End WorkflowFacts.

(** C7. Workflow-name inheritance.  As amended: StartWorkflow(name) stores
    name in the context it returns; every context that descends from it keeps
    the name, and StartTask / StartAgent / StartTool called with such a context
    stamp traceloop.workflow.name = name on their span, provided name is not
    empty (an empty name is read back as no workflow, and nothing is
    stamped); called with a context that carries no workflow they emit no
    traceloop.workflow.name at all. *)
Theorem workflow_name_inheritance :
  (forall st ctx name,
      exists w wctx st1,
        Workflow.StartWorkflow ctx name st = Done (Some w, wctx) st1
        /\ Workflow.Context_ (Some w) = wctx
        /\ ctx_workflowName wctx = Some name
        /\ forall d, descends wctx d ->
             ctx_workflowName d = Some name
             /\ forall k st2 tname,
                  tracing st2 = true ->
                  exists t d' st3 kvs,
                    start k d tname st2 = Done (Some t, d') st3
                    /\ opened st2 st3 (Workflow.span t) tname kvs false
                    /\ descends wctx d'
                    /\ attr_get "traceloop.workflow.name" kvs
                       = (if is_empty name then None else Some (STRING name)))
  /\ (forall root d k st2 tname,
        ctx_workflowName root = None ->
        descends root d ->
        tracing st2 = true ->
        exists t d' st3 kvs,
          start k d tname st2 = Done (Some t, d') st3
          /\ opened st2 st3 (Workflow.span t) tname kvs false
          /\ has_key "traceloop.workflow.name" kvs = false).
Proof.
  split.
  - intros st ctx name.
    assert (exists w wctx st1,
               Workflow.StartWorkflow ctx name st = Done (Some w, wctx) st1
               /\ Workflow.Context_ (Some w) = wctx
               /\ ctx_workflowName wctx = Some name) as (w & wctx & st1 & E & C & N).
    { destruct (tracing st) eqn:T.
      - eexists _, _, _. split; [apply WorkflowFacts.StartWorkflow_tracing, T|].
        split; reflexivity.
      - eexists _, _, _. split; [apply WorkflowFacts.StartWorkflow_idle, T|].
        split; reflexivity. }
    exists w, wctx, st1. repeat (split; [assumption|]).
    intros d Hd.
    assert (ctx_workflowName d = Some name) as Hn.
    { rewrite (WorkflowFacts.descends_keeps_name wctx d Hd). exact N. }
    split; [exact Hn|]. intros k st2 tname T.
    destruct (WorkflowFacts.start_opens k d tname st2 T) as (t & d' & st3 & kvs & S & O & _ & A).
    exists t, d', st3, kvs. split; [exact S|]. split; [exact O|]. split.
    + destruct k; [eapply descends_task|eapply descends_agent|eapply descends_tool];
        eauto.
    + rewrite A. unfold Workflow.workflowNameFromContext. rewrite Hn. reflexivity.
  - intros root d k st2 tname Hroot Hd T.
    destruct (WorkflowFacts.start_opens k d tname st2 T) as (t & d' & st3 & kvs & S & O & _ & A).
    exists t, d', st3, kvs. split; [exact S|]. split; [exact O|].
    rewrite has_key_attr_get, A. unfold Workflow.workflowNameFromContext.
    rewrite (WorkflowFacts.descends_keeps_name root d Hd), Hroot. reflexivity.
Qed.

Lemma workflow_name_inheritance_witness :
  exists t d' st3 kvs,
    start KindTask Background "t2" (initialized_state true) = Done (Some t, d') st3
    /\ opened (initialized_state true) st3 (Workflow.span t) "t2" kvs false
    /\ has_key "traceloop.workflow.name" kvs = false.
Proof.
  exact (proj2 workflow_name_inheritance Background Background KindTask
           (initialized_state true) "t2" eq_refl (descends_here Background) eq_refl).
Defined.

(** C7, the claim as stated fails for the empty name: StartWorkflow("") stamps
    traceloop.workflow.name = "" on its own span and stores "" in the
    context, and StartTask("t1") from that context emits no
    traceloop.workflow.name. *)
Lemma empty_workflow_name_not_inherited :
  exists w wctx st1 t d' st2,
    Workflow.StartWorkflow Background "" (initialized_state true) = Done (Some w, wctx) st1
    /\ ctx_workflowName wctx = Some ""
    /\ attr_get "traceloop.workflow.name" (attrs_of 0 st1) = Some (STRING "")
    /\ Workflow.StartTask wctx "t1" st1 = Done (Some t, d') st2
    /\ Workflow.span t = Some (recordingSpan 1)
    /\ attrs_of 1 st2 = [ ("traceloop.span.kind", STRING "task");
                          ("traceloop.entity.name", STRING "t1") ]
    /\ has_key "traceloop.workflow.name" (attrs_of 1 st2) = false.
Proof.
  eexists _, _, _, _, _, _.
  split; [apply (WorkflowFacts.StartWorkflow_tracing Background ""
                   (initialized_state true)); reflexivity|].
  split; [reflexivity|]. split; [reflexivity|].
  split; [apply (WorkflowFacts.start_tracing KindTask); reflexivity|].
  repeat split.
Qed.

(** ** The SDK lifecycle *)

(** C8. SDK lifecycle idempotence: Init called while initialized builds and
    registers nothing, returns a nil error and the no-op shutdown function
    (calling it changes nothing) and leaves initialized true, in particular
    right after a successful Init; Shutdown called when not initialized
    returns nil and changes nothing, and so does a Shutdown that follows a
    Shutdown. *)
Theorem lifecycle_idempotence :
  (forall opts st,
      initialized (sdk st) = true ->
      exists st',
        Init opts st = Done (noop, None) st'
        /\ sdk st' = sdk st /\ otel st' = otel st /\ world st' = world st
        /\ initialized (sdk st') = true
        /\ no_op (call_ShutdownFunc noop) st' tt)
  /\ (forall opts1 opts2 st f st1,
        Init opts1 st = Done (f, None) st1 ->
        f = shutdown ->
        exists st2,
          Init opts2 st1 = Done (noop, None) st2
          /\ provider (sdk st2) = provider (sdk st1)
          /\ global_tp (otel st2) = global_tp (otel st1)
          /\ tp_built (otel st2) = tp_built (otel st1)
          /\ activeConfig (sdk st2) = activeConfig (sdk st1)
          /\ initialized (sdk st2) = true)
  /\ (forall st, initialized (sdk st) = false -> no_op Shutdown st None)
  /\ (forall st, provider (sdk st) = None -> no_op Shutdown st None)
  /\ (forall st,
        exists err st1,
          Shutdown st = Done err st1
          /\ no_op Shutdown st1 None).
Proof.
  assert (forall opts st,
             initialized (sdk st) = true ->
             Init opts st
             = Done (noop, None)
                 (add_log LevelWarn "triage: Init() called more than once — ignoring" st))
    as Hagain.
  { intros opts st Hi. unfold Init. rewrite Hi. reflexivity. }
  split; [|split; [|split; [|split]]].
  - intros opts st Hi. eexists. split; [apply Hagain, Hi|].
    repeat split. exact Hi.
  - intros opts1 opts2 st f st1 H1 ->.
    assert (initialized (sdk st1) = true) as Hi.
    { unfold Init in H1.
      destruct (initialized (sdk st)); [discriminate|].
      destruct (resolveConfig (os (world st)) opts1) as [cfg|e]; [|discriminate].
      destruct (enabled cfg); [|discriminate]. simpl in H1.
      destruct (exporter_New_err (world st)); [discriminate|].
      destruct (resource_Merge_err (world st)); [discriminate|].
      injection H1 as <-. reflexivity. }
    eexists. split; [apply Hagain, Hi|]. repeat split. exact Hi.
  - intros st Hi. unfold no_op, Shutdown. rewrite Hi. reflexivity.
  - intros st Hp. unfold no_op, Shutdown. rewrite Hp.
    destruct (initialized (sdk st)); reflexivity.
  - intros st. unfold no_op, Shutdown.
    destruct (initialized (sdk st)) eqn:Hi; [destruct (provider (sdk st)) eqn:Hp|].
    + eexists _, _. split; reflexivity.
    + eexists _, _. split; [reflexivity|]. rewrite Hi, Hp. reflexivity.
    + eexists _, _. split; [reflexivity|]. rewrite Hi. reflexivity.
Qed.

Lemma lifecycle_idempotence_witness :
  exists st',
    Init [WithAPIKey "tsk_other"] (initialized_state true) = Done (noop, None) st'
    /\ sdk st' = sdk (initialized_state true)
    /\ otel st' = otel (initialized_state true)
    /\ world st' = world (initialized_state true)
    /\ initialized (sdk st') = true
    /\ no_op (call_ShutdownFunc noop) st' tt.
Proof.
  exact (proj1 lifecycle_idempotence [WithAPIKey "tsk_other"] (initialized_state true)
           eq_refl).
Defined.

(** C10. Init with a resolved configuration that has enabled = false: it
    returns a nil error and the no-op shutdown function and initializes
    nothing (the package variables and the OpenTelemetry globals are as
    before, initialized stays false, no provider is built or registered); a
    later Init with an enabled configuration is therefore not a double call:
    it builds and registers the provider. *)
Theorem disabled_init_skips (opts : list Option_) (st : State) (cfg : config) :
  initialized (sdk st) = false ->
  resolveConfig (os (world st)) opts = inl cfg ->
  enabled cfg = false ->
  exists st',
    Init opts st = Done (noop, None) st'
    /\ sdk st' = sdk st /\ otel st' = otel st /\ world st' = world st
    /\ initialized (sdk st') = false
    /\ no_op (call_ShutdownFunc noop) st' tt
    /\ forall opts2 cfg2,
         resolveConfig (os (world st')) opts2 = inl cfg2 ->
         enabled cfg2 = true ->
         exporter_New_err (world st') = None ->
         resource_Merge_err (world st') = None ->
         exists st2,
           Init opts2 st' = Done (shutdown, None) st2
           /\ initialized (sdk st2) = true
           /\ activeConfig (sdk st2) = Some cfg2
           /\ provider (sdk st2) = Some (tp_built (otel st))
           /\ global_tp (otel st2) = Some (tp_built (otel st))
           /\ tp_built (otel st2) = S (tp_built (otel st)).
Proof.
  intros Hi Hc He. eexists. split.
  { unfold Init. rewrite Hi, Hc, He. reflexivity. }
  repeat (split; [first [reflexivity|exact Hi]|]).
  intros opts2 cfg2 Hc2 He2 Hx Hr. simpl in Hc2, Hx, Hr. eexists. split.
  { unfold Init. cbn [add_log sdk world]. rewrite Hi, Hc2, He2. cbn [negb].
    rewrite Hx, Hr. reflexivity. }
  repeat split.
Qed.

Lemma disabled_init_skips_witness :
  exists st',
    Init [WithAPIKey "tsk_test"; WithEnabled false] (fresh plain_world)
    = Done (noop, None) st'
    /\ sdk st' = sdk (fresh plain_world) /\ otel st' = otel (fresh plain_world)
    /\ world st' = world (fresh plain_world)
    /\ initialized (sdk st') = false
    /\ no_op (call_ShutdownFunc noop) st' tt
    /\ forall opts2 cfg2,
         resolveConfig (os (world st')) opts2 = inl cfg2 ->
         enabled cfg2 = true ->
         exporter_New_err (world st') = None ->
         resource_Merge_err (world st') = None ->
         exists st2,
           Init opts2 st' = Done (shutdown, None) st2
           /\ initialized (sdk st2) = true
           /\ activeConfig (sdk st2) = Some cfg2
           /\ provider (sdk st2) = Some (tp_built (otel (fresh plain_world)))
           /\ global_tp (otel st2) = Some (tp_built (otel (fresh plain_world)))
           /\ tp_built (otel st2) = S (tp_built (otel (fresh plain_world))).
Proof.
  apply (disabled_init_skips [WithAPIKey "tsk_test"; WithEnabled false]
           (fresh plain_world)
           {| apiKey := "tsk_test"; endpoint := DefaultEndpoint; appName := "agent";
              environment := "development"; enabled := false; traceContent := true |}).
  - reflexivity.
  - reflexivity.
  - reflexivity.
Defined.

(** ** Lifecycle operations on spans that are not open *)

(** C9. Safe no-op lifecycle operations.  As amended: on a zero-valued
    instance and on an instance whose span has ended, LogCompletion, End and
    SetError (with a non-nil error) return without a panic and change
    nothing, in both revisions of llm.go and for the hierarchy spans; the
    span of a logged call is such an ended instance.  On a nil pointer the
    dual-schema LogCompletion and the hierarchy End are no-ops too, whereas
    the three methods of the gen_ai-only LLMSpan read s.span through the nil
    receiver and panic. *)
Theorem safe_no_op_lifecycle :
  (forall st completion usage,
      no_op (LlmDual.LogCompletion None completion usage) st tt
      /\ (forall c, no_op (LlmDual.LogCompletion
                             (Some {| LlmDual.span := None; LlmDual.ctx := c |})
                             completion usage) st tt)
      /\ (forall h c, closed h st ->
            no_op (LlmDual.LogCompletion
                     (Some {| LlmDual.span := Some h; LlmDual.ctx := c |})
                     completion usage) st tt))
  /\ (forall st,
        no_op (Workflow.End_ None) st tt
        /\ (forall c n, no_op (Workflow.End_
                                 (Some {| Workflow.span := None; Workflow.ctx := c;
                                          Workflow.name := n |})) st tt)
        /\ (forall h c n, closed h st ->
              no_op (Workflow.End_
                       (Some {| Workflow.span := Some h; Workflow.ctx := c;
                                Workflow.name := n |})) st tt))
  /\ (forall st params msg,
        (no_op (LlmGenAI.LogCompletion (Some {| LlmGenAI.span := None |}) params) st tt
         /\ no_op (LlmGenAI.End_ (Some {| LlmGenAI.span := None |})) st tt
         /\ no_op (LlmGenAI.SetError (Some {| LlmGenAI.span := None |}) (Some msg)) st tt)
        /\ (forall h, closed h st ->
              no_op (LlmGenAI.LogCompletion (Some {| LlmGenAI.span := Some h |}) params) st tt
              /\ no_op (LlmGenAI.End_ (Some {| LlmGenAI.span := Some h |})) st tt
              /\ no_op (LlmGenAI.SetError (Some {| LlmGenAI.span := Some h |}) (Some msg))
                   st tt))
  /\ (forall st ctx params completion,
        tracing st = true ->
        exists s h st',
          LlmGenAIAttrs.logged ctx params completion st = Done (Some s) st'
          /\ LlmGenAI.span s = Some h /\ closed h st')
  /\ (forall st ctx prompt completion usage,
        tracing st = true ->
        exists ls h st',
          LlmDualAttrs.logged ctx prompt completion usage st = Done (Some ls) st'
          /\ LlmDual.span ls = Some h /\ closed h st')
  /\ (forall st params err,
        (exists msg, LlmGenAI.LogCompletion None params st = Panic msg)
        /\ (exists msg, LlmGenAI.End_ None st = Panic msg)
        /\ (exists msg, LlmGenAI.SetError None err st = Panic msg)).
Proof.
  split; [|split; [|split; [|split; [|split]]]].
  - intros st completion usage. split; [reflexivity|]. split; [reflexivity|].
    intros h c C. apply LlmDualFacts.dual_LogCompletion_closed, C.
  - intros st. split; [reflexivity|]. split; [reflexivity|].
    intros h c n C. apply no_op_End, C.
  - intros st params msg. split; [repeat split|].
    intros h C. split; [apply LlmGenAIFacts.genai_LogCompletion_closed, C|].
    split.
    + unfold LlmGenAI.End_, LlmGenAI.deref.
      eapply no_op_bind; [apply no_op_ret|]. apply no_op_End, C.
    + unfold LlmGenAI.SetError, LlmGenAI.deref.
      eapply no_op_bind; [apply no_op_ret|]. cbn [LlmGenAI.span].
      eapply no_op_bind; [apply no_op_RecordError, C|apply no_op_SetStatus, C].
  - intros st ctx params completion T. eexists _, _, _.
    split; [apply LlmGenAIFacts.genai_logged_tracing, T|]. split; [reflexivity|].
    simpl. rewrite lookup_last. reflexivity.
  - intros st ctx prompt completion usage T. eexists _, _, _.
    split; [apply LlmDualFacts.dual_logged_tracing, T|]. split; [reflexivity|].
    simpl. rewrite lookup_last. reflexivity.
  - intros st params err. repeat split; eexists; reflexivity.
Qed.

Lemma safe_no_op_lifecycle_witness :
  exists s h st',
    LlmGenAIAttrs.logged Background GenAIData.hello_prompt GenAIData.hello_completion
      (initialized_state true) = Done (Some s) st'
    /\ LlmGenAI.span s = Some h /\ closed h st'.
Proof.
  exact (proj1 (proj2 (proj2 (proj2 safe_no_op_lifecycle))) (initialized_state true)
           Background GenAIData.hello_prompt GenAIData.hello_completion eq_refl).
Defined.

(** C9, the claim as stated fails for a nil instance of the gen_ai-only
    LLMSpan: [var s *LLMSpan; s.LogCompletion(...)], [s.End()] and
    [s.SetError(err)] panic on the nil pointer. *)
Lemma nil_llm_span_panics :
  LlmGenAI.LogCompletion None GenAIData.hello_completion (fresh plain_world)
  = Panic "runtime error: invalid memory address or nil pointer dereference"
  /\ LlmGenAI.End_ None (fresh plain_world)
     = Panic "runtime error: invalid memory address or nil pointer dereference"
  /\ LlmGenAI.SetError None (Some "API rate limited") (fresh plain_world)
     = Panic "runtime error: invalid memory address or nil pointer dereference".
Proof. repeat split. Qed.

(** * Further properties of the code *)

(** ** config.go: the three layers *)

Lemma fold_config {A} (proj : config -> A) (pick : Option_ -> option A) :
  (forall o c, proj (apply_Option o c) = default (proj c) (pick o)) ->
  forall opts c,
    proj (fold_left (fun c o => apply_Option o c) opts c)
    = default (proj c) (last_some pick opts).
Proof.
  intros H opts. induction opts as [|o rest IH]; intros c; [reflexivity|].
  cbn [fold_left last_some]. rewrite IH, H.
  destruct (last_some pick rest); reflexivity.
Qed.

Lemma envBool_env_flag os key :
  envBool os key = match env_flag os key with
                   | Some b => (b, true)
                   | None => (false, false)
                   end.
Proof.
  unfold envBool, env_flag, one_of. cbn [existsb].
  destruct (is_empty (Getenv (os_environ os) key)); [reflexivity|].
  destruct (String.eqb _ "true"), (String.eqb _ "1"), (String.eqb _ "yes"); reflexivity.
Qed.

Lemma resolveConfig_fold os opts :
  resolveConfig os opts
  = let cfg := fold_left (fun c o => apply_Option o c) opts (env_config os) in
    if is_empty (apiKey cfg)
    then inr ("triage: API key is required. Pass triage.WithAPIKey() to Init() "
              +:+ "or set the " +:+ EnvAPIKey +:+ " environment variable")
    else inl cfg.
Proof.
  unfold resolveConfig, env_config, env_text. rewrite !envBool_env_flag.
  unfold env_flag.
  destruct (is_empty (Getenv (os_environ os) EnvAPIKey)),
           (is_empty (Getenv (os_environ os) EnvEndpoint)),
           (is_empty (Getenv (os_environ os) EnvAppName)),
           (is_empty (Getenv (os_environ os) EnvEnvironment)),
           (is_empty (Getenv (os_environ os) EnvEnabled)),
           (is_empty (Getenv (os_environ os) EnvTraceContent)); reflexivity.
Qed.

Lemma resolved_fields os opts :
  let cfg := fold_left (fun c o => apply_Option o c) opts (env_config os) in
  apiKey cfg = layered (last_some Option_apiKey opts) (env_text os EnvAPIKey) ""
  /\ endpoint cfg
     = layered (last_some Option_endpoint opts) (env_text os EnvEndpoint) DefaultEndpoint
  /\ appName cfg
     = layered (last_some Option_appName opts) (env_text os EnvAppName) (defaultAppName os)
  /\ environment cfg
     = layered (last_some Option_environment opts) (env_text os EnvEnvironment)
         "development"
  /\ enabled cfg = layered (last_some Option_enabled opts) (env_flag os EnvEnabled) true
  /\ traceContent cfg
     = layered (last_some Option_traceContent opts) (env_flag os EnvTraceContent) true.
Proof.
  cbv zeta.
  rewrite (fold_config apiKey Option_apiKey) by (intros [] ?; reflexivity).
  rewrite (fold_config endpoint Option_endpoint) by (intros [] ?; reflexivity).
  rewrite (fold_config appName Option_appName) by (intros [] ?; reflexivity).
  rewrite (fold_config environment Option_environment) by (intros [] ?; reflexivity).
  rewrite (fold_config enabled Option_enabled) by (intros [] ?; reflexivity).
  rewrite (fold_config traceContent Option_traceContent) by (intros [] ?; reflexivity).
  repeat split.
  all: match goal with |- context [last_some ?p ?o] => destruct (last_some p o) end.
  all: reflexivity.
Qed.

(** X1. resolveConfig merges three layers, field by field: the last explicit
    option that sets the field decides it, whatever its value; without such
    an option the environment variable decides when it is set to a non-empty
    value (for the two flags: true exactly for true, 1 and yes in any letter
    case); otherwise the default stands (DefaultEndpoint, the program's base
    name, development, true, true). *)
Theorem config_layering (os : OS) (opts : list Option_) (cfg : config) :
  resolveConfig os opts = inl cfg ->
  apiKey cfg = layered (last_some Option_apiKey opts) (env_text os EnvAPIKey) ""
  /\ endpoint cfg
     = layered (last_some Option_endpoint opts) (env_text os EnvEndpoint) DefaultEndpoint
  /\ appName cfg
     = layered (last_some Option_appName opts) (env_text os EnvAppName) (defaultAppName os)
  /\ environment cfg
     = layered (last_some Option_environment opts) (env_text os EnvEnvironment)
         "development"
  /\ enabled cfg = layered (last_some Option_enabled opts) (env_flag os EnvEnabled) true
  /\ traceContent cfg
     = layered (last_some Option_traceContent opts) (env_flag os EnvTraceContent) true.
Proof.
  rewrite resolveConfig_fold. cbv zeta.
  destruct (is_empty _); [discriminate|]. intros [= <-]. apply resolved_fields.
Qed.

Lemma config_layering_witness :
  exists cfg,
    resolveConfig
      (os_with [ (EnvAPIKey, "tsk_env"); (EnvEndpoint, "https://env.io");
                 (EnvEnabled, "Yes"); (EnvTraceContent, "off") ])
      [ WithEndpoint "https://first.io"; WithAPIKey "tsk_arg";
        WithEndpoint "https://arg.io"; WithEnabled false ] = inl cfg
    /\ apiKey cfg = "tsk_arg"
    /\ endpoint cfg = "https://arg.io"
    /\ appName cfg = "agent"
    /\ environment cfg = "development"
    /\ enabled cfg = false
    /\ traceContent cfg = false.
Proof.
  eexists. split; [reflexivity|].
  exact (config_layering
           (os_with [ (EnvAPIKey, "tsk_env"); (EnvEndpoint, "https://env.io");
                      (EnvEnabled, "Yes"); (EnvTraceContent, "off") ])
           [ WithEndpoint "https://first.io"; WithAPIKey "tsk_arg";
             WithEndpoint "https://arg.io"; WithEnabled false ] _ eq_refl).
Defined.

Lemma resolveConfig_error_iff os opts :
  (exists err, resolveConfig os opts = inr err)
  <-> layered (last_some Option_apiKey opts) (env_text os EnvAPIKey) "" = "".
Proof.
  rewrite resolveConfig_fold. cbv zeta.
  rewrite (proj1 (resolved_fields os opts)).
  destruct (layered _ _ _) eqn:L; cbn [is_empty].
  - split; [reflexivity|]. intros _. eexists. reflexivity.
  - split; [intros [? [=]]|discriminate].
Qed.

(** X2. resolveConfig fails exactly when the API key that the layers resolve
    to is empty: no WithAPIKey option and TRIAGE_API_KEY unset or empty, or a
    last WithAPIKey option that passes the empty string, which overrides a
    key set in the environment.  No other field is validated: whenever the
    key is not empty the config is returned. *)
Theorem api_key_required (os : OS) (opts : list Option_) :
  ((exists err, resolveConfig os opts = inr err)
   <-> layered (last_some Option_apiKey opts) (env_text os EnvAPIKey) "" = "")
  /\ ((exists cfg, resolveConfig os opts = inl cfg)
      <-> layered (last_some Option_apiKey opts) (env_text os EnvAPIKey) "" <> "")
  /\ (exists err, resolveConfig os (opts ++ [WithAPIKey ""]) = inr err)
  /\ (last_some Option_apiKey opts = None ->
      Getenv (os_environ os) EnvAPIKey = "" ->
      exists err, resolveConfig os opts = inr err).
Proof.
  split; [apply resolveConfig_error_iff|]. split; [|split].
  - rewrite resolveConfig_fold. cbv zeta.
    rewrite (proj1 (resolved_fields os opts)).
    destruct (layered _ _ _) eqn:L; cbn [is_empty].
    + split; [intros [? [=]]|intros H; destruct (H eq_refl)].
    + split; [discriminate|]. intros _. eexists. reflexivity.
  - apply resolveConfig_error_iff.
    assert (L : forall l, last_some Option_apiKey (l ++ [WithAPIKey ""]) = Some "").
    { induction l as [|a l IH]; [reflexivity|]. cbn [app last_some]. rewrite IH.
      reflexivity. }
    rewrite L. reflexivity.
  - intros N G. apply resolveConfig_error_iff. rewrite N. unfold env_text. rewrite G.
    reflexivity.
Qed.

(** ** config.go: envBool *)

Lemma is_empty_ToLower s : is_empty (ToLower s) = is_empty s.
Proof. destruct s; reflexivity. Qed.

(** X3. envBool reads a flag without regard to letter case: two values with
    the same lower-case form give the same result.  The variable counts as
    set exactly when its value is not empty, and a set variable is true only
    for true, 1 and yes: every other value, such as on or enabled, reads as
    false. *)
Theorem envBool_case_insensitive (os1 os2 : OS) (key : string) :
  ToLower (Getenv (os_environ os1) key) = ToLower (Getenv (os_environ os2) key) ->
  envBool os1 key = envBool os2 key
  /\ snd (envBool os1 key) = negb (is_empty (Getenv (os_environ os1) key))
  /\ (fst (envBool os1 key) = true ->
      In (ToLower (Getenv (os_environ os1) key)) ["true"; "1"; "yes"]).
Proof.
  intros H. split; [|split].
  - rewrite !envBool_env_flag. unfold env_flag.
    rewrite <- (is_empty_ToLower (Getenv (os_environ os1) key)), H,
      is_empty_ToLower.
    reflexivity.
  - rewrite envBool_env_flag. unfold env_flag.
    destruct (is_empty _); reflexivity.
  - rewrite envBool_env_flag. unfold env_flag.
    destruct (is_empty _); [discriminate|]. cbn [fst one_of existsb].
    intros T.
    destruct (String.eqb_spec (ToLower (Getenv (os_environ os1) key)) "true") as [->|];
      [left; reflexivity|].
    destruct (String.eqb_spec (ToLower (Getenv (os_environ os1) key)) "1") as [->|];
      [right; left; reflexivity|].
    destruct (String.eqb_spec (ToLower (Getenv (os_environ os1) key)) "yes") as [->|];
      [right; right; left; reflexivity|].
    discriminate.
Qed.

Lemma envBool_case_insensitive_witness :
  envBool (os_with [(EnvEnabled, "YeS")]) EnvEnabled
  = envBool (os_with [(EnvEnabled, "yes")]) EnvEnabled
  /\ snd (envBool (os_with [(EnvEnabled, "YeS")]) EnvEnabled) = true
  /\ (fst (envBool (os_with [(EnvEnabled, "YeS")]) EnvEnabled) = true ->
      In "yes" ["true"; "1"; "yes"]).
Proof.
  exact (envBool_case_insensitive (os_with [(EnvEnabled, "YeS")])
           (os_with [(EnvEnabled, "yes")]) EnvEnabled eq_refl).
Defined.

(** ** config.go: defaultAppName *)

Lemma strip_trailing_slashes_head l :
  match strip_trailing_slashes l with
  | [] => True
  | c :: _ => Ascii.eqb c "/" = false
  end.
Proof.
  induction l as [|c l IH]; [exact I|]. cbn [strip_trailing_slashes].
  destruct (Ascii.eqb c "/") eqn:E; [exact IH|exact E].
Qed.

Lemma is_empty_string_of_list l :
  is_empty (string_of_list_ascii l) = match l with [] => true | _ => false end.
Proof. destruct l; reflexivity. Qed.

Lemma filepath_Base_not_empty path : is_empty (filepath_Base path) = false.
Proof.
  unfold filepath_Base. destruct (is_empty path); [reflexivity|].
  pose proof (strip_trailing_slashes_head (rev (list_ascii_of_string path))) as H.
  destruct (strip_trailing_slashes _) as [|c r]; [reflexivity|].
  rewrite is_empty_string_of_list. cbn [take_until_slash]. rewrite H.
  cbn [rev]. destruct (rev (take_until_slash r)); reflexivity.
Qed.

(** X4. The default application name is never empty: it is unknown when
    os.Args is empty or starts with the empty string, and otherwise the base
    name of os.Args[0], which filepath.Base never leaves empty.  So a config
    resolved without a WithAppName option has a non-empty appName, whether
    it comes from TRIAGE_APP_NAME or from the default. *)
Theorem default_app_name_not_empty (os : OS) :
  is_empty (defaultAppName os) = false
  /\ (os_Args os = [] -> defaultAppName os = "unknown")
  /\ (forall rest, os_Args os = "" :: rest -> defaultAppName os = "unknown")
  /\ (forall opts cfg,
        resolveConfig os opts = inl cfg ->
        last_some Option_appName opts = None ->
        is_empty (appName cfg) = false).
Proof.
  split; [|split; [|split]].
  - unfold defaultAppName. destruct (os_Args os) as [|a0 ?]; [reflexivity|].
    destruct (is_empty a0); [reflexivity|apply filepath_Base_not_empty].
  - intros E. unfold defaultAppName. rewrite E. reflexivity.
  - intros rest E. unfold defaultAppName. rewrite E. reflexivity.
  - intros opts cfg. rewrite resolveConfig_fold. cbv zeta.
    destruct (is_empty (apiKey _)); [discriminate|]. intros [= <-] N.
    rewrite (proj1 (proj2 (proj2 (resolved_fields os opts)))), N.
    unfold env_text, layered.
    destruct (is_empty (Getenv (os_environ os) EnvAppName)) eqn:G; [|exact G].
    unfold defaultAppName. destruct (os_Args os) as [|a0 ?]; [reflexivity|].
    destruct (is_empty a0); [reflexivity|apply filepath_Base_not_empty].
Qed.
(** ** sdk.go: Init and Shutdown *)

Lemma Init_succeeds opts st cfg :
  initialized (sdk st) = false ->
  resolveConfig (os (world st)) opts = inl cfg ->
  enabled cfg = true ->
  exporter_New_err (world st) = None ->
  resource_Merge_err (world st) = None ->
  Init opts st
  = Done (shutdown, None)
      (add_log LevelInfo "triage: SDK initialized"
         (set_sdk {| initialized := true; provider := Some (tp_built (otel st));
                     activeConfig := Some cfg; globalCfg := globalCfg (sdk st) |}
            (set_otel {| global_tp := Some (tp_built (otel st));
                         tp_built := S (tp_built (otel st));
                         tp_down := tp_down (otel st); spans := spans (otel st) |} st))).
Proof.
  intros I R E X M. unfold Init. rewrite I, R, E, X, M. reflexivity.
Qed.

Lemma Shutdown_live st tp :
  initialized (sdk st) = true -> provider (sdk st) = Some tp ->
  Shutdown st
  = Done (provider_Shutdown_err (world st))
      (set_sdk {| initialized := false; provider := None; activeConfig := None;
                  globalCfg := globalCfg (sdk st) |}
         (set_otel {| global_tp := global_tp (otel st); tp_built := tp_built (otel st);
                      tp_down := tp :: tp_down (otel st); spans := spans (otel st) |} st)).
Proof. intros I P. unfold Shutdown. rewrite I, P. reflexivity. Qed.

Lemma call_ShutdownFunc_live st tp :
  initialized (sdk st) = true -> provider (sdk st) = Some tp ->
  exists st',
    call_ShutdownFunc shutdown st = Done tt st'
    /\ world st' = world st
    /\ sdk st' = {| initialized := false; provider := None; activeConfig := None;
                    globalCfg := globalCfg (sdk st) |}
    /\ otel st' = {| global_tp := global_tp (otel st); tp_built := tp_built (otel st);
                     tp_down := tp :: tp_down (otel st); spans := spans (otel st) |}
    /\ slog st' = slog st ++ match provider_Shutdown_err (world st) with
                             | Some _ => [(LevelError, "triage: shutdown error")]
                             | None => []
                             end.
Proof.
  intros I P. unfold call_ShutdownFunc, bind. rewrite (Shutdown_live st tp I P).
  destruct (provider_Shutdown_err (world st)); eexists;
    (split; [reflexivity|]); repeat split.
  cbn. rewrite app_nil_r. reflexivity.
Qed.

Lemma not_down tp l :
  Forall (fun d => (d < tp)%nat) l -> existsb (Nat.eqb tp) l = false.
Proof.
  induction 1 as [|d l H _ IH]; [reflexivity|]. cbn [existsb]. rewrite IH.
  destruct (Nat.eqb_spec tp d); [lia|reflexivity].
Qed.

(** X5. A first Init with a resolved, enabled config, in a process where the
    exporter and the resource can be built, registers a new provider: the
    package is initialized with that config, spans are recorded from then on,
    no span is touched, and shouldTraceContent reports the config's
    traceContent.  The function Init returned undoes it: the package is no
    longer initialized, nothing is recorded any more and content tracing is
    back to its default; Init can then be called again and registers another
    provider. *)
Theorem init_registers_provider (opts : list Option_) (st : State) (cfg : config) :
  initialized (sdk st) = false ->
  resolveConfig (os (world st)) opts = inl cfg ->
  enabled cfg = true ->
  exporter_New_err (world st) = None ->
  resource_Merge_err (world st) = None ->
  Forall (fun tp => (tp < tp_built (otel st))%nat) (tp_down (otel st)) ->
  exists st1,
    Init opts st = Done (shutdown, None) st1
    /\ initialized (sdk st1) = true
    /\ activeConfig (sdk st1) = Some cfg
    /\ provider (sdk st1) = global_tp (otel st1)
    /\ tracing st1 = true
    /\ spans (otel st1) = spans (otel st)
    /\ no_op LlmGenAI.shouldTraceContent st1 (traceContent cfg)
    /\ exists st2,
         call_ShutdownFunc shutdown st1 = Done tt st2
         /\ initialized (sdk st2) = false
         /\ activeConfig (sdk st2) = None
         /\ tracing st2 = false
         /\ spans (otel st2) = spans (otel st)
         /\ no_op LlmGenAI.shouldTraceContent st2 true
         /\ exists st3,
              Init opts st2 = Done (shutdown, None) st3
              /\ initialized (sdk st3) = true
              /\ activeConfig (sdk st3) = Some cfg
              /\ tracing st3 = true
              /\ provider (sdk st3) <> provider (sdk st1).
Proof.
  intros I R E X M D. eexists. split; [apply (Init_succeeds opts st cfg); assumption|].
  split; [reflexivity|]. split; [reflexivity|]. split; [reflexivity|].
  split. { unfold tracing. cbn. rewrite (not_down _ _ D). reflexivity. }
  split; [reflexivity|]. split; [reflexivity|].
  match goal with
  | |- exists st2, call_ShutdownFunc shutdown ?s1 = _ /\ _ =>
      destruct (call_ShutdownFunc_live s1 (tp_built (otel st)) eq_refl eq_refl)
        as (st2' & S2 & W2 & K2 & O2 & _)
  end.
  cbn in W2, K2, O2. exists st2'.
  split; [exact S2|]. split; [rewrite K2; reflexivity|].
  split; [rewrite K2; reflexivity|].
  split. { unfold tracing. rewrite O2. cbn. rewrite Nat.eqb_refl. reflexivity. }
  split; [rewrite O2; reflexivity|].
  split. { unfold no_op, LlmGenAI.shouldTraceContent. rewrite K2. reflexivity. }
  eexists. split.
  { apply (Init_succeeds opts _ cfg).
    - rewrite K2. reflexivity.
    - rewrite W2. exact R.
    - exact E.
    - rewrite W2. exact X.
    - rewrite W2. exact M. }
  split; [reflexivity|]. split; [reflexivity|]. split.
  - unfold tracing.
    cbn [otel add_log set_sdk set_otel global_tp tp_down tp_built].
    rewrite O2. cbn [tp_built tp_down existsb].
    rewrite (not_down (S (tp_built (otel st))) (tp_down (otel st))).
    + replace (S (tp_built (otel st)) =? tp_built (otel st))%nat with false
        by (symmetry; apply Nat.eqb_neq; lia).
      reflexivity.
    + eapply Forall_impl; [exact D|]. cbn. intros; lia.
  - cbn [sdk add_log set_sdk set_otel provider]. rewrite O2. cbn [tp_built].
    intros [= H]. lia.
Qed.

Lemma init_registers_provider_witness :
  exists st1,
    Init [WithAPIKey "tsk_test"; WithTraceContent false] (fresh plain_world)
    = Done (shutdown, None) st1
    /\ initialized (sdk st1) = true
    /\ tracing st1 = true.
Proof.
  destruct (init_registers_provider [WithAPIKey "tsk_test"; WithTraceContent false]
              (fresh plain_world)
              {| apiKey := "tsk_test"; endpoint := DefaultEndpoint; appName := "agent";
                 environment := "development"; enabled := true;
                 traceContent := false |}
              eq_refl eq_refl eq_refl eq_refl eq_refl (List.Forall_nil _))
    as (st1 & H1 & H2 & _ & _ & H3 & _).
  exists st1. repeat split; assumption.
Defined.

(** X6. An Init that returns an error has done nothing: the state is the one
    before, no provider was built or registered, nothing was logged, and the
    function returned is the no-op.  The error is that of the missing API
    key, which is reported before the enabled flag is looked at (so also when
    the options or the environment disable the SDK), or else that of the
    exporter, or else that of the resource. *)
Theorem init_error_changes_nothing (opts : list Option_) (st : State) :
  (forall f err st',
      Init opts st = Done (f, Some err) st' ->
      st' = st /\ f = noop /\ initialized (sdk st) = false
      /\ (resolveConfig (os (world st)) opts = inr err
          \/ exists cfg e,
               resolveConfig (os (world st)) opts = inl cfg
               /\ enabled cfg = true
               /\ ((exporter_New_err (world st) = Some e
                    /\ err = "triage: failed to create OTLP exporter: " +:+ e)
                   \/ (exporter_New_err (world st) = None
                       /\ resource_Merge_err (world st) = Some e
                       /\ err = "triage: failed to create resource: " +:+ e))))
  /\ (initialized (sdk st) = false ->
      layered (last_some Option_apiKey opts) (env_text (os (world st)) EnvAPIKey) "" = "" ->
      exists err,
        Init opts st = Done (noop, Some err) st
        /\ Init (opts ++ [WithEnabled false]) st = Done (noop, Some err) st)
  /\ (forall cfg e,
        initialized (sdk st) = false ->
        resolveConfig (os (world st)) opts = inl cfg ->
        enabled cfg = true ->
        exporter_New_err (world st) = Some e ->
        Init opts st
        = Done (noop, Some ("triage: failed to create OTLP exporter: " +:+ e)) st)
  /\ (forall cfg e,
        initialized (sdk st) = false ->
        resolveConfig (os (world st)) opts = inl cfg ->
        enabled cfg = true ->
        exporter_New_err (world st) = None ->
        resource_Merge_err (world st) = Some e ->
        Init opts st
        = Done (noop, Some ("triage: failed to create resource: " +:+ e)) st).
Proof.
  split; [|split; [|split]].
  - intros f err st'. unfold Init.
    destruct (initialized (sdk st)); [intros [=]|].
    destruct (resolveConfig _ _) as [cfg|e0] eqn:R.
    + destruct (enabled cfg) eqn:En; cbn [negb]; [|intros [=]].
      destruct (exporter_New_err _) as [e|] eqn:X.
      * intros [= <- <- <-]. repeat split. right. exists cfg, e.
        split; [reflexivity|]. split; [exact En|]. left. split; reflexivity.
      * destruct (resource_Merge_err _) as [e|] eqn:M; [|intros [=]].
        intros [= <- <- <-]. repeat split. right. exists cfg, e.
        split; [reflexivity|]. split; [exact En|]. right. repeat split.
    + intros [= <- <- <-]. repeat split. left. reflexivity.
  - intros I L.
    assert (L' : layered (last_some Option_apiKey (opts ++ [WithEnabled false]))
                   (env_text (os (world st)) EnvAPIKey) "" = "").
    { replace (last_some Option_apiKey (opts ++ [WithEnabled false]))
        with (last_some Option_apiKey opts); [exact L|].
      clear. induction opts as [|a l IH]; [reflexivity|]. cbn [app last_some].
      rewrite <- IH. reflexivity. }
    apply resolveConfig_error_iff in L as [err R].
    apply resolveConfig_error_iff in L' as [err' R'].
    assert (err' = err) as ->.
    { revert R R'. rewrite !resolveConfig_fold. cbv zeta.
      destruct (is_empty _); [|discriminate]. destruct (is_empty _); [|discriminate].
      congruence. }
    exists err. unfold Init. rewrite I, R, R'. split; reflexivity.
  - intros cfg e I R E X. unfold Init. rewrite I, R, E, X. reflexivity.
  - intros cfg e I R E X M. unfold Init. rewrite I, R, E, X, M. reflexivity.
Qed.

(** X7. Shutdown of an initialized package hands back whatever error the
    provider's Shutdown returned, and resets the package in either case:
    not initialized, no provider, no active config; the spans and the log
    are untouched and the provider that was shut down records no further
    span.  The function Init returned does the same and, instead of
    returning the error, logs it. *)
Theorem shutdown_reports_and_resets (st : State) (tp : nat) :
  initialized (sdk st) = true ->
  provider (sdk st) = Some tp ->
  exists st',
    Shutdown st = Done (provider_Shutdown_err (world st)) st'
    /\ initialized (sdk st') = false
    /\ provider (sdk st') = None
    /\ activeConfig (sdk st') = None
    /\ spans (otel st') = spans (otel st)
    /\ slog st' = slog st
    /\ world st' = world st
    /\ global_tp (otel st') = global_tp (otel st)
    /\ (global_tp (otel st) = Some tp -> tracing st' = false)
    /\ exists st'',
         call_ShutdownFunc shutdown st = Done tt st''
         /\ sdk st'' = sdk st' /\ otel st'' = otel st'
         /\ slog st'' = slog st ++ match provider_Shutdown_err (world st) with
                                   | Some _ => [(LevelError, "triage: shutdown error")]
                                   | None => []
                                   end.
Proof.
  intros I P. eexists. split; [apply (Shutdown_live st tp); assumption|].
  repeat (split; [reflexivity|]). split.
  - intros G. unfold tracing. cbn. rewrite G. cbn. rewrite Nat.eqb_refl. reflexivity.
  - destruct (call_ShutdownFunc_live st tp I P) as (st'' & S & _ & K & O & L).
    exists st''. split; [exact S|]. split; [exact K|]. split; [exact O|exact L].
Qed.

Lemma shutdown_reports_and_resets_witness :
  exists st',
    Shutdown (initialized_state true) = Done None st'
    /\ initialized (sdk st') = false
    /\ tracing st' = false.
Proof.
  destruct (shutdown_reports_and_resets (initialized_state true) 0%nat eq_refl eq_refl)
    as (st' & H1 & H2 & _ & _ & _ & _ & _ & _ & H3 & _).
  exists st'. split; [exact H1|]. split; [exact H2|]. apply H3. reflexivity.
Defined.
(** ** context.go: what the helpers write to the current span *)

Lemma appends_IsRecording s id : appends s (span_IsRecording (recordingSpan id)) id [] true.
Proof.
  intros st sp _ H E. unfold span_IsRecording. rewrite H, E, add_attrs_nil, put_span_id;
    [reflexivity|exact H].
Qed.

Lemma IsRecording_closed h st : closed h st -> no_op (span_IsRecording h) st false.
Proof.
  unfold closed, no_op, span_IsRecording. destruct h as [|id]; [reflexivity|].
  destruct (spans (otel st) !! id) as [sp|]; [|reflexivity]. intros ->. reflexivity.
Qed.

Lemma returns_unique {A} (m : M A) a b : returns m a -> returns m b -> a = b.
Proof.
  intros Ha Hb. destruct (Ha (fresh plain_world)) as (s1 & E1 & _).
  destruct (Hb (fresh plain_world)) as (s2 & E2 & _). congruence.
Qed.

(** A helper with one required argument and options: the shape the five
    helpers share. *)
Lemma appends_helper s id (k1 : KeyValue) (rest : list KeyValue) (m : M unit)
    (ctx' : Context) :
  appends s m id rest tt ->
  appends s (recording <- span_IsRecording (recordingSpan id) ;;
             when recording (span_SetAttributes (recordingSpan id) [k1] ;;; m) ;;;
             ret ctx') id (k1 :: rest) ctx'.
Proof.
  intros H. eapply appends_eq; [|eapply appends_bind; [apply appends_IsRecording|]].
  2: { cbn [when]. eapply appends_bind; [|apply appends_ret].
       eapply appends_bind; [apply appends_SetAttributes|exact H]. }
  cbn [app]. rewrite app_nil_r. reflexivity.
Qed.

Lemma no_op_helper h (m : M unit) (ctx' : Context) st :
  closed h st ->
  no_op (recording <- span_IsRecording h ;; when recording m ;;; ret ctx') st ctx'.
Proof.
  intros C. eapply no_op_bind; [apply IsRecording_closed, C|]. cbn [when].
  eapply no_op_bind; apply no_op_ret.
Qed.

Lemma appends_text_if s id k v :
  appends s (when (negb (is_empty v))
               (span_SetAttributes (recordingSpan id) [attr_String k v]))
    id (match projected (Text v) with Some w => [(k, w)] | None => [] end) tt.
Proof.
  eapply appends_eq; [|apply appends_when, appends_SetAttributes].
  cbn [projected]. destruct (is_empty v); reflexivity.
Qed.

(** What each helper appends to a live current span. *)
Lemma call_appends (c : Call) (ctx : Context) (id : nat) s :
  ctx_span ctx = recordingSpan id ->
  exists ctx' kvs,
    appends s (call c ctx) id kvs ctx'
    /\ returns (call c ctx) ctx'
    /\ (forall f, attr_get (key_of f) kvs = writes_now c f (field f (getFromContext ctx')))
    /\ keys (one_of (map key_of all_fields)) kvs
    /\ (length kvs <= 3)%nat.
Proof.
  intros Hs.
  destruct c as [uid opts|tid opts|sid opts|raw opts|tid opts|acls];
    cbn [call]; eexists; eexists.
  - split; [|split; [apply WithUser_returns|]].
    + unfold WithUser, SpanFromContext. rewrite Hs, clone_id.
      apply appends_helper, appends_text_if.
    + set (tc := fold_left _ opts _). split.
      * intros f. unfold getFromContext. cbn [setInContext ctx_triage].
        destruct f; cbn [key_of writes_now field projected];
          destruct (is_empty (userRole tc)); reflexivity.
      * cbn [projected]. destruct (is_empty (userRole tc));
          (split; [repeat (constructor; [reflexivity|]); constructor|simpl; lia]).
  - split; [|split; [apply WithTenant_returns|]].
    + unfold WithTenant, SpanFromContext. rewrite Hs, clone_id.
      apply appends_helper, appends_text_if.
    + set (tc := fold_left _ opts _). split.
      * intros f. unfold getFromContext. cbn [setInContext ctx_triage].
        destruct f; cbn [key_of writes_now field projected];
          destruct (is_empty (tenantName tc)); reflexivity.
      * cbn [projected]. destruct (is_empty (tenantName tc));
          (split; [repeat (constructor; [reflexivity|]); constructor|simpl; lia]).
  - split; [|split; [apply WithSession_returns|]].
    + unfold WithSession, SpanFromContext. rewrite Hs, clone_id.
      apply appends_helper.
      eapply appends_bind; [|apply appends_text_if].
      apply (LlmGenAIFacts.appends_option s id _ (attr_Int AttrSessionTurn)).
    + set (tc := fold_left _ opts _). split.
      * intros f. unfold getFromContext. cbn [setInContext ctx_triage].
        destruct f; cbn [key_of writes_now field projected];
          destruct (sessionTurnNumber tc), (is_empty (sessionHistoryHash tc));
          reflexivity.
      * cbn [projected].
        destruct (sessionTurnNumber tc), (is_empty (sessionHistoryHash tc));
          (split; [repeat (constructor; [reflexivity|]); constructor|simpl; lia]).
  - split; [|split; [apply WithInput_returns|]].
    + unfold WithInput, SpanFromContext. rewrite Hs, clone_id.
      apply appends_helper, appends_text_if.
    + set (tc := fold_left _ opts _). split.
      * intros f. unfold getFromContext. cbn [setInContext ctx_triage].
        destruct f; cbn [key_of writes_now field projected];
          destruct (is_empty (inputSanitized tc)); reflexivity.
      * cbn [projected]. destruct (is_empty (inputSanitized tc));
          (split; [repeat (constructor; [reflexivity|]); constructor|simpl; lia]).
  - split; [|split; [apply WithTemplate_returns|]].
    + unfold WithTemplate, SpanFromContext. rewrite Hs, clone_id.
      apply appends_helper, appends_text_if.
    + set (tc := fold_left _ opts _). split.
      * intros f. unfold getFromContext. cbn [setInContext ctx_triage].
        destruct f; cbn [key_of writes_now field projected];
          destruct (is_empty (templateVersion tc)); reflexivity.
      * cbn [projected]. destruct (is_empty (templateVersion tc));
          (split; [repeat (constructor; [reflexivity|]); constructor|simpl; lia]).
  - split; [|split; [apply WithChunkACLs_returns|]].
    + unfold WithChunkACLs, SpanFromContext. rewrite Hs, clone_id.
      instantiate (1 := match json_Marshal acls with
                        | Some data => [attr_String AttrChunkACLs data]
                        | None => []
                        end).
      destruct (json_Marshal acls) as [data|]; [|apply appends_ret].
      eapply appends_eq; [|eapply appends_bind; [apply appends_IsRecording|]].
      2: { cbn [when]. eapply appends_bind; [apply appends_SetAttributes|apply appends_ret]. }
      reflexivity.
    + split.
      * intros f. unfold getFromContext. cbn [setInContext ctx_triage].
        destruct f; cbn [writes_now key_of]; destruct (json_Marshal acls); reflexivity.
      * destruct (json_Marshal acls);
          (split; [repeat (constructor; [reflexivity|]); constructor|simpl; lia]).
Qed.

Lemma call_closed (c : Call) (ctx ctx' : Context) st :
  returns (call c ctx) ctx' -> closed (ctx_span ctx) st -> no_op (call c ctx) st ctx'.
Proof.
  intros R C. destruct (R st) as (st' & E & _). unfold no_op. rewrite E. f_equal.
  assert (N : exists a, no_op (call c ctx) st a).
  { destruct c as [uid opts|tid opts|sid opts|raw opts|tid opts|acls]; cbn [call];
      eexists.
    - apply no_op_helper, C.
    - apply no_op_helper, C.
    - apply no_op_helper, C.
    - apply no_op_helper, C.
    - apply no_op_helper, C.
    - unfold WithChunkACLs.
      instantiate (1 := setInContext ctx
                          match json_Marshal acls with
                          | Some data => set_chunkACLs data (clone (getFromContext ctx))
                          | None => clone (getFromContext ctx)
                          end).
      destruct (json_Marshal acls); [apply no_op_helper, C|apply no_op_ret]. }
  destruct N as (a & N). unfold no_op in N. congruence.
Qed.

(** X8. A helper called with a context whose current span is recording sets,
    on that span and on no other, the fields of its own group as the
    returned context holds them: its required argument always, even when it
    is the empty string (which the projection would leave out), and its
    optional fields when they are not empty, also when their value was
    inherited from the context rather than passed.  It sets no key of
    another group, and when Marshal fails WithChunkACLs sets nothing.  Of
    what the helper sets, the span takes the new value of a key it already
    holds, and a new key while it holds fewer than 128 attributes: with room
    for three more every field set is on the span afterwards, and a span
    that holds 128 gains no key.  What the helper does not set stays as it
    was.  With no current span, or one that has ended, the helper sets
    nothing at all. *)
Theorem helpers_write_through (c : Call) (ctx : Context) :
  exists ctx',
    returns (call c ctx) ctx'
    /\ (forall st id sp,
          ctx_span ctx = recordingSpan id ->
          spans (otel st) !! id = Some sp ->
          span_ended sp = false ->
          exists kvs,
            call c ctx st = Done ctx' (put_span id (add_attrs kvs sp) st)
            /\ (forall f, attr_get (key_of f) kvs
                          = writes_now c f (field f (getFromContext ctx')))
            /\ keys (one_of (map key_of all_fields)) kvs
            /\ let now := attrs_of id (put_span id (add_attrs kvs sp) st) in
               (forall f v,
                   writes_now c f (field f (getFromContext ctx')) = Some v ->
                   has_key (key_of f) (span_attrs sp) = true
                   \/ (length (span_attrs sp) + 3 <= AttributeCountLimit)%nat ->
                   attr_get (key_of f) now = Some v)
               /\ (forall f,
                     has_key (key_of f) (span_attrs sp) = false ->
                     (AttributeCountLimit <= length (span_attrs sp))%nat ->
                     attr_get (key_of f) now = None)
               /\ (forall f,
                     writes_now c f (field f (getFromContext ctx')) = None ->
                     attr_get (key_of f) now = attr_get (key_of f) (span_attrs sp))
               /\ (forall k,
                     one_of (map key_of all_fields) k = false ->
                     attr_get k now = attr_get k (span_attrs sp)))
    /\ (forall st, closed (ctx_span ctx) st -> no_op (call c ctx) st ctx').
Proof.
  destruct (call_merges c ctx) as (ctx' & R & _). exists ctx'.
  split; [exact R|]. split.
  - intros st id sp Hs H E.
    destruct (call_appends c ctx id (sdk st) Hs) as (ctx1 & kvs & A & R1 & W & K & Len).
    assert (ctx1 = ctx') as -> by (eapply returns_unique; eassumption).
    exists kvs. split; [apply A; auto|]. split; [exact W|]. split; [exact K|].
    cbv zeta. unfold attrs_of. erewrite put_span_lookup by exact H.
    cbn [span_attrs add_attrs]. repeat split.
    + intros f v Hw [Hk|Hroom].
      * apply attr_get_set_attrs_update; [exact Hk|]. rewrite W. exact Hw.
      * rewrite attr_get_set_attrs by lia. rewrite attr_get_app, W, Hw. reflexivity.
    + intros f Hk Hfull. apply attr_get_set_attrs_full; assumption.
    + intros f Hw. apply attr_get_set_attrs_other.
      rewrite has_key_attr_get, W, Hw. reflexivity.
    + intros k Hk. apply attr_get_set_attrs_other.
      rewrite has_key_attr_get, (attr_get_outside _ k _ K Hk). reflexivity.
  - intros st C. apply call_closed; assumption.
Qed.

Lemma helpers_write_through_witness :
  exists ctx' kvs,
    WithUser (on_span 0) "" [] one_open_span
    = Done ctx' (put_span 0 (add_attrs kvs (new_span "request" None)) one_open_span)
    /\ attr_get AttrUserID kvs = Some (STRING "")
    /\ attr_get AttrUserID
         (attrs_of 0 (put_span 0 (add_attrs kvs (new_span "request" None)) one_open_span))
       = Some (STRING "")
    /\ attr_get AttrUserID (getTriageAttrs ctx') = None.
Proof.
  destruct (helpers_write_through (CallWithUser "" []) (on_span 0)) as (ctx' & R & L & _).
  destruct (L one_open_span 0%nat (new_span "request" None) eq_refl eq_refl eq_refl)
    as (kvs & E & W & _ & N & _).
  exists ctx', kvs. split; [exact E|].
  assert (ctx' = setInContext (on_span 0) (set_userID "" zero_triageContext)) as ->.
  { eapply returns_unique; [exact R|]. apply (WithUser_returns (on_span 0) "" []). }
  split; [exact (W FuserID)|]. split; [|reflexivity].
  apply (N FuserID (STRING "")); [reflexivity|].
  right. apply Nat.leb_le. reflexivity.
Defined.

(** A span that holds 128 attributes takes no new key: WithUser, called on
    such a span, leaves it as it was, and returns a context that has the
    user id all the same; a key the span holds is still updated. *)
Example full_span_takes_no_key :
  exists ctx' st',
    WithUser (on_span 0) "u1" [] one_full_span = Done ctx' st'
    /\ length (attrs_of 0 one_full_span) = 128%nat
    /\ attrs_of 0 st' = attrs_of 0 one_full_span
    /\ attr_get AttrUserID (attrs_of 0 st') = None
    /\ attr_get AttrUserID (getTriageAttrs ctx') = Some (STRING "u1")
    /\ attr_get "k7"
         (span_attrs (add_attrs [attr_Int "k7" 1; attr_Int "k128" 1]
                        (first_span one_full_span)))
       = Some (INT64 1)
    /\ attr_get "k128"
         (span_attrs (add_attrs [attr_Int "k7" 1; attr_Int "k128" 1]
                        (first_span one_full_span)))
       = None.
Proof.
  eexists _, _. split; [vm_compute; reflexivity|]. vm_compute. repeat split.
Qed.

(** ** context.go: how the helpers compose *)

Lemma triageContext_ext (a b : triageContext) :
  (forall f, field f a = field f b) -> a = b.
Proof.
  intros H. destruct a, b.
  pose proof (H FuserID) as H1. pose proof (H FuserRole) as H2.
  pose proof (H FtenantID) as H3. pose proof (H FtenantName) as H4.
  pose proof (H FsessionID) as H5. pose proof (H FsessionTurnNumber) as H6.
  pose proof (H FsessionHistoryHash) as H7. pose proof (H FinputRaw) as H8.
  pose proof (H FinputSanitized) as H9. pose proof (H FtemplateID) as H10.
  pose proof (H FtemplateVersion) as H11. pose proof (H FchunkACLs) as H12.
  cbn in H1, H2, H3, H4, H5, H6, H7, H8, H9, H10, H11, H12.
  congruence.
Qed.

(** The context a helper returns: the given one with an annotation record
    of its own. *)
Lemma call_returns (c : Call) (ctx : Context) :
  exists tc,
    returns (call c ctx) (setInContext ctx tc)
    /\ forall f, field f tc = default (field f (getFromContext ctx)) (sets c f).
Proof.
  destruct (call_merges c ctx) as (ctx' & R & W & S & F).
  assert (T : exists tc, ctx' = setInContext ctx tc).
  { destruct c as [uid opts|tid opts|sid opts|raw opts|tid opts|acls]; cbn [call] in R;
      eexists; (eapply returns_unique; [exact R|]).
    - apply WithUser_returns.
    - apply WithTenant_returns.
    - apply WithSession_returns.
    - apply WithInput_returns.
    - apply WithTemplate_returns.
    - apply WithChunkACLs_returns. }
  destruct T as (tc & ->). exists tc. split; [exact R|exact F].
Qed.

(** X9. Two helper calls that set no field in common commute: in either
    order they return the same context, hence the same projection.  And a
    call repeated with the same arguments returns the context the first call
    returned. *)
Theorem helpers_commute (c1 c2 : Call) (ctx : Context) :
  (forall f, sets c1 f = None \/ sets c2 f = None) ->
  exists ctx',
    returns (x <- call c1 ctx ;; call c2 x) ctx'
    /\ returns (x <- call c2 ctx ;; call c1 x) ctx'
    /\ (forall f, field f (getFromContext ctx')
                  = default (default (field f (getFromContext ctx)) (sets c1 f))
                      (sets c2 f))
    /\ exists once,
         returns (call c1 ctx) once
         /\ returns (x <- call c1 ctx ;; call c1 x) once.
Proof.
  intros D.
  destruct (call_returns c1 ctx) as (t1 & R1 & F1).
  destruct (call_returns c2 (setInContext ctx t1)) as (t12 & R12 & F12).
  destruct (call_returns c2 ctx) as (t2 & R2 & F2).
  destruct (call_returns c1 (setInContext ctx t2)) as (t21 & R21 & F21).
  destruct (call_returns c1 (setInContext ctx t1)) as (t11 & R11 & F11).
  assert (E : t21 = t12).
  { apply triageContext_ext. intros f. rewrite F21, F12.
    unfold getFromContext. cbn [setInContext ctx_triage]. rewrite F1, F2.
    destruct (D f) as [-> | ->]; destruct (sets _ f); reflexivity. }
  assert (E1 : t11 = t1).
  { apply triageContext_ext. intros f. rewrite F11.
    unfold getFromContext at 1. cbn [setInContext ctx_triage]. rewrite F1.
    destruct (sets c1 f); reflexivity. }
  exists (setInContext ctx t12). split; [|split; [|split]].
  - eapply returns_bind; [exact R1|exact R12].
  - eapply returns_bind; [exact R2|]. rewrite <- E. exact R21.
  - intros f. unfold getFromContext at 1. cbn [setInContext ctx_triage].
    rewrite F12. unfold getFromContext at 1. cbn [setInContext ctx_triage].
    rewrite F1. reflexivity.
  - exists (setInContext ctx t1). split; [exact R1|].
    eapply returns_bind; [exact R1|]. rewrite <- E1 at 2. exact R11.
Qed.

Lemma helpers_commute_witness :
  exists ctx',
    returns (x <- WithUser Background "u1" [UserRole "admin"] ;;
             WithSession x "s1" [TurnNumber 3]) ctx'
    /\ returns (x <- WithSession Background "s1" [TurnNumber 3] ;;
                WithUser x "u1" [UserRole "admin"]) ctx'.
Proof.
  destruct (helpers_commute (CallWithUser "u1" [UserRole "admin"])
              (CallWithSession "s1" [TurnNumber 3]) Background) as (ctx' & A & B & _).
  - intros []; (left; reflexivity) || (right; reflexivity).
  - exists ctx'. split; [exact A|exact B].
Defined.

(** ** context.go: the order of the projection *)

Lemma sublist_cells (P : Field -> option Value) (fs : list Field) :
  sublist (map fst (concat (map (fun f => match P f with
                                         | Some v => [(key_of f, v)]
                                         | None => []
                                         end) fs)))
    (map key_of fs).
Proof.
  induction fs as [|f fs IH]; [constructor|]. cbn [map concat].
  destruct (P f); cbn [app map fst]; [apply sublist_skip|apply sublist_cons]; exact IH.
Qed.

Lemma length_cells (tc : triageContext) (fs : list Field) :
  length (concat (map (fun f => match projected (field f tc) with
                                | Some v => [(key_of f, v)]
                                | None => []
                                end) fs))
  = length (filter (fun f => present (field f tc) = true) fs).
Proof.
  induction fs as [|f fs IH]; [reflexivity|].
  cbn [map concat]. rewrite length_app, IH, filter_cons, present_projected.
  destruct (projected (field f tc)); destruct (decide _); try discriminate;
    try contradiction; reflexivity.
Qed.

(** X10. getTriageAttrs lists the annotation keys in one fixed order, that
    of the twelve fields (user id and role, tenant id and name, session id,
    turn number and history hash, raw and sanitized input, template id and
    version, chunk ACLs), leaving out the absent ones: no key occurs twice
    and there are at most twelve attributes. *)
Theorem projection_order (ctx : Context) :
  sublist (map fst (getTriageAttrs ctx)) (map key_of all_fields)
  /\ NoDup (map fst (getTriageAttrs ctx))
  /\ (length (getTriageAttrs ctx) <= 12)%nat
  /\ length (getTriageAttrs ctx)
     = length (filter (fun f => present (field f (getFromContext ctx)) = true) all_fields).
Proof.
  assert (S : sublist (map fst (getTriageAttrs ctx)) (map key_of all_fields)).
  { rewrite getTriageAttrs_flat. apply sublist_cells. }
  split; [exact S|]. split; [|split].
  - eapply sublist_NoDup; [|exact S]. apply NoDup_ListNoDup.
    repeat (constructor; [cbn; intuition discriminate|]). constructor.
  - apply sublist_length in S. rewrite !length_map in S. exact S.
  - rewrite getTriageAttrs_flat. apply length_cells.
Qed.
(** ** The calls that start a span *)

Lemma open_tracing (o : Opening) (ctx : Context) (st : State) :
  tracing st = true ->
  let h := recordingSpan (length (spans (otel st))) in
  open o ctx st
  = Done (Some h, opening_context o ctx h)
      (set_spans
         (spans (otel st)
          ++ [add_attrs (getTriageAttrs ctx ++ own_attrs o ctx (sdk st))
                (new_span (opening_name o) (parent_of ctx))]) st).
Proof.
  intros T h. destruct o as [name|k name|params|prompt]; unfold open, bind.
  - rewrite (WorkflowFacts.StartWorkflow_tracing ctx name st T). reflexivity.
  - rewrite (WorkflowFacts.start_tracing k ctx name st T). reflexivity.
  - rewrite (LlmGenAIFacts.genai_LogPrompt_tracing ctx params st T). reflexivity.
  - rewrite (LlmDualFacts.dual_LogPrompt_tracing ctx prompt st T). reflexivity.
Qed.

Lemma open_idle (o : Opening) (ctx : Context) (st : State) :
  tracing st = false ->
  let h := nonRecordingSpan (parent_of ctx) in
  open o ctx st = Done (Some h, opening_context o ctx h) st.
Proof.
  intros T. destruct o as [name|k name|params|prompt]; unfold open, bind.
  - rewrite (WorkflowFacts.StartWorkflow_idle ctx name st T). reflexivity.
  - rewrite (WorkflowFacts.start_idle k ctx name st T). reflexivity.
  - rewrite (LlmGenAIFacts.genai_LogPrompt_idle ctx params st T). reflexivity.
  - rewrite (LlmDualFacts.dual_LogPrompt_idle ctx prompt st T). reflexivity.
Qed.

Lemma keys_one_of_weaken (Q : string -> bool) ks l :
  forallb Q ks = true -> keys (one_of ks) l -> keys Q l.
Proof.
  intros F. apply keys_weaken. intros k H. unfold one_of in H.
  apply existsb_exists in H as (k' & I & E). apply String.eqb_eq in E. subst k'.
  rewrite forallb_forall in F. apply F, I.
Qed.

Lemma keys_prefix_weaken p q l :
  has_prefix p q = false -> has_prefix q p = false ->
  keys (has_prefix p) l -> keys (fun k => negb (has_prefix q k)) l.
Proof.
  intros H1 H2. apply keys_weaken. intros k H.
  rewrite (has_prefix_apart p q k H1 H2 H). reflexivity.
Qed.

Lemma keys_kind_attrs k name wf :
  keys (fun k => negb (has_prefix "triage." k)) (kind_attrs k name wf).
Proof.
  unfold kind_attrs. destruct k, (is_empty wf);
    repeat (constructor; [reflexivity|]); constructor.
Qed.

(** No call that starts a span sets an annotation key itself. *)
Lemma keys_own_attrs o ctx s :
  keys (fun k => negb (has_prefix "triage." k)) (own_attrs o ctx s).
Proof.
  destruct o as [name|k name|params|prompt]; cbn [own_attrs].
  - repeat (constructor; [reflexivity|]). constructor.
  - apply keys_kind_attrs.
  - unfold LlmGenAIAttrs.promptAttrs. apply keys_app.
    + eapply keys_one_of_weaken; [|apply LlmGenAIKeys.keys_requestAttrs]. reflexivity.
    + apply keys_if; [|apply keys_nil]. apply keys_app.
      * eapply keys_prefix_weaken; [| |apply LlmGenAIKeys.keys_messageAttrs]; reflexivity.
      * eapply keys_prefix_weaken; [| |apply LlmGenAIKeys.keys_toolDefinitionAttrs];
          reflexivity.
  - rewrite LlmDualKeys.promptAttrs_parts.
    apply keys_app; [|apply keys_app; [|apply keys_app]].
    + eapply keys_one_of_weaken; [|apply LlmDualKeys.keys_headAttrs]. reflexivity.
    + eapply keys_one_of_weaken; [|apply LlmDualKeys.keys_optionAttrs]. reflexivity.
    + apply keys_if; [|apply keys_nil].
      eapply keys_prefix_weaken; [| |apply LlmDualKeys.keys_promptMessageAttrs];
        reflexivity.
    + eapply keys_prefix_weaken; [| |apply LlmDualKeys.keys_toolDefAttrs]; reflexivity.
Qed.

Lemma key_of_prefix f : has_prefix "triage." (key_of f) = true.
Proof. destruct f; reflexivity. Qed.

Lemma attr_get_annotation k ctx l :
  keys (fun k => negb (has_prefix "triage." k)) l ->
  has_prefix "triage." k = true ->
  attr_get k (getTriageAttrs ctx ++ l) = attr_get k (getTriageAttrs ctx).
Proof.
  intros K H. rewrite attr_get_app.
  rewrite (attr_get_outside _ k _ K) by (rewrite H; reflexivity). reflexivity.
Qed.

(** On a new span the annotation keys show the projection: it is set first
    and is twelve attributes at most. *)
Lemma attr_get_kept_annotation k ctx l :
  keys (fun k => negb (has_prefix "triage." k)) l ->
  has_prefix "triage." k = true ->
  attr_get k (set_attrs [] (getTriageAttrs ctx ++ l)) = attr_get k (getTriageAttrs ctx).
Proof.
  intros K H. rewrite attr_get_kept_early.
  - apply attr_get_annotation; assumption.
  - pose proof (length_getTriageAttrs ctx). unfold AttributeCountLimit. lia.
  - apply (has_key_outside _ k _ K). rewrite H. reflexivity.
Qed.

(** X11. The bridge from the context to the spans: whichever call of the
    package starts a span (StartWorkflow, StartTask, StartAgent, StartTool,
    LogPrompt in either revision), under a live provider the new span carries
    the projection of the context the call was given and no other
    annotation: under every triage.* key the span has what getTriageAttrs
    gives for that context, so for each of the twelve fields the value when
    the field is present and nothing when it is absent.  The context the call
    returns holds the same annotations, so the spans started from it carry
    them too. *)
Theorem context_span_bridge (o : Opening) (ctx : Context) (st : State) :
  tracing st = true ->
  exists h ctx' st' sp,
    open o ctx st = Done (h, ctx') st'
    /\ started st st' h sp
    /\ (forall k, has_prefix "triage." k = true ->
          attr_get k (span_attrs sp) = attr_get k (getTriageAttrs ctx))
    /\ (forall f, attr_get (key_of f) (span_attrs sp)
                  = projected (field f (getFromContext ctx)))
    /\ (forall f, has_key (key_of f) (span_attrs sp)
                  = present (field f (getFromContext ctx)))
    /\ ctx_triage ctx' = ctx_triage ctx
    /\ getTriageAttrs ctx' = getTriageAttrs ctx.
Proof.
  intros T. eexists _, _, _, _. split; [apply open_tracing, T|].
  split; [split; reflexivity|].
  assert (A : forall k, has_prefix "triage." k = true ->
                attr_get k (span_attrs
                              (add_attrs (getTriageAttrs ctx ++ own_attrs o ctx (sdk st))
                                 (new_span (opening_name o) (parent_of ctx))))
                = attr_get k (getTriageAttrs ctx)).
  { intros k H. cbn [span_attrs add_attrs new_span].
    apply attr_get_kept_annotation; [apply keys_own_attrs|exact H]. }
  split; [exact A|]. split; [|split; [|split]].
  - intros f. rewrite A by apply key_of_prefix. apply attr_get_projection.
  - intros f. rewrite has_key_attr_get, A by apply key_of_prefix.
    rewrite attr_get_projection, present_projected. reflexivity.
  - destruct o; reflexivity.
  - destruct o; reflexivity.
Qed.

Lemma context_span_bridge_witness :
  exists h ctx' st' sp,
    open (OpenKind KindTool "search")
      (setInContext Background (set_userID "u1" zero_triageContext))
      (initialized_state true) = Done (h, ctx') st'
    /\ started (initialized_state true) st' h sp
    /\ attr_get AttrUserID (span_attrs sp) = Some (STRING "u1")
    /\ attr_get AttrTenantID (span_attrs sp) = None.
Proof.
  destruct (context_span_bridge (OpenKind KindTool "search")
              (setInContext Background (set_userID "u1" zero_triageContext))
              (initialized_state true) eq_refl)
    as (h & ctx' & st' & sp & E & S & _ & P & _).
  exists h, ctx', st', sp. split; [exact E|]. split; [exact S|].
  split; [exact (P FuserID)|exact (P FtenantID)].
Defined.

(** X12. Nesting: the span a call starts has as its parent the span whose
    span context the given context carries: the current span when that one
    records (ended or not), the span a non-recording current span stands for,
    none when there is neither.  The new span is open and leaves the spans
    already in the store as they were.  The context the call returns has the
    new span as its current span, so a span started from that context, also
    after annotation helpers were applied to it, is a child of the new span;
    and so is a span started from a context that a call made while no
    provider was live returned in between, since the non-recording span of
    that context carries the span context on.  The Context methods return the
    context of the call, and Background for a nil receiver. *)
Theorem span_nesting (o : Opening) (ctx : Context) (st : State) :
  tracing st = true ->
  exists h ctx' st' sp,
    open o ctx st = Done (h, ctx') st'
    /\ started st st' h sp
    /\ span_parent sp = parent_of ctx
    /\ (forall id, ctx_span ctx = recordingSpan id -> span_parent sp = Some id)
    /\ (forall sc, ctx_span ctx = nonRecordingSpan sc -> span_parent sp = sc)
    /\ span_ended sp = false
    /\ ctx_span ctx' = recordingSpan (length (spans (otel st)))
    /\ parent_of ctx' = Some (length (spans (otel st)))
    /\ (forall cs o2 st2,
          tracing st2 = true ->
          exists d h2 ctx2 st3 sp2,
            returns (calls cs ctx') d
            /\ open o2 d st2 = Done (h2, ctx2) st3
            /\ started st2 st3 h2 sp2
            /\ span_parent sp2 = Some (length (spans (otel st))))
    /\ (forall cs o1 st1 o2 st2,
          tracing st1 = false ->
          tracing st2 = true ->
          exists d d1 h2 ctx2 st3 sp2,
            returns (calls cs ctx') d
            /\ no_op (open o1 d) st1
                 (Some (nonRecordingSpan (Some (length (spans (otel st))))), d1)
            /\ open o2 d1 st2 = Done (h2, ctx2) st3
            /\ started st2 st3 h2 sp2
            /\ span_parent sp2 = Some (length (spans (otel st))))
    /\ (forall name w c st1,
          Workflow.StartWorkflow ctx name st = Done (w, c) st1 -> Workflow.Context_ w = c)
    /\ (forall k name w c st1,
          start k ctx name st = Done (w, c) st1 -> Workflow.Context_ w = c)
    /\ (forall prompt ls c st1,
          LlmDual.LogPrompt ctx prompt st = Done (ls, c) st1 ->
          LlmDual.LLMSpan_Context ls = c)
    /\ Workflow.Context_ None = Background
    /\ LlmDual.LLMSpan_Context None = Background
    /\ parent_of Background = None.
Proof.
  intros T. eexists _, _, _, _. split; [apply open_tracing, T|].
  split; [split; reflexivity|]. split; [reflexivity|].
  split.
  { intros id Hs. cbn [span_parent add_attrs new_span].
    unfold parent_of, SpanContextFromContext, SpanFromContext. rewrite Hs. reflexivity. }
  split.
  { intros sc Hs. cbn [span_parent add_attrs new_span].
    unfold parent_of, SpanContextFromContext, SpanFromContext. rewrite Hs. reflexivity. }
  split; [reflexivity|].
  split; [destruct o; reflexivity|].
  split; [destruct o; reflexivity|]. split; [|split; [|split; [|split; [|split]]]].
  - intros cs o2 st2 T2.
    destruct (calls_merge cs
                (opening_context o ctx (recordingSpan (length (spans (otel st))))))
      as (d & R & _ & S & _).
    eexists d, _, _, _, _. split; [exact R|]. split; [apply open_tracing, T2|].
    split; [split; reflexivity|]. cbn [span_parent add_attrs new_span].
    unfold parent_of, SpanContextFromContext, SpanFromContext. rewrite S.
    destruct o; reflexivity.
  - intros cs o1 st1 o2 st2 T1 T2.
    destruct (calls_merge cs
                (opening_context o ctx (recordingSpan (length (spans (otel st))))))
      as (d & R & _ & S & _).
    assert (P : parent_of d = Some (length (spans (otel st)))).
    { unfold parent_of, SpanContextFromContext, SpanFromContext. rewrite S.
      destruct o; reflexivity. }
    eexists d, _, _, _, _, _. split; [exact R|].
    split; [unfold no_op; rewrite (open_idle o1 d st1 T1), P; reflexivity|].
    split; [apply open_tracing, T2|].
    split; [split; reflexivity|]. cbn [span_parent add_attrs new_span].
    destruct o1; reflexivity.
  - intros name w c st1. rewrite (WorkflowFacts.StartWorkflow_tracing ctx name st T).
    intros [= <- <- _]. reflexivity.
  - intros k name w c st1. rewrite (WorkflowFacts.start_tracing k ctx name st T).
    intros [= <- <- _]. reflexivity.
  - intros prompt ls c st1. rewrite (LlmDualFacts.dual_LogPrompt_tracing ctx prompt st T).
    intros [= <- <- _]. reflexivity.
  - repeat split.
Qed.

Lemma span_nesting_witness :
  exists h ctx' st' sp,
    open (OpenWorkflow "pipeline") Background (initialized_state true) = Done (h, ctx') st'
    /\ started (initialized_state true) st' h sp
    /\ span_parent sp = None
    /\ parent_of ctx' = Some 0%nat.
Proof.
  destruct (span_nesting (OpenWorkflow "pipeline") Background (initialized_state true)
              eq_refl)
    as (h & ctx' & st' & sp & E & S & P & _ & _ & _ & _ & C & _).
  exists h, ctx', st', sp. split; [exact E|]. split; [exact S|].
  split; [exact P|exact C].
Defined.

(** A workflow is started under a live provider; the provider is shut down
    and a task is started from the workflow's context: its handle records
    nothing, and its context carries the span context of the workflow span.
    After Init has run again, a task started from that context is a child of
    the workflow span. *)
Example idle_context_keeps_parent :
  exists st1 w ctx1 st2 st3 t ctx2 st4 t2 ctx3 st5 sp,
    Init [WithAPIKey "tsk_test"] (fresh plain_world) = Done (shutdown, None) st1
    /\ Workflow.StartWorkflow Background "session" st1 = Done (Some w, ctx1) st2
    /\ Workflow.span w = Some (recordingSpan 0)
    /\ Shutdown st2 = Done None st3
    /\ tracing st3 = false
    /\ Workflow.StartTask ctx1 "idle" st3 = Done (Some t, ctx2) st3
    /\ Workflow.span t = Some (nonRecordingSpan (Some 0%nat))
    /\ ctx_span ctx2 = nonRecordingSpan (Some 0%nat)
    /\ Init [WithAPIKey "tsk_test"] st3 = Done (shutdown, None) st4
    /\ Workflow.StartTask ctx2 "step" st4 = Done (Some t2, ctx3) st5
    /\ Workflow.span t2 = Some (recordingSpan 1)
    /\ spans (otel st5) !! 1%nat = Some sp
    /\ span_name sp = "step"
    /\ span_parent sp = Some 0%nat.
Proof.
  eexists _, _, _, _, _, _, _, _, _, _, _, _.
  split; [vm_compute; reflexivity|].
  split; [vm_compute; reflexivity|]. split; [reflexivity|].
  split; [vm_compute; reflexivity|]. split; [reflexivity|].
  split; [vm_compute; reflexivity|]. split; [reflexivity|]. split; [reflexivity|].
  split; [vm_compute; reflexivity|].
  split; [vm_compute; reflexivity|]. split; [reflexivity|].
  split; [vm_compute; reflexivity|]. split; reflexivity.
Qed.

(** X13. What tags a hierarchy span: under a live provider StartWorkflow,
    StartTask, StartAgent and StartTool start one span named by their
    argument, with traceloop.span.kind workflow, task, agent or tool and
    traceloop.entity.name the name; StartAgent alone adds llm.agent.name,
    and StartWorkflow stamps its own name as traceloop.workflow.name whatever
    workflow the context came from.  The struct returned keeps the name. *)
Theorem hierarchy_span_tags (ctx : Context) (name : string) (st : State) :
  tracing st = true ->
  (exists w ctx' st' sp,
      Workflow.StartWorkflow ctx name st = Done (Some w, ctx') st'
      /\ started st st' (Workflow.span w) sp
      /\ Workflow.name w = name
      /\ span_name sp = name
      /\ attr_get "traceloop.span.kind" (span_attrs sp) = Some (STRING "workflow")
      /\ attr_get "traceloop.entity.name" (span_attrs sp) = Some (STRING name)
      /\ attr_get "traceloop.workflow.name" (span_attrs sp) = Some (STRING name)
      /\ attr_get "llm.agent.name" (span_attrs sp) = None)
  /\ (forall k,
        exists w ctx' st' sp,
          start k ctx name st = Done (Some w, ctx') st'
          /\ started st st' (Workflow.span w) sp
          /\ Workflow.name w = name
          /\ span_name sp = name
          /\ attr_get "traceloop.span.kind" (span_attrs sp) = Some (STRING (kind_name k))
          /\ attr_get "traceloop.entity.name" (span_attrs sp) = Some (STRING name)
          /\ attr_get "llm.agent.name" (span_attrs sp)
             = match k with KindAgent => Some (STRING name) | _ => None end).
Proof.
  intros T. split.
  - eexists _, _, _, _.
    split; [apply (WorkflowFacts.StartWorkflow_tracing ctx name st T)|].
    split; [split; reflexivity|]. split; [reflexivity|]. split; [reflexivity|].
    cbn [span_attrs add_attrs new_span].
    rewrite !attr_get_kept by (apply fits_projection; simpl; lia).
    rewrite !attr_get_app.
    rewrite !(attr_get_outside _ _ _ (keys_getTriageAttrs ctx)) by reflexivity.
    repeat split.
  - intros k. eexists _, _, _, _.
    split; [apply (WorkflowFacts.start_tracing k ctx name st T)|].
    split; [split; reflexivity|]. split; [reflexivity|]. split; [reflexivity|].
    cbn [span_attrs add_attrs new_span].
    rewrite !attr_get_kept by apply WorkflowFacts.fits_start.
    rewrite !attr_get_app.
    rewrite !(attr_get_outside _ _ _ (keys_getTriageAttrs ctx)) by reflexivity.
    unfold kind_attrs.
    destruct k, (is_empty (Workflow.workflowNameFromContext ctx)); repeat split.
Qed.

Lemma hierarchy_span_tags_witness :
  exists w ctx' st' sp,
    start KindAgent Background "planner" (initialized_state true) = Done (Some w, ctx') st'
    /\ started (initialized_state true) st' (Workflow.span w) sp
    /\ attr_get "traceloop.span.kind" (span_attrs sp) = Some (STRING "agent")
    /\ attr_get "llm.agent.name" (span_attrs sp) = Some (STRING "planner").
Proof.
  destruct (proj2 (hierarchy_span_tags Background "planner" (initialized_state true)
                     eq_refl) KindAgent)
    as (w & ctx' & st' & sp & E & S & _ & _ & K & _ & A).
  exists w, ctx', st', sp. split; [exact E|]. split; [exact S|].
  split; [exact K|exact A].
Defined.
(** ** Without a live provider *)

(** X14. Before Init, after Shutdown, or when Init was skipped because the
    SDK is disabled, no SDK provider is live: every call that starts a span
    then returns a non-nil handle on a span that records nothing and a
    context with the annotations (and, for StartWorkflow, the workflow name)
    of the one given, and the whole life of an LLM call or of a hierarchy span
    (LogPrompt, LogCompletion, SetError, End) returns without a panic and
    leaves the process state exactly as it was. *)
Theorem logging_without_provider (st : State) :
  tracing st = false ->
  (forall o ctx,
      exists ctx',
        no_op (open o ctx) st (Some (nonRecordingSpan (parent_of ctx)), ctx')
        /\ ctx_triage ctx' = ctx_triage ctx
        /\ ctx_span ctx' = nonRecordingSpan (parent_of ctx)
        /\ ctx_workflowName ctx'
           = match o with
             | OpenWorkflow name => Some name
             | _ => ctx_workflowName ctx
             end)
  /\ (forall ctx params completion,
        exists s, no_op (LlmGenAIAttrs.logged ctx params completion) st (Some s))
  /\ (forall ctx prompt completion usage,
        exists ls, no_op (LlmDualAttrs.logged ctx prompt completion usage) st (Some ls))
  /\ (forall ctx params msg,
        exists ctx' s,
          no_op (LlmGenAI.LogPrompt ctx params) st (ctx', Some s)
          /\ no_op (LlmGenAI.SetError (Some s) (Some msg)) st tt
          /\ no_op (LlmGenAI.End_ (Some s)) st tt)
  /\ (forall ctx name,
        exists w ctx',
          no_op (Workflow.StartWorkflow ctx name) st (Some w, ctx')
          /\ no_op (Workflow.End_ (Some w)) st tt)
  /\ (forall k ctx name,
        exists w ctx',
          no_op (start k ctx name) st (Some w, ctx')
          /\ no_op (Workflow.End_ (Some w)) st tt).
Proof.
  intros T. split; [|split; [|split; [|split; [|split]]]].
  - intros o ctx. eexists. split; [apply open_idle, T|]. destruct o; repeat split.
  - intros ctx params completion. eexists. unfold LlmGenAIAttrs.logged.
    eapply no_op_bind; [apply LlmGenAIFacts.genai_LogPrompt_idle, T|]. cbn [snd].
    eapply no_op_bind; [|apply no_op_ret].
    apply LlmGenAIFacts.genai_LogCompletion_closed. exact I.
  - intros ctx prompt completion usage. eexists. unfold LlmDualAttrs.logged.
    eapply no_op_bind; [apply LlmDualFacts.dual_LogPrompt_idle, T|]. cbn [fst].
    eapply no_op_bind; [|apply no_op_ret].
    apply LlmDualFacts.dual_LogCompletion_closed. exact I.
  - intros ctx params msg. eexists _, _.
    split; [apply LlmGenAIFacts.genai_LogPrompt_idle, T|]. split; reflexivity.
  - intros ctx name. eexists _, _.
    split; [apply WorkflowFacts.StartWorkflow_idle, T|]. reflexivity.
  - intros k ctx name. eexists _, _.
    split; [apply WorkflowFacts.start_idle, T|]. reflexivity.
Qed.

Lemma logging_without_provider_witness :
  exists s,
    no_op (LlmGenAIAttrs.logged Background GenAIData.hello_prompt
             GenAIData.hello_completion) (fresh plain_world) (Some s).
Proof.
  exact (proj1 (proj2 (logging_without_provider (fresh plain_world) eq_refl))
           Background GenAIData.hello_prompt GenAIData.hello_completion).
Defined.

(** ** llm.go, gen_ai-only revision: a call that fails *)

Lemma update_span_last l sp f st :
  span_ended sp = false ->
  update_span (length l) f (set_spans (l ++ [sp]) st) = set_spans (l ++ [f sp]) st.
Proof.
  intros E. unfold update_span. cbn [otel set_spans set_otel spans].
  rewrite lookup_last, E. unfold put_span. cbn [otel set_spans set_otel spans].
  rewrite insert_last. reflexivity.
Qed.

Lemma keys_promptAttrs_genai trace params :
  keys (fun k => one_of LlmGenAIAttrs.request_keys k
                 || has_prefix "gen_ai.prompt." k
                 || has_prefix "gen_ai.request.tools." k)%bool
    (LlmGenAIAttrs.promptAttrs trace params).
Proof.
  unfold LlmGenAIAttrs.promptAttrs. apply keys_app.
  - eapply keys_weaken; [|apply LlmGenAIKeys.keys_requestAttrs].
    intros k ->. reflexivity.
  - apply keys_if; [|apply keys_nil]. apply keys_app.
    + eapply keys_weaken; [|apply LlmGenAIKeys.keys_messageAttrs].
      intros k H. change ("gen_ai.prompt" +:+ ".") with "gen_ai.prompt." in H.
      rewrite H. apply orb_true_iff. left. apply orb_true_r.
    + eapply keys_weaken; [|apply LlmGenAIKeys.keys_toolDefinitionAttrs].
      intros k ->. apply orb_true_r.
Qed.

Lemma no_prefix_genai_prompt p ctx trace params :
  has_prefix p "triage." = false -> has_prefix "triage." p = false ->
  forallb (fun k => negb (has_prefix p k)) LlmGenAIAttrs.request_keys = true ->
  has_prefix p "gen_ai.prompt." = false -> has_prefix "gen_ai.prompt." p = false ->
  has_prefix p "gen_ai.request.tools." = false ->
  has_prefix "gen_ai.request.tools." p = false ->
  has_key_prefix p (getTriageAttrs ctx ++ LlmGenAIAttrs.promptAttrs trace params) = false.
Proof.
  intros T1 T2 R P1 P2 D1 D2. rewrite has_key_prefix_app. apply orb_false_iff. split.
  - eapply has_key_prefix_apart; [apply keys_getTriageAttrs| |]; assumption.
  - eapply has_key_prefix_outside; [apply keys_promptAttrs_genai|].
    intros k H. apply orb_true_iff in H as [H|H]; [apply orb_true_iff in H as [H|H]|].
    + unfold one_of in H. apply existsb_exists in H as (k' & I & E).
      apply String.eqb_eq in E. subst k'. rewrite forallb_forall in R.
      apply negb_true_iff, R, I.
    + exact (has_prefix_apart _ _ _ P2 P1 H).
    + exact (has_prefix_apart _ _ _ D2 D1 H).
Qed.

(** X15. A gen_ai-only LLM call that fails: under a live provider LogPrompt
    leaves the span open, with no error and no status; SetError with a
    non-nil error records the error and sets the status to Error with the
    error's text, without ending the span and without touching its
    attributes; End then ends the span as it is, so the exported span carries
    the request attributes and no gen_ai.response.*, gen_ai.usage.* or
    gen_ai.completion.* attribute.  SetError with a nil error panics whenever
    the LLMSpan holds a span, recording or not, because it calls err.Error()
    on the nil interface. *)
Theorem llm_error_path (ctx : Context) (params : LlmGenAI.PromptParams.t)
    (msg : string) (st : State) :
  tracing st = true ->
  exists ctx' s st1 sp,
    LlmGenAI.LogPrompt ctx params st = Done (ctx', Some s) st1
    /\ started st st1 (LlmGenAI.span s) sp
    /\ span_ended sp = false /\ span_errors sp = [] /\ span_status sp = None
    /\ (exists st2 sp2,
          LlmGenAI.SetError (Some s) (Some msg) st1 = Done tt st2
          /\ started st st2 (LlmGenAI.span s) sp2
          /\ span_errors sp2 = [msg]
          /\ span_status sp2 = Some msg
          /\ span_ended sp2 = false
          /\ span_attrs sp2 = span_attrs sp
          /\ exists st3 sp3,
               LlmGenAI.End_ (Some s) st2 = Done tt st3
               /\ started st st3 (LlmGenAI.span s) sp3
               /\ span_ended sp3 = true
               /\ span_errors sp3 = [msg]
               /\ span_status sp3 = Some msg
               /\ span_attrs sp3 = span_attrs sp
               /\ forall late, no_op (LlmGenAI.SetError (Some s) (Some late)) st3 tt)
    /\ has_key_prefix "gen_ai.response." (span_attrs sp) = false
    /\ has_key_prefix "gen_ai.usage." (span_attrs sp) = false
    /\ has_key_prefix "gen_ai.completion." (span_attrs sp) = false
    /\ (forall h st0,
          exists m, LlmGenAI.SetError (Some {| LlmGenAI.span := Some h |}) None st0
                    = Panic m).
Proof.
  intros T. eexists _, _, _, _.
  split; [apply LlmGenAIFacts.genai_LogPrompt_tracing, T|].
  split; [split; reflexivity|]. split; [reflexivity|]. split; [reflexivity|].
  split; [reflexivity|]. split; [|split; [|split; [|split]]].
  - eexists _, _. split.
    { unfold LlmGenAI.SetError, LlmGenAI.deref, bind. cbn [ret LlmGenAI.span].
      unfold span_RecordError, span_SetStatus_Error, modify.
      rewrite update_span_last by reflexivity.
      rewrite update_span_last by reflexivity. reflexivity. }
    split; [split; reflexivity|]. split; [reflexivity|]. split; [reflexivity|].
    split; [reflexivity|]. split; [reflexivity|].
    eexists _, _. split.
    { unfold LlmGenAI.End_, LlmGenAI.deref, bind. cbn [ret LlmGenAI.span].
      rewrite End_last by reflexivity. reflexivity. }
    split; [split; reflexivity|]. split; [reflexivity|]. split; [reflexivity|].
    split; [reflexivity|]. split; [reflexivity|]. intros late.
    unfold LlmGenAI.SetError, LlmGenAI.deref.
    eapply no_op_bind; [apply no_op_ret|]. cbn [LlmGenAI.span].
    assert (C : closed (recordingSpan (length (spans (otel st))))
                  (set_spans
                     (spans (otel st)
                      ++ [end_span
                            (set_status msg
                               (add_error msg
                                  (add_attrs
                                     (getTriageAttrs ctx
                                      ++ LlmGenAIAttrs.promptAttrs
                                           (LlmGenAIAttrs.trace_of (sdk st)) params)
                                     (new_span (LlmGenAI.spanName params)
                                        (parent_of ctx)))))]) st)).
    { cbn [closed otel set_spans set_otel spans]. rewrite lookup_last. reflexivity. }
    eapply no_op_bind; [apply no_op_RecordError, C|apply no_op_SetStatus, C].
  - cbn [span_attrs add_attrs new_span]. apply has_key_prefix_kept.
    apply no_prefix_genai_prompt; reflexivity.
  - cbn [span_attrs add_attrs new_span]. apply has_key_prefix_kept.
    apply no_prefix_genai_prompt; reflexivity.
  - cbn [span_attrs add_attrs new_span]. apply has_key_prefix_kept.
    apply no_prefix_genai_prompt; reflexivity.
  - intros h st0. eexists. unfold LlmGenAI.SetError, LlmGenAI.deref, bind.
    cbn [ret LlmGenAI.span]. destruct h; reflexivity.
Qed.

Lemma llm_error_path_witness :
  exists ctx' s st1 sp,
    LlmGenAI.LogPrompt Background GenAIData.hello_prompt (initialized_state true)
    = Done (ctx', Some s) st1
    /\ started (initialized_state true) st1 (LlmGenAI.span s) sp
    /\ span_ended sp = false
    /\ has_key_prefix "gen_ai.usage." (span_attrs sp) = false.
Proof.
  destruct (llm_error_path Background GenAIData.hello_prompt "API rate limited"
              (initialized_state true) eq_refl)
    as (ctx' & s & st1 & sp & E & S & O & _ & _ & _ & _ & U & _).
  exists ctx', s, st1, sp. repeat split; try assumption; apply S.
Defined.
(** ** llm.go: the optional parameters of a request *)

Lemma genai_attr_get_request trace ctx params completion k :
  one_of LlmGenAIAttrs.request_keys k = true ->
  attr_get k (LlmGenAIAttrs.exported trace ctx params completion)
  = attr_get k (LlmGenAIAttrs.requestAttrs params).
Proof.
  intros Hk.
  assert (has_prefix "triage." k = false
          /\ has_prefix "gen_ai." k = true
          /\ has_prefix "gen_ai.prompt." k = false
          /\ has_prefix "gen_ai.request.tools." k = false
          /\ has_prefix "gen_ai.completion." k = false
          /\ one_of LlmGenAIAttrs.response_keys k = false
          /\ one_of LlmGenAIAttrs.usage_keys k = false) as (H1&H2&H3&H4&H5&H6&H7).
  { unfold one_of, LlmGenAIAttrs.request_keys in Hk. cbn [existsb] in Hk.
    rewrite orb_false_r in Hk.
    repeat (apply orb_true_iff in Hk as [Hk|Hk];
            [apply String.eqb_eq in Hk as ->; repeat split; reflexivity|]).
    apply String.eqb_eq in Hk as ->; repeat split; reflexivity. }
  rewrite (LlmGenAIKeys.genai_attr_get_fixed trace ctx params completion k H1 H2 H3 H4 H5 H6).
  rewrite (attr_get_outside _ k _ (LlmGenAIKeys.genai_keys_usageAttrs _) H7).
  reflexivity.
Qed.

Lemma genai_attr_get_response trace ctx params completion k :
  one_of LlmGenAIAttrs.response_keys k = true ->
  attr_get k (LlmGenAIAttrs.exported trace ctx params completion)
  = attr_get k (LlmGenAIAttrs.responseAttrs completion).
Proof.
  intros Hk.
  assert (has_prefix "triage." k = false
          /\ one_of LlmGenAIAttrs.request_keys k = false
          /\ has_prefix "gen_ai.prompt." k = false
          /\ has_prefix "gen_ai.request.tools." k = false
          /\ has_prefix "gen_ai.completion." k = false
          /\ one_of LlmGenAIAttrs.usage_keys k = false) as (H1&H2&H3&H4&H5&H7).
  { unfold one_of, LlmGenAIAttrs.response_keys in Hk. cbn [existsb] in Hk.
    rewrite orb_false_r in Hk.
    apply orb_true_iff in Hk as [Hk|Hk];
      apply String.eqb_eq in Hk as ->; repeat split; reflexivity. }
  rewrite LlmGenAIKeys.genai_exported_parts, !attr_get_app.
  rewrite (attr_get_outside _ k _
             (keys_if _ trace _ _ (LlmGenAIKeys.keys_messageAttrs "gen_ai.completion" _)
                (keys_nil _)) H5).
  rewrite (attr_get_outside _ k _ (LlmGenAIKeys.genai_keys_usageAttrs _) H7).
  assert (attr_get k
            (if trace
             then LlmGenAIAttrs.messageAttrs "gen_ai.prompt"
                    (LlmGenAI.PromptParams.Messages params)
                  ++ LlmGenAIAttrs.toolDefinitionAttrs (LlmGenAI.PromptParams.Tools params)
             else []) = None) as ->.
  { destruct trace; [|reflexivity]. rewrite attr_get_app.
    rewrite (attr_get_outside _ k _ (LlmGenAIKeys.keys_toolDefinitionAttrs _) H4).
    rewrite (attr_get_outside _ k _ (LlmGenAIKeys.keys_messageAttrs "gen_ai.prompt" _) H3).
    reflexivity. }
  rewrite (attr_get_outside _ k _ (LlmGenAIKeys.keys_requestAttrs params) H2).
  rewrite (attr_get_outside _ k _ (keys_getTriageAttrs ctx) H1).
  destruct (attr_get k (LlmGenAIAttrs.responseAttrs completion)); reflexivity.
Qed.

Lemma dual_attr_get_option trace ctx prompt completion usage k :
  one_of LlmDualAttrs.option_keys k = true ->
  attr_get k (LlmDualAttrs.exported trace ctx prompt completion usage)
  = attr_get k (LlmDualAttrs.optionAttrs prompt).
Proof.
  intros Hk.
  assert (has_prefix "gen_ai.completion." k = false
          /\ one_of LlmDualAttrs.usage_keys k = false
          /\ one_of LlmDualAttrs.response_keys k = false
          /\ has_prefix "gen_ai.request.tool." k = false
          /\ has_prefix "gen_ai.prompt." k = false
          /\ one_of LlmDualAttrs.head_keys k = false
          /\ has_prefix "triage." k = false) as (H1&H2&H3&H4&H5&H6&H7).
  { unfold one_of, LlmDualAttrs.option_keys in Hk. cbn [existsb] in Hk.
    rewrite orb_false_r in Hk.
    repeat (apply orb_true_iff in Hk as [Hk|Hk];
            [apply String.eqb_eq in Hk as ->; repeat split; reflexivity|]).
    apply String.eqb_eq in Hk as ->; repeat split; reflexivity. }
  rewrite LlmDualLookups.dual_exported_parts, !attr_get_app.
  rewrite (attr_get_outside _ k _
             (keys_if _ trace _ _ (LlmDualKeys.keys_completionMessageAttrs _)
                (keys_nil _)) H1).
  rewrite (attr_get_outside _ k _ (LlmDualKeys.dual_keys_usageAttrs usage) H2).
  rewrite (attr_get_outside _ k _ (LlmDualKeys.keys_responseAttrs completion) H3).
  rewrite (attr_get_outside _ k _ (LlmDualKeys.keys_toolDefAttrs _) H4).
  rewrite (attr_get_outside _ k _
             (keys_if _ trace _ _ (LlmDualKeys.keys_promptMessageAttrs _) (keys_nil _)) H5).
  rewrite (attr_get_outside _ k _ (LlmDualKeys.keys_headAttrs prompt) H6).
  rewrite (attr_get_outside _ k _ (keys_getTriageAttrs ctx) H7).
  destruct (attr_get k (LlmDualAttrs.optionAttrs prompt)); reflexivity.
Qed.

(** X16. The optional parameters of a request, on the span an LLM call
    leaves.  They are set before the messages, so the span always has room
    for them.  In the gen_ai-only revision temperature, top_p and max_tokens
    are pointers: each is recorded exactly when it is not nil, a zero
    included; the stop sequences are recorded when there is at least one.  In
    the dual-schema revision temperature, top_p, frequency_penalty and
    presence_penalty are pointers recorded when not nil, whereas MaxTokens is
    a plain int recorded only when it is greater than zero.  Of the
    completion, the gen_ai-only revision records the response model and the
    finish reason when they are not empty and the span, which keeps 128
    attributes, has room for all that the call sets. *)
Theorem request_parameters (st : State) (ctx : Context) :
  tracing st = true ->
  (forall params completion,
      exists kvs,
        LlmGenAI_records st ctx params completion kvs
        /\ attr_get AttrGenAIRequestTemperature kvs
           = option_map FLOAT64 (LlmGenAI.PromptParams.Temperature params)
        /\ attr_get AttrGenAIRequestTopP kvs
           = option_map FLOAT64 (LlmGenAI.PromptParams.TopP params)
        /\ attr_get AttrGenAIRequestMaxTokens kvs
           = option_map INT64 (LlmGenAI.PromptParams.MaxTokens params)
        /\ attr_get AttrGenAIRequestStopSequences kvs
           = match LlmGenAI.PromptParams.Stop params with
             | [] => None
             | stop => Some (STRINGSLICE stop)
             end
        /\ (is_empty (LlmGenAI.CompletionParams.Model completion) = true ->
            attr_get AttrGenAIResponseModel kvs = None)
        /\ (is_empty (LlmGenAI.CompletionParams.FinishReason completion) = true ->
            attr_get AttrGenAIResponseFinishReason kvs = None)
        /\ (fits (LlmGenAIAttrs.exported (LlmGenAIAttrs.trace_of (sdk st)) ctx params
                    completion) ->
            attr_get AttrGenAIResponseModel kvs
            = (if is_empty (LlmGenAI.CompletionParams.Model completion) then None
               else Some (STRING (LlmGenAI.CompletionParams.Model completion)))
            /\ attr_get AttrGenAIResponseFinishReason kvs
               = (if is_empty (LlmGenAI.CompletionParams.FinishReason completion)
                  then None
                  else Some (STRING (LlmGenAI.CompletionParams.FinishReason completion)))))
  /\ (forall prompt completion usage,
        exists kvs,
          LlmDual_records st ctx prompt completion usage kvs
          /\ attr_get "gen_ai.request.max_tokens" kvs
             = (if (0 <? LlmDual.Prompt.MaxTokens prompt)%Z
                then Some (INT64 (LlmDual.Prompt.MaxTokens prompt)) else None)
          /\ attr_get "gen_ai.request.temperature" kvs
             = option_map FLOAT64 (LlmDual.Prompt.Temperature prompt)
          /\ attr_get "gen_ai.request.top_p" kvs
             = option_map FLOAT64 (LlmDual.Prompt.TopP prompt)
          /\ attr_get "gen_ai.request.frequency_penalty" kvs
             = option_map FLOAT64 (LlmDual.Prompt.FrequencyPenalty prompt)
          /\ attr_get "gen_ai.request.presence_penalty" kvs
             = option_map FLOAT64 (LlmDual.Prompt.PresencePenalty prompt)
          /\ attr_get "gen_ai.request.stop_sequences" kvs
             = match LlmDual.Prompt.Stop prompt with
               | [] => None
               | stop => Some (STRINGSLICE stop)
               end).
Proof.
  intros T. split.
  - intros params completion. eexists.
    split; [apply LlmGenAI_records_tracing, T|].
    assert (Resp :
      attr_get AttrGenAIResponseModel
        (LlmGenAIAttrs.exported (LlmGenAIAttrs.trace_of (sdk st)) ctx params completion)
      = (if is_empty (LlmGenAI.CompletionParams.Model completion) then None
         else Some (STRING (LlmGenAI.CompletionParams.Model completion)))
      /\ attr_get AttrGenAIResponseFinishReason
           (LlmGenAIAttrs.exported (LlmGenAIAttrs.trace_of (sdk st)) ctx params completion)
         = (if is_empty (LlmGenAI.CompletionParams.FinishReason completion) then None
            else Some (STRING (LlmGenAI.CompletionParams.FinishReason completion)))).
    { rewrite !genai_attr_get_response by reflexivity.
      unfold LlmGenAIAttrs.responseAttrs, LlmGenAIAttrs.text_attr.
      destruct (is_empty (LlmGenAI.CompletionParams.Model completion)),
               (is_empty (LlmGenAI.CompletionParams.FinishReason completion));
        split; reflexivity. }
    destruct Resp as [Rm Rf].
    split; [|split; [|split; [|split; [|split; [|split]]]]].
    1-4: rewrite LlmGenAIKeys.genai_kept_early by reflexivity;
      rewrite genai_attr_get_request by reflexivity;
      unfold LlmGenAIAttrs.requestAttrs, LlmGenAIAttrs.text_attr;
      destruct (is_empty (LlmGenAI.PromptParams.Vendor params)),
               (is_empty (LlmGenAI.PromptParams.Model params)),
               (LlmGenAI.PromptParams.Temperature params),
               (LlmGenAI.PromptParams.TopP params),
               (LlmGenAI.PromptParams.MaxTokens params),
               (LlmGenAI.PromptParams.Stop params); reflexivity.
    + intros E. apply attr_get_kept_none. rewrite Rm, E. reflexivity.
    + intros E. apply attr_get_kept_none. rewrite Rf, E. reflexivity.
    + intros F. rewrite !(attr_get_kept_fits _ _ F). split; assumption.
  - intros prompt completion usage. eexists.
    split; [apply LlmDual_records_tracing, T|].
    rewrite !LlmDualLookups.dual_kept_early by reflexivity.
    rewrite !dual_attr_get_option by reflexivity.
    unfold LlmDualAttrs.optionAttrs.
    destruct (0 <? LlmDual.Prompt.MaxTokens prompt)%Z,
             (LlmDual.Prompt.Temperature prompt),
             (LlmDual.Prompt.TopP prompt),
             (LlmDual.Prompt.FrequencyPenalty prompt),
             (LlmDual.Prompt.PresencePenalty prompt),
             (LlmDual.Prompt.Stop prompt); repeat split.
Qed.

Lemma request_parameters_witness :
  exists kvs,
    LlmDual_records (initialized_state true) Background (DualData.hello_prompt [])
      DualData.hello_completion DualData.usage_10_5_15 kvs
    /\ attr_get "gen_ai.request.max_tokens" kvs = None
    /\ attr_get "gen_ai.request.temperature" kvs = None.
Proof.
  destruct (proj2 (request_parameters (initialized_state true) Background eq_refl)
              (DualData.hello_prompt []) DualData.hello_completion DualData.usage_10_5_15)
    as (kvs & R & M & Te & _).
  exists kvs. split; [exact R|]. split; [exact M|exact Te].
Defined.
(** ** llm.go: the attributes of the messages *)

(** The key of message [i] under [pre], with the text [s] after the dot,
    and the key of its tool call [j]. *)
Lemma key_message pre i s :
  (pre +:+ "." +:+ itoa i) +:+ String "." s = (pre +:+ ".") +:+ itoa i +:+ String "." s.
Proof. rewrite !append_assoc. reflexivity. Qed.

Lemma key_tool_call p j s :
  (p +:+ ".tool_calls." +:+ itoa j) +:+ String "." s
  = (p +:+ ".tool_calls.") +:+ itoa j +:+ String "." s.
Proof. rewrite !append_assoc. reflexivity. Qed.

Lemma key_message_tool_call pre i j s :
  ((pre +:+ "." +:+ itoa i) +:+ ".tool_calls.") +:+ itoa j +:+ String "." s
  = (pre +:+ ".") +:+ itoa i +:+ String "." ("tool_calls." +:+ itoa j +:+ String "." s).
Proof. rewrite !append_assoc. reflexivity. Qed.

Lemma has_prefix_app_l a s1 s2 : has_prefix (a +:+ s1) (a +:+ s2) = has_prefix s1 s2.
Proof. induction a as [|c a IH]; simpl; [reflexivity|]. rewrite Ascii.eqb_refl. exact IH. Qed.

Lemma Forall_collect_from {A} (P : KeyValue -> Prop) (body : nat -> A -> list KeyValue)
    (xs : list A) :
  (forall i x, Forall P (body i x)) -> forall m, Forall P (collect_from m xs body).
Proof.
  intros H. induction xs as [|x xs IH]; intros m; cbn [collect_from]; [constructor|].
  apply Forall_app_2; [apply H|apply IH].
Qed.

(** Every key of the tool calls of a message starts with the message's
    prefix and ".tool_calls.". *)
Lemma genai_keys_tool_calls p calls :
  keys (has_prefix (p +:+ ".tool_calls.")) (LlmGenAIAttrs.toolCallAttrs p calls).
Proof.
  apply keys_collect_from. intros j tc. cbv zeta.
  assert (H : forall s, has_prefix (p +:+ ".tool_calls.")
                          ((p +:+ ".tool_calls." +:+ itoa j) +:+ s) = true).
  { intros s. rewrite <- (append_assoc p ".tool_calls." (itoa j)).
    apply has_prefix_app_r, has_prefix_app. }
  repeat first [ apply keys_app | apply LlmGenAIKeys.keys_text_attr; apply H ].
Qed.

Lemma dual_keys_tool_calls p calls :
  keys (has_prefix (p +:+ ".tool_calls.")) (LlmDual.toolCallAttrs p calls).
Proof.
  apply keys_collect_from. intros j tc. cbv zeta.
  assert (H : forall s, has_prefix (p +:+ ".tool_calls.")
                          ((p +:+ ".tool_calls." +:+ itoa j) +:+ s) = true).
  { intros s. rewrite <- (append_assoc p ".tool_calls." (itoa j)).
    apply has_prefix_app_r, has_prefix_app. }
  repeat (apply keys_cons; [apply H|]). apply keys_nil.
Qed.

Lemma indexed_tool_call pre i j s :
  indexed (pre +:+ ".") i (((pre +:+ "." +:+ itoa i) +:+ ".tool_calls." +:+ itoa j)
                           +:+ String "." s).
Proof.
  exists ("tool_calls." +:+ itoa j +:+ String "." s).
  rewrite key_tool_call, key_message_tool_call. reflexivity.
Qed.

Lemma indexed_genai_message pre i (msg : LlmGenAI.Message.t) :
  Forall (fun kv => indexed (pre +:+ ".") i (fst kv))
    (let p := pre +:+ "." +:+ itoa i in
     LlmGenAIAttrs.text_attr (p +:+ ".role") (LlmGenAI.Message.Role msg)
     ++ LlmGenAIAttrs.text_attr (p +:+ ".content") (LlmGenAI.Message.Content msg)
     ++ LlmGenAIAttrs.toolCallAttrs p (LlmGenAI.Message.ToolCalls msg)).
Proof.
  cbv zeta. unfold LlmGenAIAttrs.text_attr. repeat apply Forall_app_2.
  - destruct (is_empty _); repeat constructor. exists "role". apply key_message.
  - destruct (is_empty _); repeat constructor. exists "content". apply key_message.
  - apply Forall_collect_from. intros j tc. unfold LlmGenAIAttrs.text_attr.
    repeat apply Forall_app_2; destruct (is_empty _); repeat constructor;
      apply indexed_tool_call.
Qed.

Lemma indexed_dual_tool_calls pre i calls :
  Forall (fun kv => indexed (pre +:+ ".") i (fst kv))
    (LlmDual.toolCallAttrs (pre +:+ "." +:+ itoa i) calls).
Proof.
  apply Forall_collect_from. intros j tc.
  repeat (constructor; [apply indexed_tool_call|]). constructor.
Qed.

Lemma indexed_genai_tool_call p j (tc : LlmGenAI.ToolCall.t) :
  Forall (fun kv => indexed (p +:+ ".tool_calls.") j (fst kv))
    (let tp := p +:+ ".tool_calls." +:+ itoa j in
     LlmGenAIAttrs.text_attr (tp +:+ ".id") (LlmGenAI.ToolCall.ID tc)
     ++ LlmGenAIAttrs.text_attr (tp +:+ ".type") (LlmGenAI.ToolCall.Type_ tc)
     ++ LlmGenAIAttrs.text_attr (tp +:+ ".name") (LlmGenAI.ToolCall.Name tc)
     ++ LlmGenAIAttrs.text_attr (tp +:+ ".arguments") (LlmGenAI.ToolCall.Arguments tc)).
Proof.
  cbv zeta. unfold LlmGenAIAttrs.text_attr.
  repeat apply Forall_app_2; destruct (is_empty _); repeat constructor;
    eexists; apply key_tool_call.
Qed.

Lemma indexed_dual_tool_call p j (tc : LlmDual.ToolCall.t) :
  Forall (fun kv => indexed (p +:+ ".tool_calls.") j (fst kv))
    (let tcPrefix := p +:+ ".tool_calls." +:+ itoa j in
     [ attr_String (tcPrefix +:+ ".id") (LlmDual.ToolCall.ID tc);
       attr_String (tcPrefix +:+ ".type") (LlmDual.ToolCall.Type_ tc);
       attr_String (tcPrefix +:+ ".function.name")
         (LlmDual.ToolCallFunction.Name (LlmDual.ToolCall.Function tc));
       attr_String (tcPrefix +:+ ".function.arguments")
         (LlmDual.ToolCallFunction.Arguments (LlmDual.ToolCall.Function tc)) ]).
Proof.
  cbv zeta. repeat (constructor; [eexists; apply key_tool_call|]). constructor.
Qed.

(** The name of tool call [j], among the tool calls of one message. *)
Lemma genai_tool_call_name p calls j (tc : LlmGenAI.ToolCall.t) :
  calls !! j = Some tc ->
  is_empty (LlmGenAI.ToolCall.Name tc) = false ->
  attr_get ((p +:+ ".tool_calls.") +:+ itoa j +:+ String "." "name")
    (LlmGenAIAttrs.toolCallAttrs p calls)
  = Some (STRING (LlmGenAI.ToolCall.Name tc)).
Proof.
  intros Hj Hn. unfold LlmGenAIAttrs.toolCallAttrs.
  eapply attr_get_collect; [apply indexed_genai_tool_call|exact Hj|].
  cbv zeta. rewrite !key_tool_call. unfold LlmGenAIAttrs.text_attr. rewrite Hn.
  destruct (is_empty (LlmGenAI.ToolCall.ID tc)), (is_empty (LlmGenAI.ToolCall.Type_ tc)),
    (is_empty (LlmGenAI.ToolCall.Arguments tc));
    cbn [app attr_get attr_String]; rewrite ?eqb_app_l; reflexivity.
Qed.

Lemma dual_tool_call_name p calls j (tc : LlmDual.ToolCall.t) :
  calls !! j = Some tc ->
  attr_get ((p +:+ ".tool_calls.") +:+ itoa j +:+ String "." "function.name")
    (LlmDual.toolCallAttrs p calls)
  = Some (STRING (LlmDual.ToolCallFunction.Name (LlmDual.ToolCall.Function tc))).
Proof.
  intros Hj. unfold LlmDual.toolCallAttrs.
  eapply attr_get_collect; [apply indexed_dual_tool_call|exact Hj|].
  cbv zeta. rewrite !key_tool_call.
  cbn [app attr_get attr_String]. rewrite ?eqb_app_l. reflexivity.
Qed.

(** The role, the content and the tool-call names of message [i], among the
    attributes of a slice of messages (gen_ai-only revision). *)
Lemma genai_message_lookup pre msgs i (msg : LlmGenAI.Message.t) :
  msgs !! i = Some msg ->
  (is_empty (LlmGenAI.Message.Role msg) = false ->
   attr_get ((pre +:+ ".") +:+ itoa i +:+ String "." "role")
     (LlmGenAIAttrs.messageAttrs pre msgs)
   = Some (STRING (LlmGenAI.Message.Role msg)))
  /\ (is_empty (LlmGenAI.Message.Content msg) = false ->
      attr_get ((pre +:+ ".") +:+ itoa i +:+ String "." "content")
        (LlmGenAIAttrs.messageAttrs pre msgs)
      = Some (STRING (LlmGenAI.Message.Content msg)))
  /\ (forall j tc,
        LlmGenAI.Message.ToolCalls msg !! j = Some tc ->
        is_empty (LlmGenAI.ToolCall.Name tc) = false ->
        attr_get ((pre +:+ ".") +:+ itoa i
                  +:+ String "." ("tool_calls." +:+ itoa j +:+ String "." "name"))
          (LlmGenAIAttrs.messageAttrs pre msgs)
        = Some (STRING (LlmGenAI.ToolCall.Name tc))).
Proof.
  intros Hi. unfold LlmGenAIAttrs.messageAttrs.
  pose proof (genai_keys_tool_calls (pre +:+ "." +:+ itoa i)
                (LlmGenAI.Message.ToolCalls msg)) as K.
  split; [|split].
  - intros Hr. eapply attr_get_collect; [apply indexed_genai_message|exact Hi|].
    cbv zeta. rewrite <- key_message, !attr_get_app.
    rewrite (attr_get_outside _ _ _ K) by (rewrite has_prefix_app_l; reflexivity).
    unfold LlmGenAIAttrs.text_attr. rewrite Hr.
    destruct (is_empty (LlmGenAI.Message.Content msg));
      cbn [app attr_get attr_String or_else]; rewrite ?eqb_app_l; reflexivity.
  - intros Hc. eapply attr_get_collect; [apply indexed_genai_message|exact Hi|].
    cbv zeta. rewrite <- key_message, !attr_get_app.
    rewrite (attr_get_outside _ _ _ K) by (rewrite has_prefix_app_l; reflexivity).
    unfold LlmGenAIAttrs.text_attr. rewrite Hc.
    destruct (is_empty (LlmGenAI.Message.Role msg));
      cbn [app attr_get attr_String or_else]; rewrite ?eqb_app_l; reflexivity.
  - intros j tc Hj Hn. eapply attr_get_collect; [apply indexed_genai_message|exact Hi|].
    cbv zeta. rewrite <- key_message_tool_call, !attr_get_app.
    rewrite (genai_tool_call_name _ _ j tc Hj Hn). reflexivity.
Qed.

(** The same for the dual-schema revision, whose loops write the role and the
    four attributes of a tool call whatever their value. *)
Lemma indexed_dual_prompt_message i (msg : LlmDual.Message.t) :
  Forall (fun kv => indexed "gen_ai.prompt." i (fst kv))
    (let prefix := "gen_ai.prompt." +:+ itoa i in
     [attr_String (prefix +:+ ".role") (LlmDual.Message.Role msg)]
     ++ (if is_empty (LlmDual.Message.Content msg) then []
         else [attr_String (prefix +:+ ".content") (LlmDual.Message.Content msg)])
     ++ LlmDual.toolCallAttrs prefix (LlmDual.Message.ToolCalls msg)
     ++ (if is_empty (LlmDual.Message.ToolCallID msg) then []
         else [attr_String (prefix +:+ ".tool_call_id")
                 (LlmDual.Message.ToolCallID msg)])).
Proof.
  cbv zeta. repeat apply Forall_app_2.
  - repeat constructor. exists "role". reflexivity.
  - destruct (is_empty _); repeat constructor. exists "content". reflexivity.
  - exact (indexed_dual_tool_calls "gen_ai.prompt" i (LlmDual.Message.ToolCalls msg)).
  - destruct (is_empty _); repeat constructor. exists "tool_call_id". reflexivity.
Qed.

Lemma indexed_dual_completion_message i (msg : LlmDual.Message.t) :
  Forall (fun kv => indexed "gen_ai.completion." i (fst kv))
    (let prefix := "gen_ai.completion." +:+ itoa i in
     [attr_String (prefix +:+ ".role") (LlmDual.Message.Role msg)]
     ++ (if is_empty (LlmDual.Message.Content msg) then []
         else [attr_String (prefix +:+ ".content") (LlmDual.Message.Content msg)])
     ++ LlmDual.toolCallAttrs prefix (LlmDual.Message.ToolCalls msg)).
Proof.
  cbv zeta. repeat apply Forall_app_2.
  - repeat constructor. exists "role". reflexivity.
  - destruct (is_empty _); repeat constructor. exists "content". reflexivity.
  - exact (indexed_dual_tool_calls "gen_ai.completion" i (LlmDual.Message.ToolCalls msg)).
Qed.

Lemma dual_prompt_message_lookup msgs i (msg : LlmDual.Message.t) :
  msgs !! i = Some msg ->
  attr_get ("gen_ai.prompt." +:+ itoa i +:+ String "." "role")
    (LlmDual.promptMessageAttrs msgs)
  = Some (STRING (LlmDual.Message.Role msg))
  /\ (is_empty (LlmDual.Message.Content msg) = false ->
      attr_get ("gen_ai.prompt." +:+ itoa i +:+ String "." "content")
        (LlmDual.promptMessageAttrs msgs)
      = Some (STRING (LlmDual.Message.Content msg)))
  /\ (is_empty (LlmDual.Message.ToolCallID msg) = false ->
      attr_get ("gen_ai.prompt." +:+ itoa i +:+ String "." "tool_call_id")
        (LlmDual.promptMessageAttrs msgs)
      = Some (STRING (LlmDual.Message.ToolCallID msg)))
  /\ (forall j tc,
        LlmDual.Message.ToolCalls msg !! j = Some tc ->
        attr_get ("gen_ai.prompt." +:+ itoa i
                  +:+ String "." ("tool_calls." +:+ itoa j +:+ String "." "function.name"))
          (LlmDual.promptMessageAttrs msgs)
        = Some (STRING (LlmDual.ToolCallFunction.Name (LlmDual.ToolCall.Function tc)))).
Proof.
  intros Hi. unfold LlmDual.promptMessageAttrs.
  pose proof (dual_keys_tool_calls ("gen_ai.prompt" +:+ "." +:+ itoa i)
                (LlmDual.Message.ToolCalls msg)) as K.
  change ("gen_ai.prompt" +:+ "." +:+ itoa i) with ("gen_ai.prompt." +:+ itoa i) in K.
  assert (N : forall s, "gen_ai.prompt." +:+ itoa i +:+ String "." s
                        = ("gen_ai.prompt." +:+ itoa i) +:+ String "." s).
  { intros s. exact (eq_sym (key_message "gen_ai.prompt" i s)). }
  split; [|split; [|split]].
  - eapply attr_get_collect; [apply indexed_dual_prompt_message|exact Hi|].
    cbv zeta. rewrite N, !attr_get_app.
    rewrite (attr_get_outside _ _ _ K) by (rewrite has_prefix_app_l; reflexivity).
    destruct (is_empty (LlmDual.Message.Content msg)),
      (is_empty (LlmDual.Message.ToolCallID msg));
      cbn [app attr_get attr_String or_else]; rewrite ?eqb_app_l; reflexivity.
  - intros Hc. eapply attr_get_collect; [apply indexed_dual_prompt_message|exact Hi|].
    cbv zeta. rewrite N, !attr_get_app.
    rewrite (attr_get_outside _ _ _ K) by (rewrite has_prefix_app_l; reflexivity).
    rewrite Hc. destruct (is_empty (LlmDual.Message.ToolCallID msg));
      cbn [app attr_get attr_String or_else]; rewrite ?eqb_app_l; reflexivity.
  - intros Ht. eapply attr_get_collect; [apply indexed_dual_prompt_message|exact Hi|].
    cbv zeta. rewrite N, !attr_get_app. rewrite Ht.
    cbn [app attr_get attr_String or_else]. rewrite ?eqb_app_l. reflexivity.
  - intros j tc Hj. eapply attr_get_collect; [apply indexed_dual_prompt_message|exact Hi|].
    cbv zeta.
    replace ("gen_ai.prompt." +:+ itoa i
             +:+ String "." ("tool_calls." +:+ itoa j +:+ String "." "function.name"))
      with ((("gen_ai.prompt." +:+ itoa i) +:+ ".tool_calls.") +:+ itoa j
            +:+ String "." "function.name")
      by exact (key_message_tool_call "gen_ai.prompt" i j "function.name").
    rewrite !attr_get_app, (dual_tool_call_name _ _ j tc Hj).
    destruct (is_empty (LlmDual.Message.ToolCallID msg));
      cbn [app attr_get attr_String or_else]; [reflexivity|].
    rewrite append_assoc, eqb_app_l. reflexivity.
Qed.

Lemma dual_completion_message_lookup msgs i (msg : LlmDual.Message.t) :
  msgs !! i = Some msg ->
  attr_get ("gen_ai.completion." +:+ itoa i +:+ String "." "role")
    (LlmDual.completionMessageAttrs msgs)
  = Some (STRING (LlmDual.Message.Role msg))
  /\ (is_empty (LlmDual.Message.Content msg) = false ->
      attr_get ("gen_ai.completion." +:+ itoa i +:+ String "." "content")
        (LlmDual.completionMessageAttrs msgs)
      = Some (STRING (LlmDual.Message.Content msg)))
  /\ (forall j tc,
        LlmDual.Message.ToolCalls msg !! j = Some tc ->
        attr_get ("gen_ai.completion." +:+ itoa i
                  +:+ String "." ("tool_calls." +:+ itoa j +:+ String "." "function.name"))
          (LlmDual.completionMessageAttrs msgs)
        = Some (STRING (LlmDual.ToolCallFunction.Name (LlmDual.ToolCall.Function tc)))).
Proof.
  intros Hi. unfold LlmDual.completionMessageAttrs.
  pose proof (dual_keys_tool_calls ("gen_ai.completion" +:+ "." +:+ itoa i)
                (LlmDual.Message.ToolCalls msg)) as K.
  change ("gen_ai.completion" +:+ "." +:+ itoa i)
    with ("gen_ai.completion." +:+ itoa i) in K.
  assert (N : forall s, "gen_ai.completion." +:+ itoa i +:+ String "." s
                        = ("gen_ai.completion." +:+ itoa i) +:+ String "." s).
  { intros s. exact (eq_sym (key_message "gen_ai.completion" i s)). }
  split; [|split].
  - eapply attr_get_collect; [apply indexed_dual_completion_message|exact Hi|].
    cbv zeta. rewrite N, !attr_get_app.
    rewrite (attr_get_outside _ _ _ K) by (rewrite has_prefix_app_l; reflexivity).
    destruct (is_empty (LlmDual.Message.Content msg));
      cbn [app attr_get attr_String or_else]; rewrite ?eqb_app_l; reflexivity.
  - intros Hc. eapply attr_get_collect; [apply indexed_dual_completion_message|exact Hi|].
    cbv zeta. rewrite N, !attr_get_app.
    rewrite (attr_get_outside _ _ _ K) by (rewrite has_prefix_app_l; reflexivity).
    rewrite Hc. cbn [app attr_get attr_String or_else]. rewrite ?eqb_app_l. reflexivity.
  - intros j tc Hj.
    eapply attr_get_collect; [apply indexed_dual_completion_message|exact Hi|].
    cbv zeta.
    replace ("gen_ai.completion." +:+ itoa i
             +:+ String "." ("tool_calls." +:+ itoa j +:+ String "." "function.name"))
      with ((("gen_ai.completion." +:+ itoa i) +:+ ".tool_calls.") +:+ itoa j
            +:+ String "." "function.name")
      by exact (key_message_tool_call "gen_ai.completion" i j "function.name").
    rewrite !attr_get_app, (dual_tool_call_name _ _ j tc Hj). reflexivity.
Qed.

(** From the messages to the whole span. *)
Lemma genai_prompt_lookup ctx params completion k v :
  has_prefix "gen_ai.request.tools." k = false ->
  one_of LlmGenAIAttrs.response_keys k = false ->
  one_of LlmGenAIAttrs.usage_keys k = false ->
  has_prefix "gen_ai.completion." k = false ->
  attr_get k (LlmGenAIAttrs.messageAttrs "gen_ai.prompt"
                (LlmGenAI.PromptParams.Messages params)) = Some v ->
  attr_get k (LlmGenAIAttrs.exported true ctx params completion) = Some v.
Proof.
  intros H1 H2 H3 H4 Hv. rewrite LlmGenAIKeys.genai_exported_parts, !attr_get_app.
  rewrite (attr_get_outside _ k _ (LlmGenAIKeys.keys_messageAttrs "gen_ai.completion" _) H4).
  rewrite (attr_get_outside _ k _ (LlmGenAIKeys.genai_keys_usageAttrs _) H3).
  rewrite (attr_get_outside _ k _ (LlmGenAIKeys.keys_response completion) H2).
  rewrite (attr_get_outside _ k _ (LlmGenAIKeys.keys_toolDefinitionAttrs _) H1).
  rewrite Hv. reflexivity.
Qed.

Lemma genai_completion_lookup ctx params completion k v :
  attr_get k (LlmGenAIAttrs.messageAttrs "gen_ai.completion"
                (LlmGenAI.CompletionParams.Messages completion)) = Some v ->
  attr_get k (LlmGenAIAttrs.exported true ctx params completion) = Some v.
Proof.
  intros Hv. rewrite LlmGenAIKeys.genai_exported_parts, !attr_get_app, Hv. reflexivity.
Qed.

Lemma dual_prompt_lookup ctx prompt completion usage k v :
  has_prefix "gen_ai.request.tool." k = false ->
  one_of LlmDualAttrs.response_keys k = false ->
  one_of LlmDualAttrs.usage_keys k = false ->
  has_prefix "gen_ai.completion." k = false ->
  attr_get k (LlmDual.promptMessageAttrs (LlmDual.Prompt.Messages prompt)) = Some v ->
  attr_get k (LlmDualAttrs.exported true ctx prompt completion usage) = Some v.
Proof.
  intros H1 H2 H3 H4 Hv. rewrite LlmDualLookups.dual_exported_parts, !attr_get_app.
  rewrite (attr_get_outside _ k _ (LlmDualKeys.keys_completionMessageAttrs _) H4).
  rewrite (attr_get_outside _ k _ (LlmDualKeys.dual_keys_usageAttrs usage) H3).
  rewrite (attr_get_outside _ k _ (LlmDualKeys.keys_responseAttrs completion) H2).
  rewrite (attr_get_outside _ k _ (LlmDualKeys.keys_toolDefAttrs _) H1).
  rewrite Hv. reflexivity.
Qed.

Lemma dual_completion_lookup ctx prompt completion usage k v :
  attr_get k (LlmDual.completionMessageAttrs (LlmDual.Completion.Messages completion))
  = Some v ->
  attr_get k (LlmDualAttrs.exported true ctx prompt completion usage) = Some v.
Proof.
  intros Hv. rewrite LlmDualLookups.dual_exported_parts, !attr_get_app, Hv. reflexivity.
Qed.

(** X17. With content tracing on (no active config, or one whose
    traceContent is true) the span of an LLM call carries its messages, each
    under its index in the slice: gen_ai.prompt.<i>.role and .content for the
    prompt, gen_ai.completion.<i>.role and .content for the completion, and
    the name of tool call <j> of message <i> under .tool_calls.<j>.  The
    gen_ai-only revision writes a role, a content or a tool-call name only
    when it is not empty; the dual-schema revision writes the role and the
    tool call's function name whatever their value, the content and the
    tool_call_id when not empty.  This holds of a call whose attributes all
    fit on the span, which keeps 128 of them: of a longer conversation the
    span keeps the keys set first and drops the rest. *)
Theorem message_attributes (st : State) (ctx : Context) :
  tracing st = true ->
  (forall params completion,
      LlmGenAIAttrs.trace_of (sdk st) = true ->
      exists kvs,
        LlmGenAI_records st ctx params completion kvs
        /\ (fits (LlmGenAIAttrs.exported (LlmGenAIAttrs.trace_of (sdk st)) ctx params
                    completion) ->
            (forall i msg,
              LlmGenAI.PromptParams.Messages params !! i = Some msg ->
              (is_empty (LlmGenAI.Message.Role msg) = false ->
               attr_get ("gen_ai.prompt." +:+ itoa i +:+ ".role") kvs
               = Some (STRING (LlmGenAI.Message.Role msg)))
              /\ (is_empty (LlmGenAI.Message.Content msg) = false ->
                  attr_get ("gen_ai.prompt." +:+ itoa i +:+ ".content") kvs
                  = Some (STRING (LlmGenAI.Message.Content msg)))
              /\ (forall j tc,
                    LlmGenAI.Message.ToolCalls msg !! j = Some tc ->
                    is_empty (LlmGenAI.ToolCall.Name tc) = false ->
                    attr_get ("gen_ai.prompt." +:+ itoa i +:+ ".tool_calls."
                              +:+ itoa j +:+ ".name") kvs
                    = Some (STRING (LlmGenAI.ToolCall.Name tc))))
        /\ (forall i msg,
              LlmGenAI.CompletionParams.Messages completion !! i = Some msg ->
              (is_empty (LlmGenAI.Message.Role msg) = false ->
               attr_get ("gen_ai.completion." +:+ itoa i +:+ ".role") kvs
               = Some (STRING (LlmGenAI.Message.Role msg)))
              /\ (is_empty (LlmGenAI.Message.Content msg) = false ->
                  attr_get ("gen_ai.completion." +:+ itoa i +:+ ".content") kvs
                  = Some (STRING (LlmGenAI.Message.Content msg)))
              /\ (forall j tc,
                    LlmGenAI.Message.ToolCalls msg !! j = Some tc ->
                    is_empty (LlmGenAI.ToolCall.Name tc) = false ->
                    attr_get ("gen_ai.completion." +:+ itoa i +:+ ".tool_calls."
                              +:+ itoa j +:+ ".name") kvs
                    = Some (STRING (LlmGenAI.ToolCall.Name tc))))))
  /\ (forall prompt completion usage,
        LlmDualAttrs.trace_of (sdk st) = true ->
        exists kvs,
          LlmDual_records st ctx prompt completion usage kvs
          /\ (fits (LlmDualAttrs.exported (LlmDualAttrs.trace_of (sdk st)) ctx prompt
                      completion usage) ->
              (forall i msg,
                LlmDual.Prompt.Messages prompt !! i = Some msg ->
                attr_get ("gen_ai.prompt." +:+ itoa i +:+ ".role") kvs
                = Some (STRING (LlmDual.Message.Role msg))
                /\ (is_empty (LlmDual.Message.Content msg) = false ->
                    attr_get ("gen_ai.prompt." +:+ itoa i +:+ ".content") kvs
                    = Some (STRING (LlmDual.Message.Content msg)))
                /\ (is_empty (LlmDual.Message.ToolCallID msg) = false ->
                    attr_get ("gen_ai.prompt." +:+ itoa i +:+ ".tool_call_id") kvs
                    = Some (STRING (LlmDual.Message.ToolCallID msg)))
                /\ (forall j tc,
                      LlmDual.Message.ToolCalls msg !! j = Some tc ->
                      attr_get ("gen_ai.prompt." +:+ itoa i +:+ ".tool_calls."
                                +:+ itoa j +:+ ".function.name") kvs
                      = Some (STRING (LlmDual.ToolCallFunction.Name
                                        (LlmDual.ToolCall.Function tc)))))
          /\ (forall i msg,
                LlmDual.Completion.Messages completion !! i = Some msg ->
                attr_get ("gen_ai.completion." +:+ itoa i +:+ ".role") kvs
                = Some (STRING (LlmDual.Message.Role msg))
                /\ (is_empty (LlmDual.Message.Content msg) = false ->
                    attr_get ("gen_ai.completion." +:+ itoa i +:+ ".content") kvs
                    = Some (STRING (LlmDual.Message.Content msg)))
                /\ (forall j tc,
                      LlmDual.Message.ToolCalls msg !! j = Some tc ->
                      attr_get ("gen_ai.completion." +:+ itoa i +:+ ".tool_calls."
                                +:+ itoa j +:+ ".function.name") kvs
                      = Some (STRING (LlmDual.ToolCallFunction.Name
                                        (LlmDual.ToolCall.Function tc))))))).
Proof.
  intros T. split.
  - intros params completion Tr. eexists.
    split; [apply LlmGenAI_records_tracing, T|]. rewrite Tr. intros F. split.
    + intros i msg Hi.
      destruct (genai_message_lookup "gen_ai.prompt" _ i msg Hi) as (R & C & N).
      split; [|split].
      * intros H. rewrite (attr_get_kept_fits _ _ F). apply genai_prompt_lookup; try reflexivity. exact (R H).
      * intros H. rewrite (attr_get_kept_fits _ _ F). apply genai_prompt_lookup; try reflexivity. exact (C H).
      * intros j tc Hj Hn. rewrite (attr_get_kept_fits _ _ F). apply genai_prompt_lookup; try reflexivity.
        exact (N j tc Hj Hn).
    + intros i msg Hi.
      destruct (genai_message_lookup "gen_ai.completion" _ i msg Hi) as (R & C & N).
      split; [|split].
      * intros H. rewrite (attr_get_kept_fits _ _ F). apply genai_completion_lookup. exact (R H).
      * intros H. rewrite (attr_get_kept_fits _ _ F). apply genai_completion_lookup. exact (C H).
      * intros j tc Hj Hn. rewrite (attr_get_kept_fits _ _ F). apply genai_completion_lookup. exact (N j tc Hj Hn).
  - intros prompt completion usage Tr. eexists.
    split; [apply LlmDual_records_tracing, T|]. rewrite Tr. intros F. split.
    + intros i msg Hi.
      destruct (dual_prompt_message_lookup _ i msg Hi) as (R & C & I & N).
      split; [|split; [|split]].
      * rewrite (attr_get_kept_fits _ _ F). apply dual_prompt_lookup; try reflexivity. exact R.
      * intros H. rewrite (attr_get_kept_fits _ _ F). apply dual_prompt_lookup; try reflexivity. exact (C H).
      * intros H. rewrite (attr_get_kept_fits _ _ F). apply dual_prompt_lookup; try reflexivity. exact (I H).
      * intros j tc Hj. rewrite (attr_get_kept_fits _ _ F). apply dual_prompt_lookup; try reflexivity. exact (N j tc Hj).
    + intros i msg Hi.
      destruct (dual_completion_message_lookup _ i msg Hi) as (R & C & N).
      split; [|split].
      * rewrite (attr_get_kept_fits _ _ F). apply dual_completion_lookup. exact R.
      * intros H. rewrite (attr_get_kept_fits _ _ F). apply dual_completion_lookup. exact (C H).
      * intros j tc Hj. rewrite (attr_get_kept_fits _ _ F). apply dual_completion_lookup. exact (N j tc Hj).
Qed.

Lemma message_attributes_witness :
  exists kvs,
    LlmGenAI_records (initialized_state true) Background GenAIData.hello_prompt
      GenAIData.hello_completion kvs
    /\ attr_get "gen_ai.prompt.0.role" kvs = Some (STRING "user")
    /\ attr_get "gen_ai.prompt.0.content" kvs = Some (STRING "Hello").
Proof.
  destruct (proj1 (message_attributes (initialized_state true) Background eq_refl)
              GenAIData.hello_prompt GenAIData.hello_completion eq_refl)
    as (kvs & R & P).
  exists kvs. split; [exact R|].
  destruct P as (P & _); [apply Nat.leb_le; reflexivity|].
  destruct (P 0%nat _ eq_refl) as (Ro & Co & _).
  split; [exact (Ro eq_refl)|exact (Co eq_refl)].
Defined.
(** ** Operations on one span leave the others alone *)

Lemma only_span_refl id st : only_span id st st.
Proof.
  split; [apply same_process_refl|]. split; [reflexivity|]. split; [reflexivity|].
  intros sp H. exists sp. split; [exact H|]. split; [reflexivity|].
  split; [reflexivity|]. split; [exists []; symmetry; apply app_nil_r|reflexivity].
Qed.

Lemma only_span_put id st sp sp' :
  spans (otel st) !! id = Some sp ->
  span_ended sp = false ->
  span_name sp' = span_name sp ->
  span_parent sp' = span_parent sp ->
  (exists ks, map fst (span_attrs sp') = map fst (span_attrs sp) ++ ks) ->
  only_span id st (put_span id sp' st).
Proof.
  intros H E N P K. split; [repeat split|]. split; [|split].
  - cbn [put_span set_spans set_otel otel spans]. apply length_insert.
  - intros id' D. cbn [put_span set_spans set_otel otel spans].
    apply list_lookup_insert_ne. congruence.
  - intros sp0 H0. rewrite H in H0. injection H0 as <-. exists sp'.
    split; [eapply put_span_lookup; exact H|]. split; [exact N|]. split; [exact P|].
    split; [exact K|]. rewrite E. discriminate.
Qed.

(** An operation that sets [f sp] in place of a live span [sp] and does
    nothing on a closed one. *)
Lemma only_span_cases {A} (m : M A) (a : A) id st (f : Span -> Span) :
  (forall sp, spans (otel st) !! id = Some sp -> span_ended sp = false ->
     m st = Done a (put_span id (f sp) st)) ->
  (closed (recordingSpan id) st -> m st = Done a st) ->
  (forall sp, span_name (f sp) = span_name sp
              /\ span_parent (f sp) = span_parent sp
              /\ exists ks, map fst (span_attrs (f sp)) = map fst (span_attrs sp) ++ ks) ->
  exists st', m st = Done a st' /\ only_span id st st'.
Proof.
  intros L C F. destruct (spans (otel st) !! id) as [sp|] eqn:H.
  - destruct (span_ended sp) eqn:E.
    + exists st. split; [|apply only_span_refl]. apply C.
      cbn [closed]. rewrite H. exact E.
    + exists (put_span id (f sp) st). split; [apply L; [reflexivity|exact E]|].
      destruct (F sp) as (N & P & K). eapply only_span_put; eassumption.
  - exists st. split; [|apply only_span_refl]. apply C. cbn [closed]. rewrite H. exact I.
Qed.

Lemma update_span_live id f st sp :
  spans (otel st) !! id = Some sp -> span_ended sp = false ->
  update_span id f st = put_span id (f sp) st.
Proof. intros H E. unfold update_span. rewrite H, E. reflexivity. Qed.

Lemma SetError_live id msg st sp :
  spans (otel st) !! id = Some sp -> span_ended sp = false ->
  LlmGenAI.SetError (Some {| LlmGenAI.span := Some (recordingSpan id) |}) (Some msg) st
  = Done tt (put_span id (set_status msg (add_error msg sp)) st).
Proof.
  intros H E.
  cbv beta iota delta [LlmGenAI.SetError LlmGenAI.deref bind ret modify LlmGenAI.span
                       span_RecordError span_SetStatus_Error].
  rewrite (update_span_live id (add_error msg) st sp H E).
  rewrite (update_span_live id (set_status msg) _ (add_error msg sp)
             (put_span_lookup id _ sp st H) E).
  rewrite put_span_put. reflexivity.
Qed.

(** X18. No operation on a span writes to another span.  LogCompletion (both
    revisions), SetError, End of an LLM span, End of a hierarchy span and an
    annotation helper whose context points to the span return without a
    panic, in any state, and change nothing in the process but that one
    span: the store keeps its length and every other span, and the span
    itself keeps its name, its parent and every attribute key it held, in
    place (a key set again takes the new value), gains keys only after
    these, and is left untouched when it had already ended. *)
Theorem span_independence (id : nat) (st : State) :
  (forall params,
      exists st',
        LlmGenAI.LogCompletion (Some {| LlmGenAI.span := Some (recordingSpan id) |})
          params st = Done tt st'
        /\ only_span id st st')
  /\ (forall c completion usage,
        exists st',
          LlmDual.LogCompletion
            (Some {| LlmDual.span := Some (recordingSpan id); LlmDual.ctx := c |})
            completion usage st = Done tt st'
          /\ only_span id st st')
  /\ (forall msg,
        exists st',
          LlmGenAI.SetError (Some {| LlmGenAI.span := Some (recordingSpan id) |})
            (Some msg) st = Done tt st'
          /\ only_span id st st')
  /\ (exists st',
        LlmGenAI.End_ (Some {| LlmGenAI.span := Some (recordingSpan id) |}) st
        = Done tt st'
        /\ only_span id st st')
  /\ (forall c n,
        exists st',
          Workflow.End_ (Some {| Workflow.span := Some (recordingSpan id);
                                 Workflow.ctx := c; Workflow.name := n |}) st
          = Done tt st'
          /\ only_span id st st')
  /\ (forall c ctx,
        ctx_span ctx = recordingSpan id ->
        exists ctx' st', call c ctx st = Done ctx' st' /\ only_span id st st').
Proof.
  split; [|split; [|split; [|split; [|split]]]].
  - intros params.
    apply (only_span_cases _ tt id st
             (fun sp => end_span
                          (add_attrs (LlmGenAIAttrs.completionAttrs
                                        (LlmGenAIAttrs.trace_of (sdk st)) params) sp))).
    + intros sp H E. apply (LlmGenAIFacts.genai_ends_LogCompletion (sdk st)); auto.
    + apply LlmGenAIFacts.genai_LogCompletion_closed.
    + intros sp. repeat split. apply map_fst_set_attrs.
  - intros c completion usage.
    apply (only_span_cases _ tt id st
             (fun sp => end_span
                          (add_attrs (LlmDual.completionAttrs
                                        (LlmDualAttrs.trace_of (sdk st)) completion usage)
                             sp))).
    + intros sp H E. apply (LlmDualFacts.dual_ends_LogCompletion (sdk st)); auto.
    + apply LlmDualFacts.dual_LogCompletion_closed.
    + intros sp. repeat split. apply map_fst_set_attrs.
  - intros msg.
    apply (only_span_cases _ tt id st (fun sp => set_status msg (add_error msg sp))).
    + intros sp H E. apply SetError_live; assumption.
    + intros C. unfold LlmGenAI.SetError, LlmGenAI.deref.
      eapply no_op_bind; [apply no_op_ret|]. cbn [LlmGenAI.span].
      eapply no_op_bind; [apply no_op_RecordError, C|apply no_op_SetStatus, C].
    + intros sp. repeat split. exists []. symmetry. apply app_nil_r.
  - apply (only_span_cases _ tt id st end_span).
    + intros sp H E. unfold LlmGenAI.End_, LlmGenAI.deref, bind. cbn [ret LlmGenAI.span].
      apply End_live; assumption.
    + intros C. unfold LlmGenAI.End_, LlmGenAI.deref.
      eapply no_op_bind; [apply no_op_ret|]. apply no_op_End, C.
    + intros sp. repeat split. exists []. symmetry. apply app_nil_r.
  - intros c n. apply (only_span_cases _ tt id st end_span).
    + intros sp H E. cbn [Workflow.End_ Workflow.span]. apply End_live; assumption.
    + intros C. apply no_op_End, C.
    + intros sp. repeat split. exists []. symmetry. apply app_nil_r.
  - intros c ctx Hs.
    destruct (call_appends c ctx id (sdk st) Hs) as (ctx' & kvs & A & R & _).
    exists ctx'. apply (only_span_cases _ ctx' id st (add_attrs kvs)).
    + intros sp H E. apply A; auto.
    + intros C. apply call_closed; [exact R|]. rewrite Hs. exact C.
    + intros sp. repeat split. apply map_fst_set_attrs.
Qed.

Lemma span_independence_witness :
  exists ctx' st',
    call (CallWithUser "u1" []) (on_span 0) one_open_span = Done ctx' st'
    /\ only_span 0 one_open_span st'.
Proof.
  exact (proj2 (proj2 (proj2 (proj2 (proj2 (span_independence 0 one_open_span)))))
           (CallWithUser "u1" []) (on_span 0) eq_refl).
Defined.
(** ** From Init to the exported span *)

Lemma calls_closed (cs : list Call) :
  forall ctx st,
    closed (ctx_span ctx) st ->
    exists ctx', no_op (calls cs ctx) st ctx' /\ returns (calls cs ctx) ctx'.
Proof.
  induction cs as [|c cs IH]; intros ctx st C; cbn [calls].
  - exists ctx. split; [apply no_op_ret|apply returns_ret].
  - destruct (call_merges c ctx) as (ctx1 & R1 & _ & S1 & _).
    destruct (IH ctx1 st) as (ctx' & N & R); [rewrite S1; exact C|].
    exists ctx'. split.
    + eapply no_op_bind; [apply call_closed; eassumption|exact N].
    + eapply returns_bind; eassumption.
Qed.

(** X19. From Init to the exported span.  After a successful Init, contexts
    built from the background context by any sequence of annotation helpers
    cost nothing (no span exists yet, so the helpers write nothing), and the
    span that any of the span-starting calls then opens from the result
    shows, for each of the twelve fields, the value given by the last helper
    call that set the field, and no attribute for a field that no call set
    or that was last set to the empty string. *)
Theorem init_to_span (opts : list Option_) (st : State) (cfg : config)
    (cs : list Call) (o : Opening) :
  initialized (sdk st) = false ->
  resolveConfig (os (world st)) opts = inl cfg ->
  enabled cfg = true ->
  exporter_New_err (world st) = None ->
  resource_Merge_err (world st) = None ->
  Forall (fun tp => (tp < tp_built (otel st))%nat) (tp_down (otel st)) ->
  exists st1 ctx h ctx' st2 sp,
    Init opts st = Done (shutdown, None) st1
    /\ no_op (calls cs Background) st1 ctx
    /\ open o ctx st1 = Done (h, ctx') st2
    /\ started st1 st2 h sp
    /\ span_name sp = opening_name o
    /\ span_parent sp = None
    /\ (forall f,
          attr_get (key_of f) (span_attrs sp)
          = match last_some (fun c => sets c f) cs with
            | Some v => projected v
            | None => None
            end).
Proof.
  intros Ini R E X M D.
  pose proof (Init_succeeds opts st cfg Ini R E X M) as HI.
  set (st1 := add_log _ _ _) in HI.
  assert (T : tracing st1 = true).
  { unfold tracing. cbn. rewrite (not_down _ _ D). reflexivity. }
  destruct (calls_closed cs Background st1 Logic.I) as (ctx & N & Rc).
  destruct (calls_merge cs Background) as (ctx0 & R0 & _ & S0 & F0).
  assert (ctx0 = ctx) as -> by (eapply returns_unique; eassumption).
  exists st1, ctx. eexists _, _, _, _. split; [exact HI|]. split; [exact N|].
  split; [apply open_tracing, T|]. split; [split; reflexivity|].
  split; [reflexivity|]. split.
  - cbn [span_parent add_attrs new_span].
    unfold parent_of, SpanContextFromContext, SpanFromContext.
    rewrite S0. reflexivity.
  - intros f. cbn [span_attrs add_attrs new_span].
    rewrite attr_get_kept_annotation by (apply keys_own_attrs || apply key_of_prefix).
    rewrite attr_get_projection, F0.
    destruct (last_some _ cs); [reflexivity|]. destruct f; reflexivity.
Qed.

Lemma init_to_span_witness :
  exists st1 ctx h ctx' st2 sp,
    Init [WithAPIKey "tsk_test"] (fresh plain_world) = Done (shutdown, None) st1
    /\ no_op (calls [CallWithUser "u1" [UserRole "admin"]; CallWithUser "u2" []]
                Background) st1 ctx
    /\ open (OpenKind KindTask "step") ctx st1 = Done (h, ctx') st2
    /\ started st1 st2 h sp
    /\ attr_get AttrUserID (span_attrs sp) = Some (STRING "u2")
    /\ attr_get AttrUserRole (span_attrs sp) = Some (STRING "admin")
    /\ attr_get AttrTenantID (span_attrs sp) = None.
Proof.
  destruct (init_to_span [WithAPIKey "tsk_test"] (fresh plain_world)
              {| apiKey := "tsk_test"; endpoint := DefaultEndpoint; appName := "agent";
                 environment := "development"; enabled := true; traceContent := true |}
              [CallWithUser "u1" [UserRole "admin"]; CallWithUser "u2" []]
              (OpenKind KindTask "step")
              eq_refl eq_refl eq_refl eq_refl eq_refl (List.Forall_nil _))
    as (st1 & ctx & h & ctx' & st2 & sp & HI & N & O & S & _ & _ & A).
  exists st1, ctx, h, ctx', st2, sp.
  split; [exact HI|]. split; [exact N|]. split; [exact O|]. split; [exact S|].
  split; [exact (A FuserID)|]. split; [exact (A FuserRole)|exact (A FtenantID)].
Defined.
